(** * Habit Tracker CLI (app-template.js): model and checked properties

    A shallow embedding of the domain core of [app-template.js]: the
    utilities [uuid], [formatDate], [startOfWeek], [endOfWeek], the
    [UserProfile] singleton, the [Habit] class and the mutating part of the
    [HabitTracker] class together with the seeding done by [main].

    Conventions of the model.
    - A JavaScript number is a [number]: NaN, the two infinities, or a
      rational.  Arithmetic on finite numbers is exact; the rounding of IEEE
      doubles and the sign of zero are outside the model.
    - A [Date] object is its time value, a [time]: [None] is the Invalid
      Date (time value NaN), [Some t] is [t] milliseconds since the epoch.
      The built-in methods follow the ECMAScript algorithms ([MakeDay],
      [MakeTime], [TimeClip], ...).  Local time is UTC plus a fixed offset
      [LocalTZA]; daylight-saving transitions are outside the model.
    - What the host decides is an input: the parsers [StringToNumber] and
      [Date_parse] and the offset [LocalTZA] form an [engine]; the clock
      readings, the text of [Math.random().toString(36)] and the success of
      the file write of one call form an [ambient].
    - A method that mutates [this] returns the new value of the object; an
      exception is a result of its own that still carries the state reached
      when it was thrown. *)

From Stdlib Require Import ZArith QArith Qround Lqa Lia Bool List String Ascii.
Import ListNotations.

Open Scope string_scope.
Open Scope Z_scope.

(** ** JavaScript numbers and values *)

Inductive number : Type :=
| NaN
| NegInf
| Fin (q : Q)
| PosInf.

Definition Qlt_bool (a b : Q) : bool := negb (Qle_bool b a).

(** [a <= b], [a < b], [a >= b] of JavaScript: false when an operand is NaN. *)
Definition num_leb (a b : number) : bool :=
  match a, b with
  | NaN, _ | _, NaN => false
  | NegInf, _ => true
  | _, PosInf => true
  | Fin x, Fin y => Qle_bool x y
  | _, _ => false
  end.

Definition num_ltb (a b : number) : bool :=
  match a, b with
  | NaN, _ | _, NaN => false
  | PosInf, _ => false
  | _, NegInf => false
  | Fin x, Fin y => Qlt_bool x y
  | _, _ => true
  end.

Definition num_geb (a b : number) : bool := num_leb b a.

Definition isNaN (a : number) : bool :=
  match a with NaN => true | _ => false end.

(** The sign of a non-zero product or quotient of an infinity and [q]. *)
Definition signed_inf (positive : bool) : number :=
  if positive then PosInf else NegInf.

Definition num_mul (a b : number) : number :=
  match a, b with
  | NaN, _ | _, NaN => NaN
  | Fin x, Fin y => Fin (x * y)
  | PosInf, PosInf | NegInf, NegInf => PosInf
  | PosInf, NegInf | NegInf, PosInf => NegInf
  | PosInf, Fin y | Fin y, PosInf =>
      if Qeq_bool y 0 then NaN else signed_inf (Qlt_bool 0 y)
  | NegInf, Fin y | Fin y, NegInf =>
      if Qeq_bool y 0 then NaN else signed_inf (Qlt_bool y 0)
  end.

Definition num_div (a b : number) : number :=
  match a, b with
  | NaN, _ | _, NaN => NaN
  | Fin x, Fin y =>
      if Qeq_bool y 0
      then (if Qeq_bool x 0 then NaN else signed_inf (Qlt_bool 0 x))
      else Fin (x / y)
  | Fin _, (PosInf | NegInf) => Fin 0
  | (PosInf | NegInf), (PosInf | NegInf) => NaN
  | PosInf, Fin y => signed_inf (Qle_bool 0 y)
  | NegInf, Fin y => signed_inf (Qlt_bool y 0)
  end.

(** [Math.min] of two arguments. *)
Definition Math_min (a b : number) : number :=
  match a, b with
  | NaN, _ | _, NaN => NaN
  | _, _ => if num_leb a b then a else b
  end.

Definition of_Z (z : Z) : number := Fin (inject_Z z).
Definition of_nat (n : nat) : number := of_Z (Z.of_nat n).

(** Equality of numbers as values: [Qeq] on the finite ones. *)
Definition num_eq (a b : number) : Prop :=
  match a, b with
  | NaN, NaN | NegInf, NegInf | PosInf, PosInf => True
  | Fin x, Fin y => x == y
  | _, _ => False
  end.

(** The order of the extended rationals; NaN is related to nothing. *)
Definition num_le (a b : number) : Prop := num_leb a b = true.

(** The values a caller can pass where the code expects a number or that a
    JSON file can hold in a scalar field. *)
Inductive value : Type :=
| VUndefined
| VNull
| VBool (b : bool)
| VNum (n : number)
| VStr (s : string).

(** [a ?? b] *)
Definition nullish (a b : value) : value :=
  match a with
  | VUndefined | VNull => b
  | _ => a
  end.

(** ** Time values and the host *)

Definition time : Type := option Z.

Record engine : Type := {
  StringToNumber : string -> number;   (* ToNumber applied to a String *)
  Date_parse : string -> time;         (* new Date(string) *)
  LocalTZA : Z                         (* offset of local time, in ms *)
}.

Record ambient : Type := {
  clock_uuid : Z;        (* Date.now() read by uuid() *)
  random36 : string;     (* Math.random().toString(36) *)
  clock : Z;             (* new Date() *)
  write_ok : bool        (* fs.writeFileSync does not throw *)
}.

Inductive exn : Type :=
| TypeError (msg : string)
| RangeError (msg : string).

(** ** Calendar arithmetic of ECMAScript (section 21.4.1) *)

Definition msPerDay : Z := 86400000.
Definition maxTime : Z := 8640000000000000.

Definition Day (t : Z) : Z := t / msPerDay.
Definition TimeWithinDay (t : Z) : Z := t mod msPerDay.
Definition WeekDay (t : Z) : Z := (Day t + 4) mod 7.

Definition DaysInYear (y : Z) : Z :=
  if (y mod 4 =? 0) && (negb (y mod 100 =? 0) || (y mod 400 =? 0))
  then 366 else 365.

Definition DayFromYear (y : Z) : Z :=
  365 * (y - 1970) + (y - 1969) / 4 - (y - 1901) / 100 + (y - 1601) / 400.

(** The largest [y] with [DayFromYear y <= Day t]: the estimate from the mean
    length of a Gregorian year is off by at most one. *)
Definition YearFromDay (d : Z) : Z :=
  let y := 1970 + (400 * d) / 146097 in
  if d <? DayFromYear y then y - 1
  else if DayFromYear (y + 1) <=? d then y + 1
  else y.

Definition YearFromTime (t : Z) : Z := YearFromDay (Day t).

Definition InLeapYear (t : Z) : Z :=
  if DaysInYear (YearFromTime t) =? 366 then 1 else 0.

Definition DayWithinYear (t : Z) : Z := Day t - DayFromYear (YearFromTime t).

(** Days of the year before month [m] (0 = January) starts. *)
Definition DaysBeforeMonth (m leap : Z) : Z :=
  match m with
  | 0 => 0
  | 1 => 31
  | 2 => 59 + leap
  | 3 => 90 + leap
  | 4 => 120 + leap
  | 5 => 151 + leap
  | 6 => 181 + leap
  | 7 => 212 + leap
  | 8 => 243 + leap
  | 9 => 273 + leap
  | 10 => 304 + leap
  | 11 => 334 + leap
  | _ => 365 + leap
  end.

Fixpoint month_scan (fuel : nat) (m dwy leap : Z) : Z :=
  match fuel with
  | O => m
  | S fuel' =>
      if dwy <? DaysBeforeMonth (m + 1) leap then m
      else month_scan fuel' (m + 1) dwy leap
  end.

Definition MonthFromTime (t : Z) : Z :=
  month_scan 11 0 (DayWithinYear t) (InLeapYear t).

Definition DateFromTime (t : Z) : Z :=
  DayWithinYear t - DaysBeforeMonth (MonthFromTime t) (InLeapYear t) + 1.

Definition HourFromTime (t : Z) : Z := (t / 3600000) mod 24.
Definition MinFromTime (t : Z) : Z := (t / 60000) mod 60.
Definition SecFromTime (t : Z) : Z := (t / 1000) mod 60.
Definition msFromTime (t : Z) : Z := t mod 1000.

Definition MakeTime (h m s ms : Z) : Z :=
  h * 3600000 + m * 60000 + s * 1000 + ms.

Definition MakeDay (year month date : Z) : Z :=
  let ym := year + month / 12 in
  let mn := month mod 12 in
  let leap := if DaysInYear ym =? 366 then 1 else 0 in
  DayFromYear ym + DaysBeforeMonth mn leap + date - 1.

Definition MakeDate (day tm : Z) : Z := day * msPerDay + tm.

Definition TimeClip (t : Z) : time :=
  if Z.abs t <=? maxTime then Some t else None.

(** ** The methods of [Date] the program uses *)

(** Integer-valued numbers that may be NaN ([None]), as returned by
    [getDay] and [getDate]. *)
Definition int_or_nan : Type := option Z.

Definition lift2 (f : Z -> Z -> Z) (a b : int_or_nan) : int_or_nan :=
  match a, b with
  | Some x, Some y => Some (f x y)
  | _, _ => None
  end.

Section DateMethods.
Variable E : engine.

Definition LocalTime (t : Z) : Z := t + LocalTZA E.
Definition UTC (t : Z) : Z := t - LocalTZA E.

Definition getDay (d : time) : int_or_nan :=
  option_map (fun t => WeekDay (LocalTime t)) d.

Definition getDate (d : time) : int_or_nan :=
  option_map (fun t => DateFromTime (LocalTime t)) d.

(** [d.setDate(date)]: the new time value of [d]. *)
Definition setDate (d : time) (date : int_or_nan) : time :=
  match d, date with
  | Some t, Some dt =>
      let lt := LocalTime t in
      TimeClip (UTC (MakeDate (MakeDay (YearFromTime lt) (MonthFromTime lt) dt)
                              (TimeWithinDay lt)))
  | _, _ => None
  end.

(** [d.setHours(h, m, s, ms)]: the new time value of [d]. *)
Definition setHours (d : time) (h m s ms : Z) : time :=
  match d with
  | Some t =>
      TimeClip (UTC (MakeDate (Day (LocalTime t)) (MakeTime h m s ms)))
  | None => None
  end.

(** [a >= b] and [a <= b] on Date objects compare the time values. *)
Definition date_geb (a b : time) : bool :=
  match a, b with
  | Some x, Some y => y <=? x
  | _, _ => false
  end.

Definition date_leb (a b : time) : bool :=
  match a, b with
  | Some x, Some y => x <=? y
  | _, _ => false
  end.

(** [startOfWeek(date)] *)
Definition startOfWeek (date : time) : time :=
  let d := date in
  let day := option_map (fun g => Z.rem (g + 6) 7) (getDay d) in
  let d := setDate d (lift2 Z.sub (getDate d) day) in
  let d := setHours d 0 0 0 0 in
  d.

(** [endOfWeek(date)] *)
Definition endOfWeek (date : time) : time :=
  let s := startOfWeek date in
  let e := s in
  let e := setDate e (lift2 Z.add (getDate s) (Some 6)) in
  let e := setHours e 23 59 59 999 in
  e.
End DateMethods.

(** ** Text of dates and identifiers *)

Definition digit (n : Z) : ascii := ascii_of_nat (48 + Z.to_nat n).

(** [k] decimal digits of [n], zero padded. *)
Fixpoint pad (k : nat) (n : Z) : string :=
  match k with
  | O => EmptyString
  | S k' => pad k' (n / 10) ++ String (digit (n mod 10)) EmptyString
  end.

Definition iso_year (y : Z) : string :=
  if (0 <=? y) && (y <=? 9999) then pad 4 y
  else (if y <? 0 then "-" else "+") ++ pad 6 (Z.abs y).

(** The text [toISOString] gives for the time value [t]. *)
Definition iso_text (t : Z) : string :=
  iso_year (YearFromTime t) ++ "-" ++ pad 2 (MonthFromTime t + 1)
  ++ "-" ++ pad 2 (DateFromTime t)
  ++ "T" ++ pad 2 (HourFromTime t) ++ ":" ++ pad 2 (MinFromTime t)
  ++ ":" ++ pad 2 (SecFromTime t) ++ "." ++ pad 3 (msFromTime t) ++ "Z".

(** [d.toISOString()]; throws a RangeError on the Invalid Date. *)
Definition toISOString (d : time) : exn + string :=
  match d with
  | None => inl (RangeError "Invalid time value")
  | Some t => inr (iso_text t)
  end.

(** [s.slice(a, b)] for [0 <= a <= b]. *)
Definition slice (a b : nat) (s : string) : string := substring a (b - a) s.

(** [formatDate(d)]: the first ten characters of the ISO text. *)
Definition formatDate (d : time) : exn + string :=
  match toISOString d with
  | inl e => inl e
  | inr s => inr (slice 0 10 s)
  end.

Definition digit36 (n : Z) : ascii :=
  if n <? 10 then ascii_of_nat (48 + Z.to_nat n)
  else ascii_of_nat (87 + Z.to_nat n).

Fixpoint base36_digits (fuel : nat) (n : Z) (acc : string) : string :=
  match fuel with
  | O => acc
  | S fuel' =>
      let acc' := String (digit36 (n mod 36)) acc in
      if n / 36 =? 0 then acc' else base36_digits fuel' (n / 36) acc'
  end.

(** [n.toString(36)] for an integer [n >= 0]. *)
Definition toString36 (n : Z) : string :=
  base36_digits (S (Z.to_nat (Z.log2 n))) n EmptyString.

(** [uuid()] *)
Definition uuid (a : ambient) : string :=
  toString36 (clock_uuid a) ++ slice 2 8 (random36 a).


(** ** The [Habit] class *)

Record Habit : Type := {
  id : string;
  name : string;
  targetFrequency : number;
  completions : list string;     (* date strings 'YYYY-MM-DD' *)
  createdAt : string
}.

Definition set_completions (h : Habit) (c : list string) : Habit :=
  {| id := id h; name := name h; targetFrequency := targetFrequency h;
     completions := c; createdAt := createdAt h |}.

(** [arr.includes(x)] on an array of strings. *)
Definition includes (x : string) (arr : list string) : bool :=
  existsb (String.eqb x) arr.

Section HabitClass.
Variable E : engine.

(** [Number(v)] *)
Definition ToNumber (v : value) : number :=
  match v with
  | VUndefined => NaN
  | VNull => Fin 0
  | VBool true => Fin 1
  | VBool false => Fin 0
  | VNum n => n
  | VStr s => StringToNumber E s
  end.

(** [new Habit(name, targetFrequency)].  [Number(...)] is a Number, so the
    left operand of [??] is never null or undefined. *)
Definition Habit_new (a : ambient) (nm : string) (tf : value) : Habit :=
  {| id := uuid a;
     name := nm;
     targetFrequency := ToNumber (nullish (VNum (ToNumber tf)) (VNum (Fin 0)));
     completions := [];
     createdAt := iso_text (clock a) |}.

(** [h.markComplete(date)]: the habit after the call and the value
    returned, or the exception of [formatDate]. *)
Definition markComplete (h : Habit) (date : time) : exn + (Habit * bool) :=
  match formatDate date with
  | inl e => inl e
  | inr dateStr =>
      if negb (includes dateStr (completions h))
      then inr (set_completions h (completions h ++ [dateStr]), true)
      else inr (h, false)
  end.

(** [h.getThisWeekCompletions(referenceDate)] *)
Definition getThisWeekCompletions (h : Habit) (referenceDate : time)
  : list string :=
  let start := startOfWeek E referenceDate in
  let end_ := endOfWeek E referenceDate in
  filter (fun d =>
            let dt := Date_parse E (d ++ "T00:00:00") in
            date_geb dt start && date_leb dt end_)
         (completions h).

(** [h.isCompletedThisWeek(referenceDate)] *)
Definition isCompletedThisWeek (h : Habit) (referenceDate : time) : bool :=
  num_geb (of_nat (List.length (getThisWeekCompletions h referenceDate)))
          (targetFrequency h).

(** [h.getProgressPercentage(referenceDate)] *)
Definition getProgressPercentage (h : Habit) (referenceDate : time)
  : number :=
  let done := of_nat (List.length (getThisWeekCompletions h referenceDate)) in
  if num_leb (targetFrequency h) (Fin 0) then Fin 0
  else
    let percent := num_mul (num_div done (targetFrequency h)) (Fin 100) in
    Math_min percent (Fin 100).
End HabitClass.

(** ** The [UserProfile] object, the data file and the tracker state *)

Record Stats : Type := {
  habitsCreated : nat;
  totalCompletions : nat
}.

Record Profile : Type := {
  profile_name : string;
  profile_createdAt : string;
  stats : Stats
}.

(** [UserProfile.updateStats(habits)]: the profile after the call. *)
Definition updateStats (this : Profile) (hs : list Habit) : Profile :=
  let n := List.length hs in
  let total :=
    fold_left (fun acc h => (acc + List.length (completions h))%nat) hs 0%nat in
  {| profile_name := profile_name this;
     profile_createdAt := profile_createdAt this;
     stats := {| habitsCreated := n; totalCompletions := total |} |}.

(** What [tracker.user] refers to: the module-level [UserProfile] object, or
    the object [JSON.parse] built from the file, which has the data fields of
    a profile and none of its methods. *)
Inductive user_ref : Type :=
| TheUserProfile
| Parsed (p : Profile).

(** A habit as the file holds it; [None] (or [VUndefined]) is a missing
    field. *)
Record StoredHabit : Type := {
  stored_id : option string;
  stored_name : string;
  stored_targetFrequency : value;
  stored_completions : option (list string);
  stored_createdAt : option string
}.

Record payload : Type := {
  payload_user : option Profile;
  payload_habits : option (list StoredHabit)
}.

(** habits-data.json: missing, not JSON, or a payload. *)
Inductive file : Type :=
| Absent
| Corrupt
| Data (p : payload).

Record state : Type := {
  UserProfile : Profile;     (* the module-level object *)
  habits : list Habit;       (* tracker.habits *)
  user : user_ref;           (* tracker.user *)
  data_file : file
}.

Definition set_UserProfile (s : state) (p : Profile) : state :=
  {| UserProfile := p; habits := habits s; user := user s;
     data_file := data_file s |}.

Definition set_habits (s : state) (hs : list Habit) : state :=
  {| UserProfile := UserProfile s; habits := hs; user := user s;
     data_file := data_file s |}.

Definition set_user (s : state) (u : user_ref) : state :=
  {| UserProfile := UserProfile s; habits := habits s; user := u;
     data_file := data_file s |}.

Definition set_data_file (s : state) (f : file) : state :=
  {| UserProfile := UserProfile s; habits := habits s; user := user s;
     data_file := f |}.

(** The object [tracker.user] denotes. *)
Definition profile (s : state) : Profile :=
  match user s with
  | TheUserProfile => UserProfile s
  | Parsed p => p
  end.

(** The recomputation of the stats over a habit sequence. *)
Definition recomputed (hs : list Habit) : Stats :=
  {| habitsCreated := List.length hs;
     totalCompletions :=
       list_sum (map (fun h => List.length (completions h)) hs) |}.

(** ** Calls that may throw *)

Inductive outcome (A : Type) : Type :=
| Return (a : A) (s : state)
| Throw (e : exn) (s : state).
Arguments Return {A} a s.
Arguments Throw {A} e s.

Definition M (A : Type) : Type := state -> outcome A.

Definition ret {A} (a : A) : M A := fun s => Return a s.

Definition bind {A B} (m : M A) (k : A -> M B) : M B :=
  fun s =>
    match m s with
    | Return a s' => k a s'
    | Throw e s' => Throw e s'
    end.

Notation "x <- m ;; k" := (bind m (fun x => k))
  (at level 61, m at next level, right associativity).
Notation "m ;;; k" := (bind m (fun _ => k))
  (at level 61, right associativity).

(** The state a call leaves behind, returned or thrown. *)
Definition state_of {A} (o : outcome A) : state :=
  match o with
  | Return _ s => s
  | Throw _ s => s
  end.

Definition returned {A} (o : outcome A) : option A :=
  match o with
  | Return a _ => Some a
  | Throw _ _ => None
  end.

(** ** Arrays *)

(** The array index a number denotes as a property key, if any. *)
Definition array_index (n : number) : option nat :=
  match n with
  | Fin q =>
      let r := Qred q in
      if (Zpos (Qden r) =? 1) && (0 <=? Qnum r)
      then Some (Z.to_nat (Qnum r)) else None
  | _ => None
  end.

(** [arr[i] = x] for [i] in range; the object at [i] mutated in place. *)
Fixpoint list_set {A} (i : nat) (x : A) (l : list A) : list A :=
  match l, i with
  | [], _ => []
  | _ :: t, O => x :: t
  | y :: t, S i' => y :: list_set i' x t
  end.

Definition Qtrunc (q : Q) : Z :=
  if Qle_bool 0 q then Qfloor q else Qceiling q.

(** The start position [arr.splice(idx, ...)] works at. *)
Definition splice_start (len : nat) (idx : number) : nat :=
  match idx with
  | NaN | NegInf => 0%nat
  | PosInf => len
  | Fin q =>
      let r := Qtrunc q in
      if r <? 0 then Z.to_nat (Z.max (Z.of_nat len + r) 0)
      else Z.to_nat (Z.min r (Z.of_nat len))
  end.

(** The array after [arr.splice(idx, 1)]. *)
Definition splice1 {A} (l : list A) (idx : number) : list A :=
  let k := splice_start (List.length l) idx in
  firstn k l ++ skipn (k + 1) l.

(** ** The [HabitTracker] class *)

(** The value [completeHabit] returns: [{ error }] or [{ habit, added }]. *)
Inductive completeResult : Type :=
| InvalidIndex (error : string)
| Completed (habit : Habit) (added : bool).

(** [JSON.stringify] of a number: NaN and the infinities become null. *)
Definition json_number (n : number) : value :=
  match n with
  | Fin q => VNum (Fin q)
  | _ => VNull
  end.

Definition stored (h : Habit) : StoredHabit :=
  {| stored_id := Some (id h);
     stored_name := name h;
     stored_targetFrequency := json_number (targetFrequency h);
     stored_completions := Some (completions h);
     stored_createdAt := Some (createdAt h) |}.

(** The payload [saveToFile] writes. *)
Definition snapshot (s : state) : payload :=
  {| payload_user := Some (profile s);
     payload_habits := Some (map stored (habits s)) |}.

Section TrackerClass.
Variable E : engine.

(** [tracker.saveToFile()]: a failed write is caught and logged. *)
Definition saveToFile (a : ambient) (s : state) : state :=
  if write_ok a then set_data_file s (Data (snapshot s)) else s.

(** [this.user.updateStats(this.habits)] *)
Definition user_updateStats : M unit :=
  fun s =>
    match user s with
    | TheUserProfile =>
        Return tt (set_UserProfile s (updateStats (UserProfile s) (habits s)))
    | Parsed _ =>
        Throw (TypeError "this.user.updateStats is not a function") s
    end.

(** [tracker.addHabit(name, frequency)] *)
Definition addHabit (a : ambient) (nm : string) (frequency : value)
  : M Habit :=
  fun s =>
    let h := Habit_new E a nm frequency in
    let s := set_habits s (habits s ++ [h]) in
    (user_updateStats ;;;
     fun s => Return h (saveToFile a s)) s.

(** [this.habits[i].markComplete(date)] on the habit object at position
    [i]; [undefined.markComplete] throws. *)
Definition markComplete_at (i : option nat) (date : time)
  : M (Habit * bool) :=
  fun s =>
    match i with
    | Some i =>
        match nth_error (habits s) i with
        | Some habit =>
            match markComplete habit date with
            | inr (habit', added) =>
                Return (habit', added)
                       (set_habits s (list_set i habit' (habits s)))
            | inl e => Throw e s
            end
        | None =>
            Throw (TypeError "Cannot read properties of undefined") s
        end
    | None => Throw (TypeError "Cannot read properties of undefined") s
    end.

(** The index test shared by [completeHabit] and [deleteHabit]. *)
Definition index_rejected (idx : number) (s : state) : bool :=
  isNaN idx || num_ltb idx (Fin 0)
  || num_geb idx (of_nat (List.length (habits s))).

(** [tracker.completeHabit(habitIndex)] *)
Definition completeHabit (a : ambient) (habitIndex : value)
  : M completeResult :=
  fun s =>
    let idx := ToNumber E habitIndex in
    if index_rejected idx s then Return (InvalidIndex "Index tidak valid") s
    else
      (r <- markComplete_at (array_index idx) (Some (clock a)) ;;
       let '(habit, added) := r in
       if added
       then user_updateStats ;;;
            fun s => Return (Completed habit added) (saveToFile a s)
       else ret (Completed habit added)) s.

(** [tracker.deleteHabit(habitIndex)] *)
Definition deleteHabit (a : ambient) (habitIndex : value) : M bool :=
  fun s =>
    let idx := ToNumber E habitIndex in
    if index_rejected idx s then Return false s
    else
      let s := set_habits s (splice1 (habits s) idx) in
      (user_updateStats ;;;
       fun s => Return true (saveToFile a s)) s.

(** The callback of the [map] in [loadFromFile]. *)
Definition restore (a : ambient) (h : StoredHabit) : Habit :=
  let habit :=
    Habit_new E a (stored_name h)
              (nullish (stored_targetFrequency h) (VNum (Fin 0))) in
  {| id := match stored_id h with Some i => i | None => id habit end;
     name := name habit;
     targetFrequency := targetFrequency habit;
     completions :=
       match stored_completions h with Some c => c | None => [] end;
     createdAt :=
       match stored_createdAt h with
       | Some c => c
       | None => createdAt habit
       end |}.

(** [fresh i] is what the host contributes to the [i]-th [new Habit]. *)
Fixpoint restore_all (fresh : nat -> ambient) (i : nat)
         (l : list StoredHabit) : list Habit :=
  match l with
  | [] => []
  | h :: t => restore (fresh i) h :: restore_all fresh (S i) t
  end.

(** [tracker.loadFromFile()]: whatever is thrown inside is caught. *)
Definition loadFromFile (a : ambient) (fresh : nat -> ambient) (s : state)
  : state :=
  match data_file s with
  | Absent => saveToFile a s
  | Corrupt => s
  | Data parsed =>
      let s :=
        set_user s match payload_user parsed with
                   | Some u => Parsed u
                   | None => user s
                   end in
      let s :=
        set_habits s
          (restore_all fresh 0
             match payload_habits parsed with Some l => l | None => [] end) in
      state_of (user_updateStats s)
  end.

(** The [UserProfile] object when the module is loaded. *)
Definition UserProfile_init (a : ambient) : Profile :=
  {| profile_name := "User";
     profile_createdAt := iso_text (clock a);
     stats := {| habitsCreated := 0; totalCompletions := 0 |} |}.

(** [new HabitTracker()] in a process that finds [disk]. *)
Definition HabitTracker_new (a : ambient) (fresh : nat -> ambient)
           (disk : file) : state :=
  loadFromFile a fresh
    {| UserProfile := UserProfile_init a; habits := [];
       user := TheUserProfile; data_file := disk |}.

(** [tracker.clearAllData()] *)
Definition clearAllData (a : ambient) : M unit :=
  fun s =>
    let s := set_habits s [] in
    let s := set_user s TheUserProfile in
    let s :=
      set_UserProfile s
        {| profile_name := profile_name (UserProfile s);
           profile_createdAt := iso_text (clock a);
           stats := stats (UserProfile s) |} in
    (user_updateStats ;;;
     fun s => Return tt (saveToFile a s)) s.

(** The part of [main] before the menu: the tracker is built and, when it
    holds no habit, seeded with demo data.  [amb k] is what the host
    contributes to the [k]-th step. *)
Definition main_seed (amb : nat -> ambient) (fresh : nat -> ambient)
           (disk : file) : outcome unit :=
  let tracker := HabitTracker_new (amb 0%nat) fresh disk in
  if (List.length (habits tracker) =? 0)%nat
  then
    (addHabit (amb 1%nat) "Belajar coding" (VNum (Fin 5)) ;;;
     addHabit (amb 2%nat) "Membaca buku" (VNum (Fin 3)) ;;;
     markComplete_at (Some 0%nat) (Some (clock (amb 3%nat))) ;;;
     let yesterday := Some (clock (amb 4%nat)) in
     let yesterday :=
       setDate E yesterday (lift2 Z.sub (getDate E yesterday) (Some 1)) in
     markComplete_at (Some 0%nat) yesterday ;;;
     fun s => Return tt (saveToFile (amb 5%nat) s)) tracker
  else Return tt tracker.
End TrackerClass.

(** ** A sample host

    Used to run the model on concrete inputs.  It reads strings of decimal
    digits as numbers and the 19-character form [YYYY-MM-DDTHH:mm:ss] as a
    local time, and it is seven hours ahead of UTC.  Every other string is
    read as NaN or as the Invalid Date; the examples pass no such string
    where a real host would read it otherwise. *)

Definition is_digit (c : ascii) : bool :=
  let n := nat_of_ascii c in ((48 <=? n) && (n <=? 57))%nat.

Fixpoint digits_value (s : string) (acc : Z) : option Z :=
  match s with
  | EmptyString => Some acc
  | String c t =>
      if is_digit c
      then digits_value t (10 * acc + (Z.of_nat (nat_of_ascii c) - 48))
      else None
  end.

Definition sample_StringToNumber (s : string) : number :=
  match digits_value s 0 with
  | Some z => of_Z z
  | None => NaN
  end.

Definition char_at (i : nat) (s : string) : ascii :=
  match String.get i s with
  | Some c => c
  | None => zero
  end.

Definition DaysInMonth (y m : Z) : Z :=
  let leap := if DaysInYear y =? 366 then 1 else 0 in
  DaysBeforeMonth m leap - DaysBeforeMonth (m - 1) leap.

Definition sample_Date_parse (tza : Z) (s : string) : time :=
  let field a n := digits_value (substring a n s) 0 in
  let sep i c := Ascii.eqb (char_at i s) c in
  if (String.length s =? 19)%nat
     && sep 4%nat "-"%char && sep 7%nat "-"%char && sep 10%nat "T"%char
     && sep 13%nat ":"%char && sep 16%nat ":"%char
  then
    match field 0%nat 4%nat, field 5%nat 2%nat, field 8%nat 2%nat,
          field 11%nat 2%nat, field 14%nat 2%nat, field 17%nat 2%nat with
    | Some y, Some m, Some d, Some hh, Some mi, Some ss =>
        if (1 <=? m) && (m <=? 12) && (1 <=? d) && (d <=? DaysInMonth y m)
           && (hh <=? 23) && (mi <=? 59) && (ss <=? 59)
        then TimeClip (MakeDate (MakeDay y (m - 1) d) (MakeTime hh mi ss 0)
                       - tza)
        else None
    | _, _, _, _, _, _ => None
    end
  else None.

Definition sample_engine : engine :=
  {| StringToNumber := sample_StringToNumber;
     Date_parse := sample_Date_parse 25200000;
     LocalTZA := 25200000 |}.

Definition sample_ambient (now : Z) : ambient :=
  {| clock_uuid := now; random36 := "0.4fzyo82mvyr"; clock := now;
     write_ok := true |}.

(** Wednesday 2024-01-03 10:00 UTC, 17:00 local time. *)
Definition a_wednesday : Z := 1704276000000.

(** ** Notions used to state the properties *)

(** [f] holds on the [2 ^ n] integers from [lo]. *)
Fixpoint holds_from (n : nat) (lo : Z) (f : Z -> bool) : bool :=
  match n with
  | O => f lo
  | S n' => holds_from n' lo f && holds_from n' (lo + 2 ^ Z.of_nat n') f
  end.

(** The first day of year [y] is less than a mean Gregorian year away from
    [y - 1970] mean years. *)
Definition near_mean (y : Z) : bool :=
  let g := 400 * DayFromYear y - 146097 * (y - 1970) in
  (- 146097 <=? g) && (g <=? 146097).

(** The instants whose week lies inside the range of time values a Date can
    hold (about 275,000 years either side of 1970). *)
Definition ordinary_date (r : Z) : Prop :=
  - maxTime + 7 * msPerDay <= r <= maxTime - 7 * msPerDay.

(** The instant [startOfWeek] computes on an ordinary date: [r] moved back
    to the local Monday, then to the start of that local day. *)
Definition week_start (E : engine) (r : Z) : Z :=
  let lt := LocalTime E r in
  r - ((WeekDay lt + 6) mod 7) * msPerDay - TimeWithinDay lt.




(** The profile's stats equal the recomputation over the current habits. *)
Definition stats_in_sync (s : state) : Prop :=
  stats (profile s) = recomputed (habits s).

(** No calendar day occurs twice in the completions of [h]. *)
Definition unique_days (h : Habit) : Prop := NoDup (completions h).

(** The states the program can be in: a first launch finds no data file (or
    one that is not JSON); later launches find the file the program left;
    in between, the operations of the tracker and direct calls of
    [markComplete] and [saveToFile], as [main] makes them.  A call that
    throws leaves the state it reached. *)
Inductive run (E : engine) : state -> Prop :=
| run_first a fresh (garbage : bool) :
    run E (HabitTracker_new E a fresh (if garbage then Corrupt else Absent))
| run_again s a fresh :
    run E s -> run E (HabitTracker_new E a fresh (data_file s))
| run_addHabit s a nm f :
    run E s -> run E (state_of (addHabit E a nm f s))
| run_completeHabit s a i :
    run E s -> run E (state_of (completeHabit E a i s))
| run_deleteHabit s a i :
    run E s -> run E (state_of (deleteHabit E a i s))
| run_clearAllData s a :
    run E s -> run E (state_of (clearAllData a s))
| run_markComplete s i d :
    run E s -> run E (state_of (markComplete_at i d s))
| run_saveToFile s a :
    run E s -> run E (saveToFile a s).

(** The uniqueness of days, on the habits in memory and on those the data
    file holds. *)
Definition stored_unique (h : StoredHabit) : Prop :=
  match stored_completions h with
  | Some c => NoDup c
  | None => True
  end.

Definition file_unique (f : file) : Prop :=
  match f with
  | Data p =>
      match payload_habits p with
      | Some l => Forall stored_unique l
      | None => True
      end
  | _ => True
  end.

Definition days_invariant (s : state) : Prop :=
  Forall unique_days (habits s) /\ file_unique (data_file s).

(** A first launch on the sample host, Wednesday 2024-01-03 at 17:00 local
    time, with no data file: [main] builds the tracker and seeds it. *)
Definition first_launch : outcome unit :=
  main_seed sample_engine (fun _ => sample_ambient a_wednesday)
            (fun _ => sample_ambient a_wednesday) Absent.

(** A habit with no completion and a tracker that holds it, freshly built. *)
Definition sample_habit : Habit :=
  Habit_new sample_engine (sample_ambient a_wednesday) "Read" (VNum (Fin 3)).

Definition sample_tracker : state :=
  state_of (addHabit sample_engine (sample_ambient a_wednesday) "Read"
                     (VNum (Fin 3))
                     (HabitTracker_new sample_engine
                                       (sample_ambient a_wednesday)
                                       (fun _ => sample_ambient a_wednesday)
                                       Absent)).

(** A habit with completions inside and outside the week of
    [a_wednesday], which runs from Monday 2024-01-01 to Sunday 2024-01-07. *)
Definition week_habit : Habit :=
  set_completions sample_habit
    ["2024-01-03"; "2023-12-31"; "2024-01-07"; "2024-01-01"; "2024-01-08"].

(** The same habit with no target. *)
Definition idle_habit : Habit :=
  {| id := id week_habit; name := name week_habit; targetFrequency := Fin 0;
     completions := completions week_habit; createdAt := createdAt week_habit |}.

(** The tracker of the first launch, seeded with two habits. *)
Definition seeded_tracker : state := state_of first_launch.

(** [sample_tracker] after its habit was completed twice on one day. *)
Definition completed_twice : state :=
  state_of (completeHabit sample_engine (sample_ambient (a_wednesday + 60000))
              (VStr "0")
              (state_of (completeHabit sample_engine
                           (sample_ambient a_wednesday) (VStr "0")
                           sample_tracker))).

(** The habit of [completed_twice]. *)
Definition completed_habit : Habit :=
  match habits completed_twice with
  | h :: _ => h
  | [] => sample_habit
  end.

(** ** Notions for the further properties *)

(** Year [y] has [DaysInYear y] days between its first day and the next
    year's. *)
Definition year_length_ok (y : Z) : bool :=
  DayFromYear (y + 1) - DayFromYear y =? DaysInYear y.

(** The date part of the ISO text of [t]. *)
Definition iso_date (t : Z) : string :=
  iso_year (YearFromTime t) ++ "-" ++ pad 2 (MonthFromTime t + 1)
  ++ "-" ++ pad 2 (DateFromTime t).

(** The number of the local week of [r]: weeks start on Monday, and day 0
    of local time is a Thursday. *)
Definition local_week (E : engine) (r : Z) : Z :=
  (Day (LocalTime E r) + 3) / 7.

(** A habit as it comes back from the data file: a target that JSON cannot
    hold (NaN, an infinity) was written as null and is read as 0. *)
Definition reloaded (h : Habit) : Habit :=
  {| id := id h; name := name h;
     targetFrequency :=
       match targetFrequency h with
       | Fin q => Fin q
       | _ => Fin 0
       end;
     completions := completions h; createdAt := createdAt h |}.

(** The stats a file should hold for the habits it holds. *)
Definition stored_recomputed (l : list StoredHabit) : Stats :=
  {| habitsCreated := List.length l;
     totalCompletions :=
       list_sum
         (map (fun h =>
                 List.length
                   match stored_completions h with
                   | Some c => c
                   | None => []
                   end) l) |}.

(** The stats in the file are the recomputation over the habits in the
    file. *)
Definition file_in_sync (f : file) : Prop :=
  match f with
  | Data p =>
      match payload_user p with
      | Some u =>
          stats u = stored_recomputed
                      match payload_habits p with
                      | Some l => l
                      | None => []
                      end
      | None => True
      end
  | _ => True
  end.

(** The states of a tracker that is driven through its own operations only:
    built by a launch (the first one without a usable data file, later ones
    on the file left behind), then [addHabit], [completeHabit],
    [deleteHabit], [clearAllData] and [saveToFile], each started after the
    one before has returned. *)
Inductive api_run (E : engine) : state -> Prop :=
| api_first a fresh (garbage : bool) :
    api_run E
      (HabitTracker_new E a fresh (if garbage then Corrupt else Absent))
| api_again s a fresh :
    api_run E s -> api_run E (HabitTracker_new E a fresh (data_file s))
| api_addHabit s a nm f h s' :
    api_run E s -> addHabit E a nm f s = Return h s' -> api_run E s'
| api_completeHabit s a i r s' :
    api_run E s -> completeHabit E a i s = Return r s' -> api_run E s'
| api_deleteHabit s a i b s' :
    api_run E s -> deleteHabit E a i s = Return b s' -> api_run E s'
| api_clearAllData s a s' :
    api_run E s -> clearAllData a s = Return tt s' -> api_run E s'
| api_saveToFile s a :
    api_run E s -> api_run E (saveToFile a s).

(** ** Numbers as text and the progress bar *)

Fixpoint decimal_digits (fuel : nat) (n : Z) (acc : string) : string :=
  match fuel with
  | O => acc
  | S fuel' =>
      let acc' := String (digit (n mod 10)) acc in
      if n / 10 =? 0 then acc' else decimal_digits fuel' (n / 10) acc'
  end.

(** The decimal text of an integer. *)
Definition decimal (n : Z) : string :=
  if n <? 0
  then "-" ++ decimal_digits (S (Z.to_nat (Z.log2 (- n)))) (- n) EmptyString
  else decimal_digits (S (Z.to_nat (Z.log2 n))) n EmptyString.

(** [a - b] *)
Definition num_sub (a b : number) : number :=
  match a, b with
  | NaN, _ | _, NaN => NaN
  | Fin x, Fin y => Fin (x - y)
  | PosInf, PosInf | NegInf, NegInf => NaN
  | PosInf, _ | _, NegInf => PosInf
  | NegInf, _ | _, PosInf => NegInf
  end.

(** [Math.max] of two arguments. *)
Definition Math_max (a b : number) : number :=
  match a, b with
  | NaN, _ | _, NaN => NaN
  | _, _ => if num_leb a b then b else a
  end.

(** [Math.round]: the nearest integer, a half rounded up. *)
Definition Math_round (a : number) : number :=
  match a with
  | Fin q => of_Z (Qfloor (q + (1 # 2)))
  | _ => a
  end.

Fixpoint repeat_string (s : string) (n : nat) : string :=
  match n with
  | O => EmptyString
  | S n' => s ++ repeat_string s n'
  end.

(** [s.repeat(count)]: a negative or infinite count throws a RangeError, a
    NaN count is 0. *)
Definition String_repeat (s : string) (count : number) : exn + string :=
  match count with
  | NaN => inr EmptyString
  | PosInf | NegInf => inl (RangeError "Invalid count value")
  | Fin q =>
      let n := Qtrunc q in
      if n <? 0 then inl (RangeError "Invalid count value")
      else inr (repeat_string s (Z.to_nat n))
  end.

Section Rendering.
(** The text the host gives a finite number that is not an integer below
    10^21 in magnitude. *)
Variable other_text : Q -> string.

(** [String(n)], as a template literal applies it. *)
Definition Number_toString (n : number) : string :=
  match n with
  | NaN => "NaN"
  | PosInf => "Infinity"
  | NegInf => "-Infinity"
  | Fin q =>
      let r := Qred q in
      if (Zpos (Qden r) =? 1) && (Z.abs (Qnum r) <? 10 ^ 21)
      then decimal (Qnum r) else other_text q
  end.

(** [asciiProgressBar(percent, length)]; the callers pass no [length],
    which is then 20. *)
Definition asciiProgressBar (percent length : number) : exn + string :=
  let clamped := Math_max (Fin 0) (Math_min (Fin 100) percent) in
  let filled :=
    Math_round (num_mul (num_div clamped (Fin 100)) length) in
  let empty := num_sub length filled in
  match String_repeat "#" filled with
  | inl e => inl e
  | inr hashes =>
      match String_repeat "-" empty with
      | inl e => inl e
      | inr dashes =>
          inr ("[" ++ hashes ++ dashes ++ "] "
               ++ Number_toString (Math_round clamped) ++ "%")
      end
  end.
End Rendering.

(** ** The profile's age, the statistics and the menu entry that adds *)

(** [UserProfile.getDaysJoined()] at the instant [now]. *)
Definition getDaysJoined (E : engine) (this : Profile) (now : Z) : number :=
  match Date_parse E (profile_createdAt this) with
  | Some created => of_Z ((now - created) / msPerDay + 1)
  | None => NaN
  end.

(** [arr.filter(cb)] where the call of [cb] on the element at position [k]
    is [f (i + k)]. *)
Fixpoint filter_from {A : Type} (f : nat -> A -> bool) (i : nat)
         (l : list A) : list A :=
  match l with
  | [] => []
  | x :: t => if f i x then x :: filter_from f (S i) t
              else filter_from f (S i) t
  end.

(** [arr.join(sep)] on strings. *)
Fixpoint String_join (sep : string) (l : list string) : string :=
  match l with
  | [] => EmptyString
  | [x] => x
  | x :: t => x ++ sep ++ String_join sep t
  end.

Definition newline : string := String (ascii_of_nat 10) EmptyString.

Section Statistics.
Variable E : engine.
Variable other_text : Q -> string.

(** The [reduce] of [displayStats]: the habit and count kept so far is
    replaced when there is none or the count of the next habit is greater.
    [clock k] is the instant the [k]-th [new Date()] of the call reads. *)
Fixpoint most_reduce (clock : nat -> Z) (i : nat)
         (acc : option (Habit * nat)) (hs : list Habit)
  : option (Habit * nat) :=
  match hs with
  | [] => acc
  | h :: t =>
      let c := List.length (getThisWeekCompletions E h (Some (clock i))) in
      let acc' :=
        match acc with
        | None => Some (h, c)
        | Some (_, count) => if (count <? c)%nat then Some (h, c) else acc
        end in
      most_reduce clock (S i) acc' t
  end.

(** [tracker.displayStats()]: the lines it prints. *)
Definition displayStats (clock : nat -> Z) (s : state) : list string :=
  let n := List.length (habits s) in
  let completedThisWeek :=
    List.length
      (filter_from (fun k h => isCompletedThisWeek E h (Some (clock k)))
                   0 (habits s)) in
  let activeThisWeek := Z.of_nat n - Z.of_nat completedThisWeek in
  let names := map name (habits s) in
  let mostCompletions := most_reduce clock n None (habits s) in
  let joined := String_join ", " names in
  [ "---- Statistik Ringkas ----";
    "Total kebiasaan: " ++ Number_toString other_text (of_nat n);
    "Selesai minggu ini: "
      ++ Number_toString other_text (of_nat completedThisWeek);
    "Belum selesai: " ++ Number_toString other_text (of_Z activeThisWeek);
    "Nama kebiasaan: "
      ++ (if String.eqb joined EmptyString then "(kosong)" else joined);
    match mostCompletions with
    | Some (habit, count) =>
        "Paling aktif minggu ini: " ++ name habit ++ " ("
          ++ Number_toString other_text (of_nat count) ++ " kali)"
    | None => "(belum ada penyelesaian minggu ini)"
    end;
    "---------------------------" ++ newline ].
End Statistics.

(** [acc] holds the first habit of [l] with the highest count, and that
    count; nothing when [l] is empty.  [count k h] is the count of the habit
    [h] at position [k]. *)
Definition first_highest (count : nat -> Habit -> nat) (l : list Habit)
           (acc : option (Habit * nat)) : Prop :=
  match acc with
  | None => l = []
  | Some (h, c) =>
      exists j : nat,
        nth_error l j = Some h /\ c = count j h /\
        (forall k hk, nth_error l k = Some hk -> (count k hk <= c)%nat) /\
        (forall k hk, (k < j)%nat -> nth_error l k = Some hk ->
                      (count k hk < c)%nat)
  end.

Section MenuAdd.
Variable E : engine.
(** [s.trim()] of the host. *)
Variable String_trim : string -> string.
Variable other_text : Q -> string.

(** Entry 4 of the menu, once the two questions are answered: the answers
    are checked, and only then is [addHabit] called.  The result is what is
    printed. *)
Definition menu_add (a : ambient) (nm freq : string) : M string :=
  fun s =>
    let parsed := ToNumber E (VStr freq) in
    if String.eqb (String_trim nm) EmptyString
       || isNaN parsed || num_ltb parsed (Fin 0)
    then
      Return "Input tidak valid. Pastikan nama tidak kosong dan target angka >= 0."
             s
    else
      (h <- addHabit E a (String_trim nm) (VNum parsed) ;;
       ret ("Kebiasaan ditambahkan: " ++ name h ++ " (target "
            ++ Number_toString other_text (targetFrequency h) ++ "/minggu)"))
        s.
End MenuAdd.

(** A habit as the menu lets it in: a name that is not empty and a target
    that is a number, 0 or more. *)
Definition admissible (h : Habit) : Prop :=
  name h <> EmptyString /\ num_le (Fin 0) (targetFrequency h).

Definition stored_admissible (h : StoredHabit) : Prop :=
  stored_name h <> EmptyString /\
  (stored_targetFrequency h = VNull
   \/ exists q : Q, stored_targetFrequency h = VNum (Fin q) /\ (0 <= q)%Q).

Definition file_admissible (f : file) : Prop :=
  match f with
  | Data p =>
      match payload_habits p with
      | Some l => Forall stored_admissible l
      | None => True
      end
  | _ => True
  end.

(** The states of the program as its user drives it: every launch runs
    [main] up to the menu (the first one without a usable data file, later
    ones on the file left behind), and the menu adds (entry 4), completes
    (entry 5), deletes (entry 6) and saves on exit (entry 9) with whatever
    the user types.  A call that throws leaves the state it reached. *)
Inductive session (E : engine) (String_trim : string -> string)
          (other_text : Q -> string) : state -> Prop :=
| session_first amb fresh (garbage : bool) :
    session E String_trim other_text
      (state_of (main_seed E amb fresh (if garbage then Corrupt else Absent)))
| session_again s amb fresh :
    session E String_trim other_text s ->
    session E String_trim other_text
      (state_of (main_seed E amb fresh (data_file s)))
| session_add s a nm freq :
    session E String_trim other_text s ->
    session E String_trim other_text
      (state_of (menu_add E String_trim other_text a nm freq s))
| session_complete s a idx :
    session E String_trim other_text s ->
    session E String_trim other_text
      (state_of (completeHabit E a (VStr idx) s))
| session_delete s a idx :
    session E String_trim other_text s ->
    session E String_trim other_text
      (state_of (deleteHabit E a (VStr idx) s))
| session_exit s a :
    session E String_trim other_text s ->
    session E String_trim other_text (saveToFile a s).

Definition session_invariant (s : state) : Prop :=
  Forall admissible (habits s) /\ file_admissible (data_file s).

(** ** The list of habits *)

Section Listing.
Variable E : engine.
Variable other_text : Q -> string.

(** [habit.getStatus(referenceDate)] *)
Definition getStatus (h : Habit) (referenceDate : time) : string :=
  let done := List.length (getThisWeekCompletions E h referenceDate) in
  if num_leb (targetFrequency h) (Fin 0) then "Target tidak ditetapkan"
  else Number_toString other_text (of_nat done) ++ "/"
       ++ Number_toString other_text (targetFrequency h) ++ " per minggu - "
       ++ (if isCompletedThisWeek E h referenceDate
           then "✅ Selesai" else "🔜 Belum selesai").

(** The [forEach] of [displayHabits] from position [i] on: the lines it
    prints and the exception that ends it, if any.  [clock c] is the instant
    [getProgressPercentage()] reads for the first habit, [clock (S c)] the
    one [getStatus()] reads, and so on. *)
Fixpoint habit_lines (clock : nat -> Z) (c i : nat) (l : list Habit)
  : list string * option exn :=
  match l with
  | [] => ([], None)
  | h :: t =>
      let percent := getProgressPercentage E h (Some (clock c)) in
      let line :=
        Number_toString other_text (of_nat i) ++ ". " ++ name h ++ " ("
        ++ getStatus h (Some (clock (S c))) ++ ")" in
      match asciiProgressBar other_text percent (Fin 20) with
      | inl e => ([line], Some e)
      | inr bar =>
          let rest := habit_lines clock (S (S c)) (S i) t in
          (line :: ("   " ++ bar) :: fst rest, snd rest)
      end
  end.

(** [tracker.displayHabits(filter)]: the lines it prints and the exception
    it ends with, if any.  The callbacks of a [filter] read the first
    instants of [clock], one for each habit. *)
Definition displayHabits (clock : nat -> Z) (filter : string) (s : state)
  : list string * option exn :=
  let filtered := String.eqb filter "active" || String.eqb filter "completed" in
  let list :=
    if String.eqb filter "active"
    then filter_from
           (fun k h => negb (isCompletedThisWeek E h (Some (clock k))))
           0 (habits s)
    else if String.eqb filter "completed"
    then filter_from (fun k h => isCompletedThisWeek E h (Some (clock k)))
                     0 (habits s)
    else habits s in
  let c := if filtered then List.length (habits s) else 0%nat in
  if (List.length list =? 0)%nat
  then (["---- Daftar Kebiasaan ----"; "(kosong)";
         "---------------------------" ++ newline], None)
  else
    let body := habit_lines clock c 0 list in
    match snd body with
    | None =>
        ("---- Daftar Kebiasaan ----"
           :: fst body ++ ["---------------------------" ++ newline],
         None)
    | Some e => ("---- Daftar Kebiasaan ----" :: fst body, Some e)
    end.
End Listing.

(** ** Sample inputs for the further properties *)

(** Friday 2024-01-05 10:00 UTC, in the week of [a_wednesday]. *)
Definition a_friday : Z := a_wednesday + 2 * msPerDay.

(** [sample_habit] once completed on 2024-01-03. *)
Definition done_habit : Habit := set_completions sample_habit ["2024-01-03"].

(** The second habit [main] seeds. *)
Definition second_habit : Habit :=
  match habits seeded_tracker with
  | _ :: h :: _ => h
  | _ => sample_habit
  end.

(** The tracker of a first launch, before any habit is added. *)
Definition launched_tracker : state :=
  HabitTracker_new sample_engine (sample_ambient a_wednesday)
                   (fun _ => sample_ambient a_wednesday) Absent.

(** A parser that also reads the text [toISOString] writes,
    [YYYY-MM-DDTHH:mm:ss.sssZ], as UTC. *)
Definition utc_Date_parse (s : string) : time :=
  if (String.length s =? 24)%nat
     && Ascii.eqb (char_at 19%nat s) "."%char
     && Ascii.eqb (char_at 23%nat s) "Z"%char
  then
    match sample_Date_parse 0 (substring 0 19 s),
          digits_value (substring 20 3 s) 0 with
    | Some t, Some ms => TimeClip (t + ms)
    | _, _ => None
    end
  else sample_Date_parse 25200000 s.

Definition iso_engine : engine :=
  {| StringToNumber := sample_StringToNumber;
     Date_parse := utc_Date_parse;
     LocalTZA := 25200000 |}.

(** A [trim] that removes the spaces at both ends. *)
Fixpoint drop_spaces (l : list ascii) : list ascii :=
  match l with
  | c :: t => if Ascii.eqb c " "%char then drop_spaces t else l
  | [] => []
  end.

Definition sample_trim (s : string) : string :=
  string_of_list_ascii
    (rev (drop_spaces (rev (drop_spaces (list_ascii_of_string s))))).

(** [seeded_tracker] after entry 4 of the menu was given a name and a
    target, and the habit this added. *)
Definition menu_tracker : state :=
  state_of (menu_add sample_engine sample_trim (fun _ => EmptyString)
                     (sample_ambient a_wednesday) " Olahraga " "3"
                     seeded_tracker).

Definition menu_habit : Habit :=
  match habits menu_tracker with
  | _ :: _ :: h :: _ => h
  | _ => sample_habit
  end.

(** A tracker whose first habit has reached its target and whose second
    has not. *)
Definition mixed_tracker : state :=
  set_habits seeded_tracker [idle_habit; second_habit].

(** * Properties *)

(** ** Sample evaluations *)

(** Sample values: 2024-01-01 is a Monday. *)
Example toISOString_2024 :
  toISOString (Some 1704067200000) = inr "2024-01-01T00:00:00.000Z".
Proof. reflexivity. Qed.

Example toISOString_leap_day :
  toISOString (Some 1709251199999) = inr "2024-02-29T23:59:59.999Z".
Proof. reflexivity. Qed.

Example toISOString_before_epoch :
  toISOString (Some (-1)) = inr "1969-12-31T23:59:59.999Z".
Proof. reflexivity. Qed.

Example toISOString_year_10000 :
  toISOString (Some 253402300800000) = inr "+010000-01-01T00:00:00.000Z".
Proof. reflexivity. Qed.

Example formatDate_2024 :
  formatDate (Some 1704103200000) = inr "2024-01-01".
Proof. reflexivity. Qed.

Example toString36_sample : toString36 1704067200000 = "lqu5m2o0".
Proof. reflexivity. Qed.

Example sample_parse_monday :
  Date_parse sample_engine "2024-01-01T00:00:00" = Some 1704042000000.
Proof. reflexivity. Qed.

Example sample_startOfWeek :
  option_map iso_text (startOfWeek sample_engine (Some a_wednesday))
  = Some "2023-12-31T17:00:00.000Z".
Proof. reflexivity. Qed.

Example sample_endOfWeek :
  option_map iso_text (endOfWeek sample_engine (Some a_wednesday))
  = Some "2024-01-07T16:59:59.999Z".
Proof. reflexivity. Qed.

Example sample_uuid : uuid (sample_ambient a_wednesday) = "lqxlxds04fzyo8".
Proof. reflexivity. Qed.


(** ** Calendar arithmetic *)

Lemma month_scan_bounds (fuel : nat) (m dwy leap : Z) :
  m <= month_scan fuel m dwy leap <= m + Z.of_nat fuel.
Proof.
  revert m; induction fuel as [|fuel IH]; intros m; cbn [month_scan].
  - lia.
  - destruct (dwy <? DaysBeforeMonth (m + 1) leap); [lia|].
    specialize (IH (m + 1)); lia.
Qed.

Lemma MonthFromTime_range (t : Z) : 0 <= MonthFromTime t <= 11.
Proof.
  unfold MonthFromTime.
  pose proof (month_scan_bounds 11 0 (DayWithinYear t) (InLeapYear t)); lia.
Qed.

(** [MakeDay] undoes [DateFromTime] within the month of [t]: a date given
    relative to the current one moves the day number by as much. *)
Lemma MakeDay_DateFromTime (t k : Z) :
  MakeDay (YearFromTime t) (MonthFromTime t) (DateFromTime t + k) = Day t + k.
Proof.
  pose proof (MonthFromTime_range t) as Hm.
  unfold MakeDay, DateFromTime, DayWithinYear, InLeapYear.
  rewrite (Z.div_small (MonthFromTime t) 12), (Z.mod_small (MonthFromTime t) 12)
    by lia.
  rewrite Z.add_0_r. lia.
Qed.


Lemma TimeWithinDay_shift (t k : Z) :
  TimeWithinDay (t + k * msPerDay) = TimeWithinDay t.
Proof. unfold TimeWithinDay. apply Z.mod_add. discriminate. Qed.

Lemma Day_decompose (t : Z) :
  t = Day t * msPerDay + TimeWithinDay t /\ 0 <= TimeWithinDay t < msPerDay.
Proof.
  unfold Day, TimeWithinDay. split.
  - rewrite Z.mul_comm. apply Z.div_mod. discriminate.
  - apply Z.mod_pos_bound. reflexivity.
Qed.

Lemma TimeClip_in_range (t : Z) :
  - maxTime <= t <= maxTime -> TimeClip t = Some t.
Proof.
  intros H. unfold TimeClip.
  destruct (Z.leb_spec (Z.abs t) maxTime); [reflexivity | lia].
Qed.

Lemma holds_from_spec (n : nat) (lo : Z) (f : Z -> bool) :
  holds_from n lo f = true ->
  forall d, lo <= d < lo + 2 ^ Z.of_nat n -> f d = true.
Proof.
  revert lo; induction n as [|n IH]; intros lo H d Hd.
  - cbn in *. replace d with lo by lia. exact H.
  - cbn [holds_from] in H. apply andb_true_iff in H as [H1 H2].
    rewrite Nat2Z.inj_succ, Z.pow_succ_r in Hd by lia.
    destruct (Z.lt_ge_cases d (lo + 2 ^ Z.of_nat n)).
    + apply (IH lo H1). lia.
    + apply (IH _ H2). lia.
Qed.

(** The Gregorian calendar repeats every 400 years, 146097 days. *)
Lemma DayFromYear_period (y : Z) :
  DayFromYear (y + 400) = DayFromYear y + 146097.
Proof.
  unfold DayFromYear.
  replace (y + 400 - 1969) with (y - 1969 + 100 * 4) by lia.
  replace (y + 400 - 1901) with (y - 1901 + 4 * 100) by lia.
  replace (y + 400 - 1601) with (y - 1601 + 1 * 400) by lia.
  rewrite !Z.div_add by lia. lia.
Qed.

Lemma near_mean_period (y : Z) : near_mean (y + 400) = near_mean y.
Proof.
  unfold near_mean. rewrite DayFromYear_period. cbv zeta.
  f_equal; f_equal; lia.
Qed.

Lemma near_mean_all (y : Z) : near_mean y = true.
Proof.
  assert (Hn : forall (n : nat) (y0 : Z),
             near_mean (y0 + 400 * Z.of_nat n) = near_mean y0).
  { induction n as [|n IH]; intros y0.
    - f_equal. lia.
    - replace (y0 + 400 * Z.of_nat (S n)) with (y0 + 400 * Z.of_nat n + 400)
        by lia.
      rewrite near_mean_period. apply IH. }
  assert (Hc : forall y0, 0 <= y0 < 400 -> near_mean y0 = true).
  { intros y0 Hy.
    apply (holds_from_spec 9 0 near_mean); [vm_compute; reflexivity|].
    change (2 ^ Z.of_nat 9) with 512. lia. }
  pose proof (Z.div_mod y 400 ltac:(lia)) as Hdm.
  pose proof (Z.mod_pos_bound y 400 ltac:(lia)) as Hb.
  destruct (Z.le_gt_cases 0 (y / 400)) as [Hk | Hk].
  - replace y with (y mod 400 + 400 * Z.of_nat (Z.to_nat (y / 400))) by lia.
    rewrite Hn. apply Hc, Hb.
  - rewrite <- (Hn (Z.to_nat (- (y / 400))) y).
    replace (y + 400 * Z.of_nat (Z.to_nat (- (y / 400)))) with (y mod 400)
      by lia.
    apply Hc, Hb.
Qed.

Lemma near_mean_bounds (y : Z) :
  146097 * (y - 1971) <= 400 * DayFromYear y <= 146097 * (y - 1969).
Proof.
  pose proof (near_mean_all y) as H. unfold near_mean in H. cbv zeta in H.
  apply andb_true_iff in H as [H1 H2]. lia.
Qed.

(** [YearFromDay d] is the year day [d] falls in, as ECMAScript defines
    [YearFromTime]. *)
Lemma YearFromDay_spec (d : Z) :
  DayFromYear (YearFromDay d) <= d < DayFromYear (YearFromDay d + 1).
Proof.
  unfold YearFromDay. cbv zeta.
  pose proof (Z.div_mod (400 * d) 146097 ltac:(lia)) as Hdm.
  pose proof (Z.mod_pos_bound (400 * d) 146097 ltac:(lia)) as Hb.
  set (e := 1970 + 400 * d / 146097) in *.
  assert (He : 146097 * (e - 1970) <= 400 * d < 146097 * (e - 1969))
    by (unfold e; lia).
  pose proof (near_mean_bounds (e - 1)) as Hm1.
  pose proof (near_mean_bounds (e + 2)) as Hp2.
  destruct (Z.ltb_spec d (DayFromYear e)).
  - replace (e - 1 + 1) with e by lia. lia.
  - destruct (Z.leb_spec (DayFromYear (e + 1)) d).
    + replace (e + 1 + 1) with (e + 2) by lia. lia.
    + lia.
Qed.

Section DateFacts.
Variable E : engine.

(** [d.setDate(d.getDate() + k)] moves [d] by [k] days. *)
Lemma setDate_relative (t k : Z) :
  setDate E (Some t) (Some (DateFromTime (LocalTime E t) + k))
  = TimeClip (t + k * msPerDay).
Proof.
  unfold setDate. rewrite MakeDay_DateFromTime.
  f_equal. unfold UTC, MakeDate, LocalTime.
  pose proof (Day_decompose (t + LocalTZA E)). lia.
Qed.

(** [d.setHours(h, m, s, ms)] keeps the local day of [d]. *)
Lemma setHours_local (t h m s ms : Z) :
  setHours E (Some t) h m s ms
  = TimeClip (t - TimeWithinDay (LocalTime E t) + MakeTime h m s ms).
Proof.
  unfold setHours. f_equal. unfold UTC, MakeDate, LocalTime.
  pose proof (Day_decompose (t + LocalTZA E)). lia.
Qed.

Lemma WeekDay_range (t : Z) : 0 <= WeekDay t < 7.
Proof. unfold WeekDay. apply Z.mod_pos_bound. reflexivity. Qed.

Lemma startOfWeek_value (r : Z) :
  ordinary_date r -> startOfWeek E (Some r) = Some (week_start E r).
Proof.
  intros Hr. unfold ordinary_date in Hr.
  unfold startOfWeek, getDay, getDate. cbn [option_map lift2].
  pose proof (WeekDay_range (LocalTime E r)) as Hw.
  rewrite Z.rem_mod_nonneg by lia.
  pose proof (Z.mod_pos_bound (WeekDay (LocalTime E r) + 6) 7 eq_refl) as Hk.
  unfold week_start; cbv zeta.
  generalize dependent ((WeekDay (LocalTime E r) + 6) mod 7).
  intros k Hk.
  replace (DateFromTime (LocalTime E r) - k)
    with (DateFromTime (LocalTime E r) + - k) by lia.
  rewrite setDate_relative.
  rewrite TimeClip_in_range by (unfold msPerDay, maxTime in *; lia).
  rewrite setHours_local.
  unfold LocalTime at 1.
  replace (r + - k * msPerDay + LocalTZA E)
    with (r + LocalTZA E + - k * msPerDay) by lia.
  rewrite TimeWithinDay_shift.
  pose proof (Day_decompose (r + LocalTZA E)) as [_ Ht].
  rewrite TimeClip_in_range
    by (unfold MakeTime, msPerDay, maxTime in *; lia).
  f_equal. unfold LocalTime, MakeTime. lia.
Qed.

Lemma week_start_local (r : Z) :
  LocalTime E (week_start E r)
  = (Day (LocalTime E r) - (WeekDay (LocalTime E r) + 6) mod 7) * msPerDay.
Proof.
  unfold week_start, LocalTime.
  pose proof (Day_decompose (r + LocalTZA E)). lia.
Qed.

Lemma endOfWeek_value (r : Z) :
  ordinary_date r ->
  endOfWeek E (Some r) = Some (week_start E r + 7 * msPerDay - 1).
Proof.
  intros Hr. unfold endOfWeek. rewrite (startOfWeek_value r Hr).
  unfold ordinary_date in Hr.
  unfold getDate. cbn [option_map lift2].
  rewrite setDate_relative.
  pose proof (WeekDay_range (LocalTime E r)) as Hw.
  pose proof (Z.mod_pos_bound (WeekDay (LocalTime E r) + 6) 7 eq_refl) as Hk.
  pose proof (Day_decompose (LocalTime E r)) as [_ Ht].
  assert (Hs : r - 7 * msPerDay < week_start E r <= r)
    by (unfold week_start; cbv zeta; unfold msPerDay in *; lia).
  rewrite TimeClip_in_range by (unfold msPerDay, maxTime in *; lia).
  rewrite setHours_local.
  replace (LocalTime E (week_start E r + 6 * msPerDay))
    with (LocalTime E (week_start E r) + 6 * msPerDay)
    by (unfold LocalTime; lia).
  rewrite TimeWithinDay_shift, week_start_local.
  unfold TimeWithinDay. rewrite Z.mod_mul by discriminate.
  rewrite TimeClip_in_range
    by (unfold MakeTime, msPerDay, maxTime in *; lia).
  f_equal. unfold MakeTime, msPerDay. lia.
Qed.
End DateFacts.

(** ** The week of a reference date *)


Section WeekFacts.
Variable E : engine.



End WeekFacts.

(** ** Marking a day complete *)

Lemma includes_In (x : string) (l : list string) :
  includes x l = true <-> In x l.
Proof.
  unfold includes. rewrite existsb_exists. split.
  - intros [y [Hy He]]. apply String.eqb_eq in He. subst y. exact Hy.
  - intros H. exists x. split; [exact H | apply String.eqb_refl].
Qed.

Lemma includes_not_In (x : string) (l : list string) :
  includes x l = false <-> ~ In x l.
Proof.
  rewrite <- includes_In. destruct (includes x l); split; intros H;
    try reflexivity; try discriminate; try (intros H'; discriminate).
  exfalso. apply H. reflexivity.
Qed.




(** ** Weekly status and progress *)

Lemma Qle_bool_false (a b : Q) : Qle_bool a b = false -> (b < a)%Q.
Proof.
  intros H. apply Qnot_le_lt. intros Hle.
  apply Qle_bool_iff in Hle. congruence.
Qed.

Lemma num_le_cases (a b : number) :
  num_le a b <->
  match a, b with
  | NaN, _ | _, NaN => False
  | NegInf, _ | _, PosInf => True
  | Fin x, Fin y => (x <= y)%Q
  | _, _ => False
  end.
Proof.
  unfold num_le.
  destruct a, b; cbn [num_leb]; try rewrite Qle_bool_iff;
    split; intros H; try exact H; try exact I; try reflexivity;
      try discriminate; try contradiction.
Qed.

Lemma target_at_most_zero_reached (tf : number) (n : nat) :
  num_le tf (Fin 0) -> num_geb (of_nat n) tf = true.
Proof.
  intros H. apply num_le_cases in H. unfold num_geb, of_nat, of_Z.
  destruct tf as [| |q|]; cbn [num_leb];
    try contradiction; try reflexivity.
  apply Qle_bool_iff. apply Qle_trans with (y := 0%Q); [exact H|].
  change 0%Q with (inject_Z 0). rewrite <- Zle_Qle. lia.
Qed.

Section StatusFacts.
Variable E : engine.

(** C3.  [isCompletedThisWeek] is true exactly when the target is a number
    that the count of this-week completions reaches (a target of minus
    infinity is reached by every count, a NaN target by none); in
    particular it is true, whatever the completions, when the target is 0
    or below. *)
Theorem isCompletedThisWeek_iff (h : Habit) (r : time) :
  let count := List.length (getThisWeekCompletions E h r) in
  (isCompletedThisWeek E h r = true <->
   targetFrequency h = NegInf \/
   exists q : Q, targetFrequency h = Fin q
                 /\ (q <= inject_Z (Z.of_nat count))%Q) /\
  (num_le (targetFrequency h) (Fin 0) -> isCompletedThisWeek E h r = true).
Proof.
  cbv zeta. unfold isCompletedThisWeek, num_geb, of_nat, of_Z.
  generalize (List.length (getThisWeekCompletions E h r)). intros n.
  split.
  - destruct (targetFrequency h) as [| |q|]; cbn [num_leb].
    + split; [discriminate | intros [H | [q [H _]]]; discriminate].
    + split; [intros _; left; reflexivity | reflexivity].
    + rewrite Qle_bool_iff. split.
      * intros H. right. exists q. split; [reflexivity | exact H].
      * intros [H | [q' [Hq H]]]; [discriminate|].
        injection Hq as <-. exact H.
    + split; [discriminate | intros [H | [q [H _]]]; discriminate].
  - intros H. apply (target_at_most_zero_reached _ n H).
Qed.
End StatusFacts.

(** The body of [getProgressPercentage] on a count of [n]. *)
Local Abbreviation percentage tf n :=
  (if num_leb tf (Fin 0) then Fin 0
   else Math_min (num_mul (num_div (of_nat n) tf) (Fin 100)) (Fin 100)).

Lemma positive_target (q : Q) :
  Qle_bool q 0 = false -> (0 < q)%Q /\ Qeq_bool q 0 = false.
Proof.
  intros H. apply Qle_bool_false in H. split; [exact H|].
  destruct (Qeq_bool q 0) eqn:He; [|reflexivity].
  apply Qeq_bool_eq in He. lra.
Qed.




Section ProgressFacts.
Variable E : engine.

End ProgressFacts.

(** ** The profile's stats *)

Lemma fold_left_count (hs : list Habit) (acc : nat) :
  fold_left (fun acc h => (acc + List.length (completions h))%nat) hs acc
  = (acc + list_sum (map (fun h => List.length (completions h)) hs))%nat.
Proof.
  revert acc; induction hs as [|h hs IH]; intros acc; simpl.
  - lia.
  - rewrite IH. unfold list_sum. lia.
Qed.

Lemma updateStats_recomputed (p : Profile) (hs : list Habit) :
  stats (updateStats p hs) = recomputed hs.
Proof.
  unfold updateStats, recomputed. cbn [stats]. rewrite fold_left_count.
  reflexivity.
Qed.

Lemma user_updateStats_singleton (s : state) :
  user s = TheUserProfile ->
  user_updateStats s
  = Return tt (set_UserProfile s (updateStats (UserProfile s) (habits s))).
Proof. intros H. unfold user_updateStats. rewrite H. reflexivity. Qed.

Lemma user_updateStats_parsed (s : state) (p : Profile) :
  user s = Parsed p ->
  user_updateStats s
  = Throw (TypeError "this.user.updateStats is not a function") s.
Proof. intros H. unfold user_updateStats. rewrite H. reflexivity. Qed.

(** Whenever [this.user.updateStats(this.habits)] returns, the stats are the
    recomputation, the habits are untouched and so is the file. *)
Lemma user_updateStats_returns (s s' : state) :
  user_updateStats s = Return tt s' ->
  stats_in_sync s' /\ habits s' = habits s /\ user s' = user s
  /\ data_file s' = data_file s.
Proof.
  unfold user_updateStats, stats_in_sync, profile.
  destruct (user s) eqn:Hu; [|discriminate].
  intros H. injection H as <-. cbn [user set_UserProfile UserProfile habits].
  rewrite Hu. rewrite updateStats_recomputed. repeat split; reflexivity.
Qed.

Lemma saveToFile_keeps (a : ambient) (s : state) :
  habits (saveToFile a s) = habits s /\ user (saveToFile a s) = user s
  /\ UserProfile (saveToFile a s) = UserProfile s.
Proof.
  unfold saveToFile. destruct (write_ok a); repeat split; reflexivity.
Qed.

Lemma saveToFile_in_sync (a : ambient) (s : state) :
  stats_in_sync s -> stats_in_sync (saveToFile a s).
Proof.
  unfold stats_in_sync, profile.
  destruct (saveToFile_keeps a s) as [-> [-> ->]]. auto.
Qed.

(** ** Constructing and adding habits *)

Section AddFacts.
Variable E : engine.

Lemma Habit_new_target (a : ambient) (nm : string) (v : value) :
  targetFrequency (Habit_new E a nm v) = ToNumber E v.
Proof. reflexivity. Qed.

(** C9.  [new Habit(name, targetFrequency)] has the id [uuid()] returned,
    the given name, no completions and the current time as [createdAt];
    its target is [Number(targetFrequency)], and for an input that
    [Number] maps to NaN the target is NaN, not 0: the [?? 0] never
    applies. *)
Theorem Habit_new_non_numeric_target (a : ambient) (nm : string) (v : value) :
  ToNumber E v = NaN ->
  let h := Habit_new E a nm v in
  targetFrequency h = NaN /\
  targetFrequency h <> Fin 0 /\
  id h = uuid a /\ name h = nm /\ completions h = []
  /\ createdAt h = iso_text (clock a).
Proof.
  intros Hv. cbv zeta. rewrite Habit_new_target, Hv.
  repeat split; discriminate.
Qed.

(** C10 (amended).  On a tracker whose profile is the [UserProfile]
    object, [addHabit(name, frequency)] returns, for every name and every
    frequency (an empty name and a negative or non-numeric frequency
    included: it validates nothing), the habit it constructed, appended to
    the collection, with the stats recomputed and the state written to the
    file when the write succeeds. *)
Theorem addHabit_appends (a : ambient) (nm : string) (frequency : value)
        (s : state) :
  user s = TheUserProfile ->
  let h := Habit_new E a nm frequency in
  exists s' : state,
    addHabit E a nm frequency s = Return h s' /\
    habits s' = (habits s ++ [h])%list /\
    List.length (habits s') = S (List.length (habits s)) /\
    stats_in_sync s' /\
    data_file s'
    = (if write_ok a then Data (snapshot s') else data_file s).
Proof.
  intros Hu. cbv zeta. unfold addHabit, bind.
  rewrite user_updateStats_singleton by exact Hu.
  eexists. split; [reflexivity|].
  set (s1 := set_UserProfile _ _).
  assert (Hsync : stats_in_sync s1).
  { unfold stats_in_sync, profile, s1.
    cbn [user set_UserProfile set_habits UserProfile habits].
    rewrite Hu. apply updateStats_recomputed. }
  destruct (saveToFile_keeps a s1) as [Hh [Hus Hup]].
  split; [rewrite Hh; reflexivity|].
  split; [rewrite Hh; unfold s1; cbn [habits set_UserProfile set_habits];
          rewrite length_app; cbn [List.length]; lia|].
  split; [apply saveToFile_in_sync, Hsync|].
  unfold saveToFile. destruct (write_ok a); reflexivity.
Qed.
End AddFacts.

(** C10 as stated fails: with an empty name and the frequency -1, and with
    a frequency that is not numeric, [addHabit] returns a habit and the
    collection grows. *)
Lemma addHabit_validates_nothing :
  let s0 := HabitTracker_new sample_engine (sample_ambient a_wednesday)
                             (fun _ => sample_ambient a_wednesday) Absent in
  (exists h s',
      addHabit sample_engine (sample_ambient a_wednesday) EmptyString
               (VNum (Fin (-1))) s0 = Return h s'
      /\ name h = EmptyString /\ targetFrequency h = Fin (-1)
      /\ List.length (habits s') = S (List.length (habits s0))) /\
  (exists h s',
      addHabit sample_engine (sample_ambient a_wednesday) "Read"
               (VStr "abc") s0 = Return h s'
      /\ targetFrequency h = NaN
      /\ List.length (habits s') = S (List.length (habits s0))).
Proof.
  cbv zeta. split; eexists; eexists; (split; [vm_compute; reflexivity|]);
    repeat split; reflexivity.
Qed.

(** ** Index validation *)

Lemma Qred_inject_Z (z : Z) : Qred (inject_Z z) = inject_Z z.
Proof.
  unfold Qred, inject_Z. cbn [Qnum Qden].
  pose proof (Z.ggcd_gcd z 1) as Hg.
  pose proof (Z.ggcd_correct_divisors z 1) as Hd.
  destruct (Z.ggcd z 1) as [g [aa bb]]. cbn [fst snd] in *.
  rewrite Z.gcd_1_r in Hg. subst g. destruct Hd as [Ha Hb].
  rewrite Z.mul_1_l in Ha, Hb. subst aa bb. reflexivity.
Qed.

(** A number that equals the integer [i >= 0] is the array index [i]. *)
Lemma array_index_integer (q : Q) (i : nat) :
  q == inject_Z (Z.of_nat i) -> array_index (Fin q) = Some i.
Proof.
  intros Hq. unfold array_index.
  rewrite (Qred_complete _ _ Hq), Qred_inject_Z. cbn [inject_Z Qnum Qden].
  rewrite Z.eqb_refl. cbn [andb].
  destruct (Z.leb_spec 0 (Z.of_nat i)); [|lia].
  rewrite Nat2Z.id. reflexivity.
Qed.

(** A number that is not an integer is no array index. *)
Lemma array_index_fraction (q : Q) :
  (~ exists z : Z, q == inject_Z z) -> array_index (Fin q) = None.
Proof.
  intros Hn. unfold array_index.
  destruct (Z.eqb_spec (Zpos (Qden (Qred q))) 1) as [Hd|]; [|reflexivity].
  exfalso. apply Hn. exists (Qnum (Qred q)).
  rewrite <- (Qred_correct q) at 1.
  destruct (Qred q) as [n d]. cbn [Qden Qnum] in *.
  injection Hd as ->. reflexivity.
Qed.

Lemma splice_start_integer (len : nat) (q : Q) (i : nat) :
  q == inject_Z (Z.of_nat i) -> (i <= len)%nat ->
  splice_start len (Fin q) = i.
Proof.
  intros Hq Hi. unfold splice_start, Qtrunc.
  assert (H0 : Qle_bool 0 q = true).
  { apply Qle_bool_iff. rewrite Hq. change 0%Q with (inject_Z 0).
    rewrite <- Zle_Qle. lia. }
  assert (Hf : Qfloor q = Z.of_nat i) by (rewrite Hq; apply Qfloor_Z).
  rewrite H0, !Hf.
  destruct (Z.ltb_spec (Z.of_nat i) 0); [lia|].
  rewrite Z.min_l by lia. apply Nat2Z.id.
Qed.

(** The numbers the index test lets through: at least 0 and below the
    number of habits. *)
Lemma index_rejected_false (n : number) (s : state) :
  index_rejected n s = false <->
  exists q : Q, n = Fin q /\ (0 <= q)%Q
                /\ (q < inject_Z (Z.of_nat (List.length (habits s))))%Q.
Proof.
  unfold index_rejected, num_geb, of_nat, of_Z.
  destruct n as [| |q|]; cbn [isNaN num_ltb num_leb orb].
  - split; [discriminate | intros [q [H _]]; discriminate].
  - split; [discriminate | intros [q [H _]]; discriminate].
  - unfold Qlt_bool. split.
    + intros H. apply orb_false_iff in H as [H1 H2].
      apply negb_false_iff, Qle_bool_iff in H1.
      apply Qle_bool_false in H2.
      exists q. repeat split; assumption.
    + intros [q' [Hq [H1 H2]]]. injection Hq as <-.
      apply orb_false_iff. split.
      * apply negb_false_iff, Qle_bool_iff, H1.
      * destruct (Qle_bool _ q) eqn:Hle; [|reflexivity].
        apply Qle_bool_iff in Hle. lra.
  - split; [discriminate | intros [q [H _]]; discriminate].
Qed.

Lemma index_in_range (n : number) (i : nat) (s : state) :
  num_eq n (of_nat i) -> (i < List.length (habits s))%nat ->
  exists q : Q, n = Fin q /\ q == inject_Z (Z.of_nat i)
                /\ index_rejected n s = false.
Proof.
  intros Hn Hi. destruct n as [| |q|]; try contradiction.
  cbn [num_eq of_nat of_Z] in Hn. exists q.
  split; [reflexivity|]. split; [exact Hn|].
  apply index_rejected_false. exists q. split; [reflexivity|].
  rewrite Hn. change 0%Q with (inject_Z 0). rewrite <- Zle_Qle, <- Zlt_Qlt. lia.
Qed.

Section IndexFacts.
Variable E : engine.

(** What [completeHabit] does with NaN, a negative number or a number
    that is not below the count: the error value, nothing changed. *)
Lemma completeHabit_rejected (a : ambient) (v : value) (s : state) :
  ToNumber E v = NaN
  \/ num_ltb (ToNumber E v) (Fin 0) = true
  \/ num_le (of_nat (List.length (habits s))) (ToNumber E v) ->
  completeHabit E a v s = Return (InvalidIndex "Index tidak valid") s.
Proof.
  intros H. unfold completeHabit.
  assert (Hr : index_rejected (ToNumber E v) s = true).
  { unfold index_rejected, num_geb.
    destruct H as [-> | [-> | H]];
      [reflexivity | rewrite orb_true_r; reflexivity |].
    unfold num_le in H. rewrite H. apply orb_true_r. }
  rewrite Hr. reflexivity.
Qed.

(** What [completeHabit] does with an index that passes the test and
    denotes the habit [h] at position [i]. *)
Lemma completeHabit_accepted (a : ambient) (v : value) (s : state)
      (i : nat) (h h' : Habit) (added : bool) :
  index_rejected (ToNumber E v) s = false ->
  array_index (ToNumber E v) = Some i ->
  nth_error (habits s) i = Some h ->
  markComplete h (Some (clock a)) = inr (h', added) ->
  completeHabit E a v s
  = if added
    then (user_updateStats ;;;
          fun s => Return (Completed h' true) (saveToFile a s))
           (set_habits s (list_set i h' (habits s)))
    else Return (Completed h' false)
                (set_habits s (list_set i h' (habits s))).
Proof.
  intros Hr Hidx Hi Hm. unfold completeHabit. cbv zeta. rewrite Hr, Hidx.
  unfold bind at 1. unfold markComplete_at. rewrite Hi, Hm.
  destruct added; reflexivity.
Qed.

(** C5 fails on the code for an index that is not an integer: a number in
    [0, count) with a fractional part passes the index test, denotes no
    element of the array, and [completeHabit] throws a TypeError when it
    calls [markComplete] on [undefined] instead of returning the error
    value. *)
Theorem completeHabit_fractional_index (a : ambient) (v : value)
        (s : state) (q : Q) :
  ToNumber E v = Fin q ->
  (0 <= q)%Q ->
  (q < inject_Z (Z.of_nat (List.length (habits s))))%Q ->
  (~ exists z : Z, q == inject_Z z) ->
  completeHabit E a v s
  = Throw (TypeError "Cannot read properties of undefined") s.
Proof.
  intros Hv H0 Hlt Hfrac. unfold completeHabit. rewrite Hv.
  assert (Hr : index_rejected (Fin q) s = false)
    by (apply index_rejected_false; exists q; auto).
  rewrite Hr, (array_index_fraction q Hfrac). reflexivity.
Qed.
End IndexFacts.

(** ** Deleting, then completing at the same index *)

(** The end of every mutating operation: the stats are recomputed, then the
    state is saved and [x] returned.  The habits are as before it, thrown or
    returned; when it returns, it returns [x] with the stats in sync. *)
Lemma after_mutation {A : Type} (a : ambient) (x : A) (s0 : state) :
  let o := (user_updateStats ;;; fun s => Return x (saveToFile a s)) s0 in
  habits (state_of o) = habits s0 /\
  user (state_of o) = user s0 /\
  (forall y, returned o = Some y -> y = x /\ stats_in_sync (state_of o)) /\
  (user s0 = TheUserProfile -> returned o = Some x) /\
  (data_file (state_of o) = data_file s0
   \/ data_file (state_of o) = Data (snapshot (state_of o))).
Proof.
  cbv zeta. unfold bind.
  destruct (user_updateStats s0) as [[] s1 | e s1] eqn:Hu.
  - destruct (user_updateStats_returns _ _ Hu) as [Hsync [Hh [Hus Hf]]].
    destruct (saveToFile_keeps a s1) as [Hh' [Hus' Hup']].
    cbn [state_of returned].
    split; [congruence|]. split; [congruence|].
    split; [intros y Hy; injection Hy as <-; split;
            [reflexivity | apply saveToFile_in_sync, Hsync]|].
    split; [reflexivity|].
    unfold saveToFile. destruct (write_ok a); [right | left].
    + reflexivity.
    + exact Hf.
  - unfold user_updateStats in Hu. destruct (user s0) eqn:Hus; [discriminate|].
    injection Hu as <- <-. cbn [state_of returned].
    split; [reflexivity|]. split; [exact Hus|].
    split; [discriminate|]. split; [discriminate | left; reflexivity].
Qed.

Lemma markComplete_now (h : Habit) (t : Z) :
  exists (h' : Habit) (added : bool),
    markComplete h (Some t) = inr (h', added).
Proof.
  unfold markComplete, formatDate, toISOString.
  destruct (negb _); eexists; eexists; reflexivity.
Qed.

Lemma nth_error_removed {A : Type} (l : list A) (i j : nat) :
  (i < List.length l)%nat ->
  nth_error (firstn i l ++ skipn (S i) l) j
  = if (j <? i)%nat then nth_error l j else nth_error l (S j).
Proof.
  intros Hi.
  assert (Hlen : List.length (firstn i l) = i)
    by (rewrite length_firstn; lia).
  destruct (Nat.ltb_spec j i).
  - rewrite nth_error_app1 by lia. rewrite nth_error_firstn.
    destruct (Nat.ltb_spec j i); [reflexivity | lia].
  - rewrite nth_error_app2 by lia. rewrite nth_error_skipn, Hlen.
    f_equal. lia.
Qed.

Section DeleteFacts.
Variable E : engine.

Lemma deleteHabit_state (a : ambient) (v : value) (i : nat) (s : state) :
  num_eq (ToNumber E v) (of_nat i) -> (i < List.length (habits s))%nat ->
  habits (state_of (deleteHabit E a v s))
  = (firstn i (habits s) ++ skipn (S i) (habits s))%list /\
  user (state_of (deleteHabit E a v s)) = user s /\
  (forall b, returned (deleteHabit E a v s) = Some b -> b = true) /\
  (user s = TheUserProfile -> returned (deleteHabit E a v s) = Some true).
Proof.
  intros Hv Hi.
  destruct (index_in_range _ _ _ Hv Hi) as [q [Hn [Hq Hr]]].
  unfold deleteHabit. rewrite Hr.
  destruct (after_mutation a true
              (set_habits s (splice1 (habits s) (ToNumber E v))))
    as [Hh [Hu [Hret [Hsing _]]]].
  split.
  { rewrite Hh. cbn [habits set_habits]. unfold splice1.
    rewrite Hn, (splice_start_integer _ q i Hq) by lia.
    rewrite Nat.add_1_r. reflexivity. }
  split; [rewrite Hu; reflexivity|].
  split; [intros b Hb; apply (Hret b Hb) | exact Hsing].
Qed.

(** C8.  On a tracker with at least [i + 2] habits, [deleteHabit(i)]
    removes the habit at position [i] and moves the later ones down by
    one, and a [completeHabit(i)] right after it marks the habit that was
    at position [i + 1] before the deletion. *)
Theorem deleteHabit_then_completeHabit (a a' : ambient) (v : value)
        (i : nat) (s : state) :
  num_eq (ToNumber E v) (of_nat i) ->
  (i + 2 <= List.length (habits s))%nat ->
  let s1 := state_of (deleteHabit E a v s) in
  habits s1 = (firstn i (habits s) ++ skipn (S i) (habits s))%list /\
  List.length (habits s1) = (List.length (habits s) - 1)%nat /\
  (forall j, (j < i)%nat ->
             nth_error (habits s1) j = nth_error (habits s) j) /\
  (forall j, (i <= j)%nat ->
             nth_error (habits s1) j = nth_error (habits s) (S j)) /\
  (forall b, returned (deleteHabit E a v s) = Some b -> b = true) /\
  (user s = TheUserProfile ->
   returned (deleteHabit E a v s) = Some true) /\
  exists (next next' : Habit) (added : bool),
    nth_error (habits s) (S i) = Some next /\
    markComplete next (Some (clock a')) = inr (next', added) /\
    habits (state_of (completeHabit E a' v s1))
    = list_set i next' (habits s1) /\
    (forall r, returned (completeHabit E a' v s1) = Some r ->
               r = Completed next' added) /\
    (user s = TheUserProfile ->
     returned (completeHabit E a' v s1) = Some (Completed next' added)).
Proof.
  intros Hv Hlen. cbv zeta.
  destruct (deleteHabit_state a v i s Hv ltac:(lia))
    as [Hh [Hu [Hret Hsing]]].
  set (s1 := state_of (deleteHabit E a v s)) in *.
  assert (Hnth : forall j, nth_error (habits s1) j
                           = if (j <? i)%nat then nth_error (habits s) j
                             else nth_error (habits s) (S j))
    by (intros j; rewrite Hh; apply nth_error_removed; lia).
  assert (Hl1 : List.length (habits s1) = (List.length (habits s) - 1)%nat).
  { rewrite Hh, length_app, length_firstn, length_skipn. lia. }
  split; [exact Hh|]. split; [exact Hl1|].
  split; [intros j Hj; rewrite Hnth;
          destruct (Nat.ltb_spec j i); [reflexivity | lia]|].
  split; [intros j Hj; rewrite Hnth;
          destruct (Nat.ltb_spec j i); [lia | reflexivity]|].
  split; [exact Hret|]. split; [exact Hsing|].
  destruct (nth_error (habits s) (S i)) as [next|] eqn:Hnext;
    [|apply nth_error_None in Hnext; lia].
  destruct (markComplete_now next (clock a')) as [next' [added Hmark]].
  exists next, next', added.
  split; [reflexivity|]. split; [exact Hmark|].
  destruct (index_in_range _ i s1 Hv ltac:(lia)) as [q [Hn [Hq Hr]]].
  assert (Hi : nth_error (habits s1) i = Some next)
    by (rewrite Hnth, Nat.ltb_irrefl; exact Hnext).
  assert (Hidx : array_index (ToNumber E v) = Some i)
    by (rewrite Hn; apply array_index_integer, Hq).
  pose proof (completeHabit_accepted E a' v s1 i next next' added
                                     Hr Hidx Hi Hmark) as Hc.
  rewrite Hc. destruct added.
  - destruct (after_mutation a' (Completed next' true)
                (set_habits s1 (list_set i next' (habits s1))))
      as [Hh' [Hu' [Hret' [Hsing' _]]]].
    split; [rewrite Hh'; reflexivity|].
    split; [intros r Hr'; apply (Hret' r Hr')|].
    intros Hs. apply Hsing'. cbn [user set_habits]. congruence.
  - cbn [ret state_of returned habits set_habits].
    split; [reflexivity|].
    split; [intros r Hr'; injection Hr' as <-; reflexivity|].
    reflexivity.
Qed.
End DeleteFacts.

(** ** Stats after the operations *)

Lemma list_set_same {A : Type} (l : list A) (i : nat) (x : A) :
  nth_error l i = Some x -> list_set i x l = l.
Proof.
  revert i; induction l as [|y l IH]; intros [|i] H; cbn in *;
    try discriminate; try reflexivity.
  - injection H as ->. reflexivity.
  - rewrite (IH i H). reflexivity.
Qed.

Lemma markComplete_false (h h' : Habit) (d : time) :
  markComplete h d = inr (h', false) -> h' = h.
Proof.
  unfold markComplete. destruct (formatDate d); [discriminate|].
  destruct (negb _); intros H; [discriminate|].
  injection H as <-. reflexivity.
Qed.

Section StatsFacts.
Variable E : engine.

Lemma addHabit_in_sync (a : ambient) (nm : string) (f : value) (s : state)
      (h : Habit) :
  returned (addHabit E a nm f s) = Some h ->
  stats_in_sync (state_of (addHabit E a nm f s)).
Proof.
  unfold addHabit. intros H.
  apply (after_mutation a (Habit_new E a nm f)) in H. apply H.
Qed.

Lemma deleteHabit_in_sync (a : ambient) (v : value) (s : state) (b : bool) :
  stats_in_sync s ->
  returned (deleteHabit E a v s) = Some b ->
  stats_in_sync (state_of (deleteHabit E a v s)).
Proof.
  unfold deleteHabit. intros Hs H.
  destruct (index_rejected (ToNumber E v) s); [exact Hs|].
  apply (after_mutation a true) in H. apply H.
Qed.

(** A [completeHabit] that returns keeps the stats in sync when they were:
    after a mutation they are recomputed, otherwise nothing changed. *)
Lemma completeHabit_in_sync (a : ambient) (v : value) (s : state)
      (r : completeResult) :
  stats_in_sync s ->
  returned (completeHabit E a v s) = Some r ->
  stats_in_sync (state_of (completeHabit E a v s)).
Proof.
  intros Hs.
  destruct (index_rejected (ToNumber E v) s) eqn:Hr.
  { intros _. unfold completeHabit. cbv zeta. rewrite Hr. exact Hs. }
  destruct (array_index (ToNumber E v)) as [i|] eqn:Hidx.
  2:{ unfold completeHabit. cbv zeta. rewrite Hr, Hidx. discriminate. }
  destruct (nth_error (habits s) i) as [h|] eqn:Hi.
  2:{ unfold completeHabit. cbv zeta. rewrite Hr, Hidx.
      unfold bind at 1. unfold markComplete_at. rewrite Hi. discriminate. }
  destruct (markComplete_now h (clock a)) as [h' [added Hm]].
  rewrite (completeHabit_accepted E a v s i h h' added Hr Hidx Hi Hm).
  destruct added.
  - intros H. apply (after_mutation a (Completed h' true)) in H. apply H.
  - intros _. cbn [state_of].
    apply markComplete_false in Hm. subst h'.
    rewrite (list_set_same _ _ _ Hi).
    unfold stats_in_sync, profile in *. exact Hs.
Qed.
End StatsFacts.

(** C6 fails on the first launch of the program.  [main] seeds two
    completions by calling [markComplete] on the habit and saves without
    recomputing the stats; a [completeHabit("0")] later that day finds the
    day present, returns [{ habit, added: false }] and leaves
    [totalCompletions] at 0 while the habits hold 2 completions. *)
Theorem completeHabit_after_seed_stale_stats :
  exists (s s' : state) (h : Habit),
    first_launch = Return tt s /\
    completeHabit sample_engine (sample_ambient (a_wednesday + 60000))
                  (VStr "0") s
    = Return (Completed h false) s' /\
    stats (profile s') = {| habitsCreated := 2; totalCompletions := 0 |} /\
    recomputed (habits s') = {| habitsCreated := 2; totalCompletions := 2 |} /\
    ~ stats_in_sync s'.
Proof.
  eexists. eexists. eexists.
  split; [vm_compute; reflexivity|].
  split; [vm_compute; reflexivity|].
  split; [reflexivity|]. split; [reflexivity|].
  unfold stats_in_sync. vm_compute. discriminate.
Qed.

(** ** One entry per calendar day *)

Lemma markComplete_unique (h h' : Habit) (d : time) (b : bool) :
  unique_days h -> markComplete h d = inr (h', b) -> unique_days h'.
Proof.
  unfold unique_days, markComplete. intros Hu.
  destruct (formatDate d) as [e | day]; [discriminate|].
  destruct (includes day (completions h)) eqn:Hin; cbn [negb];
    intros H; injection H as <- <-; [exact Hu|].
  cbn [set_completions completions].
  apply includes_not_In in Hin.
  apply NoDup_app; repeat split.
  - exact Hu.
  - constructor; [intros [] | constructor].
  - intros x Hx [Hd | []]. subst x. contradiction.
Qed.

Lemma Forall_list_set {A : Type} (P : A -> Prop) (l : list A) (i : nat)
      (x : A) :
  Forall P l -> P x -> Forall P (list_set i x l).
Proof.
  intros Hl Hx. revert i; induction Hl as [|y l Hy Hl IH]; intros [|i];
    cbn [list_set]; constructor; auto.
Qed.

Lemma Forall_splice1 {A : Type} (P : A -> Prop) (l : list A) (idx : number) :
  Forall P l -> Forall P (splice1 l idx).
Proof.
  intros Hl. unfold splice1.
  set (k := splice_start (List.length l) idx).
  pose proof Hl as H1. rewrite <- (firstn_skipn k l) in H1.
  pose proof Hl as H2. rewrite <- (firstn_skipn (k + 1) l) in H2.
  apply Forall_app in H1 as [H1 _]. apply Forall_app in H2 as [_ H2].
  apply Forall_app. split; assumption.
Qed.

Lemma stored_habits_unique (hs : list Habit) :
  Forall unique_days hs -> Forall stored_unique (map stored hs).
Proof.
  intros H. induction H; cbn [map]; constructor; auto.
Qed.

Section UniqueFacts.
Variable E : engine.

Lemma restore_all_unique (fresh : nat -> ambient) (i : nat)
      (l : list StoredHabit) :
  Forall stored_unique l -> Forall unique_days (restore_all E fresh i l).
Proof.
  intros H. revert i; induction H as [|h l Hh Hl IH]; intros i;
    cbn [restore_all]; constructor; [|apply IH].
  unfold unique_days, restore, stored_unique in *. cbn [completions].
  destruct (stored_completions h); [exact Hh | constructor].
Qed.

Lemma saveToFile_invariant (a : ambient) (s : state) :
  days_invariant s -> days_invariant (saveToFile a s).
Proof.
  unfold days_invariant, saveToFile. intros [Hh Hf].
  destruct (write_ok a); [|split; assumption].
  cbn [habits data_file set_data_file file_unique snapshot payload_habits].
  split; [exact Hh | apply stored_habits_unique, Hh].
Qed.

Lemma after_mutation_invariant {A : Type} (a : ambient) (x : A)
      (s0 : state) :
  days_invariant s0 ->
  days_invariant
    (state_of ((user_updateStats ;;;
                fun s => Return x (saveToFile a s)) s0)).
Proof.
  intros [Hh Hf].
  destruct (after_mutation a x s0) as [Hh' [_ [_ [_ Hfile]]]].
  unfold days_invariant. rewrite Hh'. split; [exact Hh|].
  destruct Hfile as [-> | ->]; [exact Hf|].
  cbn [file_unique snapshot payload_habits]. rewrite Hh'.
  apply stored_habits_unique, Hh.
Qed.

Lemma markComplete_at_invariant (i : option nat) (d : time) (s : state) :
  days_invariant s -> days_invariant (state_of (markComplete_at i d s)).
Proof.
  intros [Hh Hf]. unfold markComplete_at.
  destruct i as [i|]; [|split; assumption].
  destruct (nth_error (habits s) i) as [h|] eqn:Hi; [|split; assumption].
  destruct (markComplete h d) as [e | [h' b]] eqn:Hm; [split; assumption|].
  cbn [state_of]. split; [|exact Hf].
  cbn [habits set_habits]. apply Forall_list_set; [exact Hh|].
  apply (markComplete_unique h h' d b); [|exact Hm].
  rewrite Forall_forall in Hh. apply Hh. eapply nth_error_In, Hi.
Qed.

Lemma addHabit_invariant (a : ambient) (nm : string) (f : value)
      (s : state) :
  days_invariant s -> days_invariant (state_of (addHabit E a nm f s)).
Proof.
  intros [Hh Hf]. unfold addHabit. apply after_mutation_invariant.
  split; [|exact Hf]. cbn [habits set_habits].
  apply Forall_app. split; [exact Hh|].
  constructor; [|constructor]. constructor.
Qed.

Lemma deleteHabit_invariant (a : ambient) (v : value) (s : state) :
  days_invariant s -> days_invariant (state_of (deleteHabit E a v s)).
Proof.
  intros [Hh Hf]. unfold deleteHabit.
  destruct (index_rejected (ToNumber E v) s); [split; assumption|].
  apply after_mutation_invariant.
  split; [|exact Hf]. cbn [habits set_habits]. apply Forall_splice1, Hh.
Qed.

Lemma completeHabit_invariant (a : ambient) (v : value) (s : state) :
  days_invariant s -> days_invariant (state_of (completeHabit E a v s)).
Proof.
  intros Hs. unfold completeHabit. cbv zeta.
  destruct (index_rejected (ToNumber E v) s); [exact Hs|].
  pose proof (markComplete_at_invariant (array_index (ToNumber E v))
                                        (Some (clock a)) s Hs) as Hm.
  unfold bind at 1.
  destruct (markComplete_at (array_index (ToNumber E v)) (Some (clock a)) s)
    as [[h' added] s1 | e s1]; cbn [state_of] in *; [|exact Hm].
  destruct added; [apply after_mutation_invariant, Hm | exact Hm].
Qed.

Lemma clearAllData_invariant (a : ambient) (s : state) :
  days_invariant s -> days_invariant (state_of (clearAllData a s)).
Proof.
  intros [Hh Hf]. unfold clearAllData. apply after_mutation_invariant.
  split; [constructor | exact Hf].
Qed.

Lemma loadFromFile_invariant (a : ambient) (fresh : nat -> ambient)
      (s : state) :
  days_invariant s -> days_invariant (loadFromFile E a fresh s).
Proof.
  intros Hs. unfold loadFromFile.
  destruct (data_file s) as [| |parsed] eqn:Hd;
    [apply saveToFile_invariant, Hs | exact Hs |].
  destruct Hs as [Hh Hf]. rewrite Hd in Hf. cbn [file_unique] in Hf.
  set (hs := restore_all E fresh 0 _).
  assert (Hhs : Forall unique_days hs).
  { apply restore_all_unique.
    destruct (payload_habits parsed); [exact Hf | constructor]. }
  unfold user_updateStats. cbn [user set_habits set_user].
  destruct (payload_user parsed); [cbn [state_of] |].
  - split; [exact Hhs|]. cbn [data_file set_habits set_user]. rewrite Hd.
    exact Hf.
  - destruct (user s); cbn [state_of]; (split; [exact Hhs|]);
      cbn [data_file set_habits set_user set_UserProfile]; rewrite Hd;
      exact Hf.
Qed.

Lemma run_days_invariant (s : state) : run E s -> days_invariant s.
Proof.
  induction 1.
  - apply loadFromFile_invariant. split; [constructor|].
    destruct garbage; exact I.
  - apply loadFromFile_invariant. split; [constructor | apply IHrun].
  - apply addHabit_invariant, IHrun.
  - apply completeHabit_invariant, IHrun.
  - apply deleteHabit_invariant, IHrun.
  - apply clearAllData_invariant, IHrun.
  - apply markComplete_at_invariant, IHrun.
  - apply saveToFile_invariant, IHrun.
Qed.

(** C7.  In every state the program reaches (habits added, completed and
    deleted through the tracker, [markComplete] called on a habit with any
    date, the state saved and reloaded by a later launch from the file the
    program wrote), no habit holds a calendar day twice. *)
Theorem completions_days_unique (s : state) (h : Habit) :
  run E s -> In h (habits s) -> NoDup (completions h).
Proof.
  intros Hrun Hin. destruct (run_days_invariant s Hrun) as [Hh _].
  rewrite Forall_forall in Hh. apply (Hh h Hin).
Qed.
End UniqueFacts.

(** ** The properties on the sample host *)

Example sample_this_week :
  getThisWeekCompletions sample_engine week_habit (Some a_wednesday)
  = ["2024-01-03"; "2024-01-07"; "2024-01-01"].
Proof. reflexivity. Qed.

Example sample_progress :
  num_eq (getProgressPercentage sample_engine week_habit (Some a_wednesday))
         (Fin 100)
  /\ isCompletedThisWeek sample_engine week_habit (Some a_wednesday) = true.
Proof. split; vm_compute; reflexivity. Qed.

Example sample_no_target :
  getProgressPercentage sample_engine idle_habit (Some a_wednesday) = Fin 0
  /\ isCompletedThisWeek sample_engine idle_habit (Some a_wednesday) = true.
Proof. split; vm_compute; reflexivity. Qed.

Lemma ordinary_wednesday : ordinary_date a_wednesday.
Proof. unfold ordinary_date, maxTime, msPerDay, a_wednesday. lia. Defined.



Lemma isCompletedThisWeek_iff_sample :
  num_le (targetFrequency idle_habit) (Fin 0) /\
  isCompletedThisWeek sample_engine idle_habit (Some a_wednesday) = true.
Proof.
  assert (H : num_le (targetFrequency idle_habit) (Fin 0)) by reflexivity.
  split; [exact H|].
  pose proof (isCompletedThisWeek_iff sample_engine idle_habit
                                      (Some a_wednesday)) as Hspec.
  cbv zeta in Hspec. destruct Hspec as (_ & Hzero).
  exact (Hzero H).
Defined.


Lemma one_half_fractional : ~ exists z : Z, (1 # 2) == inject_Z z.
Proof.
  intros [z Hz]. unfold Qeq in Hz. cbn in Hz. lia.
Defined.

Lemma completeHabit_fractional_index_sample :
  completeHabit sample_engine (sample_ambient a_wednesday)
                (VNum (Fin (1 # 2))) sample_tracker
  = Throw (TypeError "Cannot read properties of undefined") sample_tracker.
Proof.
  apply (completeHabit_fractional_index sample_engine
           (sample_ambient a_wednesday) (VNum (Fin (1 # 2))) sample_tracker
           (1 # 2)).
  - reflexivity.
  - discriminate.
  - reflexivity.
  - exact one_half_fractional.
Defined.

Example completed_twice_once :
  completions completed_habit = ["2024-01-03"].
Proof. vm_compute. reflexivity. Qed.

Lemma completions_days_unique_sample :
  run sample_engine completed_twice /\
  In completed_habit (habits completed_twice) /\
  NoDup (completions completed_habit).
Proof.
  assert (Hrun : run sample_engine completed_twice).
  { exact (run_completeHabit _ _ _ _
             (run_completeHabit _ _ _ _
                (run_addHabit _ _ _ _ _
                   (run_first sample_engine (sample_ambient a_wednesday)
                              (fun _ => sample_ambient a_wednesday) false)))). }
  assert (Hin : In completed_habit (habits completed_twice))
    by (vm_compute; left; reflexivity).
  split; [exact Hrun|]. split; [exact Hin|].
  exact (completions_days_unique sample_engine completed_twice
                                 completed_habit Hrun Hin).
Defined.

(** [loadFromFile] takes the stored array as it is: the uniqueness of days
    after a reload rests on the file having been written by the program. *)
Example restore_copies_completions :
  completions
    (restore sample_engine (sample_ambient a_wednesday)
       {| stored_id := None; stored_name := "Read";
          stored_targetFrequency := VUndefined;
          stored_completions := Some ["2024-01-03"; "2024-01-03"];
          stored_createdAt := None |})
  = ["2024-01-03"; "2024-01-03"].
Proof. reflexivity. Qed.

Lemma deleteHabit_then_completeHabit_sample :
  exists (next next' : Habit) (added : bool),
    nth_error (habits seeded_tracker) 1 = Some next /\
    name next = "Membaca buku" /\
    habits (state_of
              (completeHabit sample_engine (sample_ambient a_wednesday)
                 (VStr "0")
                 (state_of (deleteHabit sample_engine
                              (sample_ambient a_wednesday) (VStr "0")
                              seeded_tracker))))
    = [next'] /\
    name next' = "Membaca buku" /\ completions next' = ["2024-01-03"].
Proof.
  destruct (deleteHabit_then_completeHabit sample_engine
              (sample_ambient a_wednesday) (sample_ambient a_wednesday)
              (VStr "0") 0%nat seeded_tracker)
    as (_ & _ & _ & _ & _ & _ & next & next' & added & Hn & Hm & Hh & _).
  - reflexivity.
  - vm_compute. lia.
  - exists next, next', added.
    vm_compute in Hn. injection Hn as <-.
    vm_compute in Hm. injection Hm as <- <-.
    split; [reflexivity|]. split; [reflexivity|].
    split; [rewrite Hh; reflexivity|].
    split; reflexivity.
Defined.

Lemma Habit_new_non_numeric_target_sample :
  ToNumber sample_engine (VStr "abc") = NaN /\
  targetFrequency (Habit_new sample_engine (sample_ambient a_wednesday)
                             "Read" (VStr "abc")) = NaN.
Proof.
  split; [reflexivity|].
  apply (Habit_new_non_numeric_target sample_engine
           (sample_ambient a_wednesday) "Read" (VStr "abc")).
  reflexivity.
Defined.

Lemma addHabit_appends_sample :
  user sample_tracker = TheUserProfile /\
  exists s' : state,
    addHabit sample_engine (sample_ambient a_wednesday) "Write"
             (VNum (Fin 0)) sample_tracker
    = Return (Habit_new sample_engine (sample_ambient a_wednesday) "Write"
                        (VNum (Fin 0))) s'
    /\ List.length (habits s') = 2%nat /\ stats_in_sync s'.
Proof.
  split; [reflexivity|].
  destruct (addHabit_appends sample_engine (sample_ambient a_wednesday)
              "Write" (VNum (Fin 0)) sample_tracker eq_refl)
    as (s' & Hr & _ & Hl & Hs & _).
  exists s'. split; [exact Hr|]. split; [exact Hl | exact Hs].
Defined.

(** * Further properties *)

(** ** The calendar day of an instant *)

Lemma periodic_400 (f : Z -> bool) :
  (forall y, f (y + 400) = f y) ->
  holds_from 9 0 f = true ->
  forall y, f y = true.
Proof.
  intros Hp Hc y.
  assert (Hn : forall (n : nat) (y0 : Z), f (y0 + 400 * Z.of_nat n) = f y0).
  { induction n as [|n IH]; intros y0.
    - f_equal. lia.
    - replace (y0 + 400 * Z.of_nat (S n)) with (y0 + 400 * Z.of_nat n + 400)
        by lia.
      rewrite Hp. apply IH. }
  assert (Hc' : forall y0, 0 <= y0 < 400 -> f y0 = true).
  { intros y0 Hy. apply (holds_from_spec 9 0 f Hc).
    change (2 ^ Z.of_nat 9) with 512. lia. }
  pose proof (Z.div_mod y 400 ltac:(lia)) as Hdm.
  pose proof (Z.mod_pos_bound y 400 ltac:(lia)) as Hb.
  destruct (Z.le_gt_cases 0 (y / 400)) as [Hk | Hk].
  - replace y with (y mod 400 + 400 * Z.of_nat (Z.to_nat (y / 400))) by lia.
    rewrite Hn. apply Hc', Hb.
  - rewrite <- (Hn (Z.to_nat (- (y / 400))) y).
    replace (y + 400 * Z.of_nat (Z.to_nat (- (y / 400)))) with (y mod 400)
      by lia.
    apply Hc', Hb.
Qed.

Lemma DaysInYear_period (y : Z) : DaysInYear (y + 400) = DaysInYear y.
Proof.
  unfold DaysInYear.
  replace (y + 400) with (y + 100 * 4) at 1 by lia.
  replace (y + 400) with (y + 4 * 100) at 1 by lia.
  replace (y + 400) with (y + 1 * 400) by lia.
  rewrite !Z.mod_add by lia. reflexivity.
Qed.

Lemma DaysInYear_length (y : Z) :
  DayFromYear (y + 1) - DayFromYear y = DaysInYear y.
Proof.
  apply Z.eqb_eq. change (year_length_ok y = true).
  apply periodic_400; [|vm_compute; reflexivity].
  intros y0. unfold year_length_ok.
  replace (y0 + 400 + 1) with (y0 + 1 + 400) by lia.
  rewrite !DayFromYear_period, DaysInYear_period. f_equal. lia.
Qed.

Lemma InLeapYear_cases (t : Z) :
  (InLeapYear t = 0 \/ InLeapYear t = 1)
  /\ DaysInYear (YearFromTime t) = 365 + InLeapYear t.
Proof.
  unfold InLeapYear, DaysInYear.
  destruct ((_ =? 0) && _); cbn; lia.
Qed.

Lemma DayWithinYear_range (t : Z) :
  0 <= DayWithinYear t < 365 + InLeapYear t.
Proof.
  unfold DayWithinYear.
  pose proof (YearFromDay_spec (Day t)) as Hy.
  pose proof (DaysInYear_length (YearFromTime t)) as Hl.
  destruct (InLeapYear_cases t) as [_ Hd].
  unfold YearFromTime in *. lia.
Qed.

(** [month_scan] finds the month whose days include day [dwy] of the year. *)
Lemma month_scan_brackets (dwy leap : Z) :
  leap = 0 \/ leap = 1 ->
  0 <= dwy < 365 + leap ->
  DaysBeforeMonth (month_scan 11 0 dwy leap) leap <= dwy
  < DaysBeforeMonth (month_scan 11 0 dwy leap + 1) leap
  /\ DaysBeforeMonth (month_scan 11 0 dwy leap + 1) leap
     - DaysBeforeMonth (month_scan 11 0 dwy leap) leap <= 31.
Proof.
  intros Hl Hd.
  destruct Hl as [-> | ->]; cbn [month_scan];
    cbn [Z.add Pos.add Pos.succ DaysBeforeMonth];
    repeat match goal with
           | |- context [if ?a <? ?b then _ else _] =>
               destruct (Z.ltb_spec a b)
           end;
    cbn [Z.add Pos.add Pos.succ DaysBeforeMonth]; lia.
Qed.

Lemma DateFromTime_range (t : Z) : 1 <= DateFromTime t <= 31.
Proof.
  unfold DateFromTime, MonthFromTime.
  destruct (InLeapYear_cases t) as [Hl _].
  pose proof (month_scan_brackets _ _ Hl (DayWithinYear_range t)). lia.
Qed.

(** The calendar date determines the day number. *)
Lemma Day_from_date (t : Z) :
  Day t = DayFromYear (YearFromTime t)
          + DaysBeforeMonth (MonthFromTime t) (InLeapYear t)
          + DateFromTime t - 1.
Proof. unfold DateFromTime, DayWithinYear. lia. Qed.

(** ** The text of a calendar day *)

Lemma string_app_assoc (a b c : string) : (a ++ b) ++ c = a ++ (b ++ c).
Proof. induction a as [|x a IH]; cbn; [reflexivity | rewrite IH; reflexivity]. Qed.

Lemma string_length_app (a b : string) :
  String.length (a ++ b) = (String.length a + String.length b)%nat.
Proof. induction a as [|x a IH]; cbn; [reflexivity | rewrite IH; reflexivity]. Qed.

Lemma string_app_inj (a1 a2 r1 r2 : string) :
  String.length a1 = String.length a2 ->
  a1 ++ r1 = a2 ++ r2 -> a1 = a2 /\ r1 = r2.
Proof.
  revert a2; induction a1 as [|x a1 IH]; intros [|y a2] Hl H; cbn in *;
    try discriminate.
  - split; [reflexivity | exact H].
  - injection H as -> H. injection Hl as Hl.
    destruct (IH a2 Hl H) as [-> ->]. split; reflexivity.
Qed.

Lemma substring_0_app (n : nat) (a b : string) :
  (n <= String.length a)%nat -> substring 0 n (a ++ b) = substring 0 n a.
Proof.
  revert a; induction n as [|n IH]; intros [|x a] H; cbn in *;
    try reflexivity; try lia.
  - destruct b; reflexivity.
  - rewrite IH by lia. reflexivity.
Qed.

Lemma substring_0_all (a : string) : substring 0 (String.length a) a = a.
Proof. induction a as [|x a IH]; cbn; [reflexivity | rewrite IH; reflexivity]. Qed.

Lemma pad_length (k : nat) (n : Z) : String.length (pad k n) = k.
Proof.
  revert n; induction k as [|k IH]; intros n; cbn [pad]; [reflexivity|].
  rewrite string_length_app, IH. cbn. lia.
Qed.

Lemma digit_inj (a b : Z) :
  0 <= a < 10 -> 0 <= b < 10 -> digit a = digit b -> a = b.
Proof.
  intros Ha Hb H. unfold digit in H.
  apply (f_equal nat_of_ascii) in H.
  rewrite !nat_ascii_embedding in H by lia. lia.
Qed.

Lemma pad_inj (k : nat) (n m : Z) :
  0 <= n < 10 ^ Z.of_nat k -> 0 <= m < 10 ^ Z.of_nat k ->
  pad k n = pad k m -> n = m.
Proof.
  revert n m; induction k as [|k IH]; intros n m Hn Hm H.
  - cbn in Hn, Hm. lia.
  - rewrite Nat2Z.inj_succ, Z.pow_succ_r in Hn, Hm by lia.
    cbn [pad] in H.
    apply string_app_inj in H as [H1 H2]; [|rewrite !pad_length; reflexivity].
    injection H2 as H2.
    pose proof (Z.mod_pos_bound n 10 eq_refl) as Hn10.
    pose proof (Z.mod_pos_bound m 10 eq_refl) as Hm10.
    apply digit_inj in H2; [|assumption|assumption].
    pose proof (Z.div_mod n 10 ltac:(lia)) as Hdn.
    pose proof (Z.div_mod m 10 ltac:(lia)) as Hdm.
    assert (Hq : n / 10 = m / 10).
    { apply IH; [| |exact H1].
      - split; [apply Z.div_pos; lia | apply Z.div_lt_upper_bound; lia].
      - split; [apply Z.div_pos; lia | apply Z.div_lt_upper_bound; lia]. }
    lia.
Qed.

Lemma iso_year_length (y : Z) :
  (4 <= String.length (iso_year y))%nat
  /\ (0 <= y <= 9999 ->
      iso_year y = pad 4 y /\ String.length (iso_year y) = 4%nat).
Proof.
  unfold iso_year.
  destruct (Z.leb_spec 0 y), (Z.leb_spec y 9999); cbn [andb];
    try (rewrite pad_length; split; [lia | intros _; split; reflexivity]);
    (split; [|lia]);
    destruct (y <? 0); rewrite string_length_app, pad_length; cbn; lia.
Qed.

Lemma iso_text_date (t : Z) :
  exists rest : string, iso_text t = iso_date t ++ rest.
Proof.
  unfold iso_text, iso_date. eexists.
  rewrite !string_app_assoc. reflexivity.
Qed.

Lemma formatDate_iso_date (t : Z) :
  formatDate (Some t) = inr (substring 0 10 (iso_date t)).
Proof.
  unfold formatDate, toISOString, slice. cbn [Nat.sub].
  destruct (iso_text_date t) as [rest ->].
  rewrite substring_0_app; [reflexivity|].
  unfold iso_date. rewrite !string_length_app, !pad_length.
  destruct (iso_year_length (YearFromTime t)) as [Hy _]. cbn. lia.
Qed.

Lemma iso_date_of_Day (t1 t2 : Z) : Day t1 = Day t2 -> iso_date t1 = iso_date t2.
Proof.
  intros H.
  unfold iso_date, DateFromTime, MonthFromTime, DayWithinYear, InLeapYear,
    YearFromTime.
  rewrite H. reflexivity.
Qed.

(** X1.  [formatDate] depends on the UTC day of the instant only: two
    instants of one UTC day have the same text, whatever the time of day and
    whatever the year. *)
Theorem formatDate_same_UTC_day (t1 t2 : Z) :
  Day t1 = Day t2 -> formatDate (Some t1) = formatDate (Some t2).
Proof.
  intros H. rewrite !formatDate_iso_date, (iso_date_of_Day t1 t2 H).
  reflexivity.
Qed.

(** X2.  In the years 0 to 9999 the text of [formatDate] is the ten
    characters YYYY-MM-DD and tells the days apart: two instants with the
    same text lie on the same UTC day. *)
Theorem formatDate_tells_days_apart (t1 t2 : Z) :
  0 <= YearFromTime t1 <= 9999 ->
  0 <= YearFromTime t2 <= 9999 ->
  formatDate (Some t1) = formatDate (Some t2) ->
  Day t1 = Day t2.
Proof.
  intros Hy1 Hy2 H. rewrite !formatDate_iso_date in H. injection H as H.
  destruct (iso_year_length (YearFromTime t1)) as [_ Hp1].
  destruct (iso_year_length (YearFromTime t2)) as [_ Hp2].
  destruct (Hp1 Hy1) as [He1 Hl1]. destruct (Hp2 Hy2) as [He2 Hl2].
  assert (Hlen : forall t, String.length (iso_year (YearFromTime t)) = 4%nat ->
                           String.length (iso_date t) = 10%nat).
  { intros t Hl. unfold iso_date.
    rewrite !string_length_app, !pad_length, Hl. reflexivity. }
  pose proof (Hlen t1 Hl1) as L1. pose proof (Hlen t2 Hl2) as L2.
  rewrite <- L1 in H at 1. rewrite substring_0_all in H.
  rewrite <- L2 in H. rewrite substring_0_all in H.
  unfold iso_date in H. rewrite He1, He2 in H.
  apply string_app_inj in H as [Hyear H]; [|rewrite !pad_length; reflexivity].
  apply string_app_inj in H as [_ H]; [|reflexivity].
  apply string_app_inj in H as [Hmonth H]; [|rewrite !pad_length; reflexivity].
  apply string_app_inj in H as [_ Hdate]; [|reflexivity].
  pose proof (MonthFromTime_range t1). pose proof (MonthFromTime_range t2).
  pose proof (DateFromTime_range t1). pose proof (DateFromTime_range t2).
  apply pad_inj in Hyear;
    [|change (10 ^ Z.of_nat 4) with 10000; lia
     |change (10 ^ Z.of_nat 4) with 10000; lia].
  apply pad_inj in Hmonth;
    [|change (10 ^ Z.of_nat 2) with 100; lia
     |change (10 ^ Z.of_nat 2) with 100; lia].
  apply pad_inj in Hdate;
    [|change (10 ^ Z.of_nat 2) with 100; lia
     |change (10 ^ Z.of_nat 2) with 100; lia].
  rewrite (Day_from_date t1), (Day_from_date t2).
  unfold InLeapYear. rewrite Hyear, Hdate.
  replace (MonthFromTime t1) with (MonthFromTime t2) by lia. reflexivity.
Qed.

(** ** Weeks partition time *)

Section WeekWindowFacts.
Variable E : engine.

Lemma week_start_index (r : Z) :
  week_start E r = (7 * local_week E r - 3) * msPerDay - LocalTZA E.
Proof.
  unfold week_start, local_week, WeekDay. cbv zeta.
  rewrite Zplus_mod_idemp_l.
  replace (Day (LocalTime E r) + 4 + 6) with (Day (LocalTime E r) + 3 + 1 * 7)
    by lia.
  rewrite Z.mod_add by lia.
  pose proof (Z.div_mod (Day (LocalTime E r) + 3) 7 ltac:(lia)) as Hw.
  pose proof (Day_decompose (LocalTime E r)) as [Hd _].
  revert Hw Hd.
  generalize ((Day (LocalTime E r) + 3) mod 7).
  generalize ((Day (LocalTime E r) + 3) / 7).
  generalize (TimeWithinDay (LocalTime E r)).
  generalize (Day (LocalTime E r)).
  unfold LocalTime, msPerDay. intros. lia.
Qed.

Lemma in_week_iff (r r' : Z) :
  week_start E r <= r' <= week_start E r + 7 * msPerDay - 1 <->
  local_week E r' = local_week E r.
Proof.
  rewrite week_start_index. unfold local_week.
  pose proof (Day_decompose (LocalTime E r')) as [Hd Ht].
  pose proof (Z.div_mod (Day (LocalTime E r') + 3) 7 ltac:(lia)) as Hw.
  pose proof (Z.mod_pos_bound (Day (LocalTime E r') + 3) 7 eq_refl) as Hm.
  revert Hd Ht Hw Hm.
  generalize ((Day (LocalTime E r') + 3) mod 7).
  generalize ((Day (LocalTime E r') + 3) / 7).
  generalize (TimeWithinDay (LocalTime E r')).
  generalize (Day (LocalTime E r')).
  generalize ((Day (LocalTime E r) + 3) / 7).
  unfold LocalTime, msPerDay. intros W D' T' W' m' Hd Ht Hw Hm.
  split; intros; lia.
Qed.

Lemma same_week_bounds (r r' : Z) :
  ordinary_date r -> ordinary_date r' ->
  local_week E r' = local_week E r ->
  startOfWeek E (Some r') = startOfWeek E (Some r)
  /\ endOfWeek E (Some r') = endOfWeek E (Some r).
Proof.
  intros Hr Hr' Hw.
  rewrite !startOfWeek_value, !endOfWeek_value by assumption.
  rewrite !week_start_index, Hw. split; reflexivity.
Qed.

(** X3.  The weeks partition time: a date lies between [startOfWeek r] and
    [endOfWeek r] exactly when it has the same [startOfWeek] and the same
    [endOfWeek] as [r]. *)
Theorem same_week_iff (r r' : Z) :
  ordinary_date r -> ordinary_date r' ->
  date_geb (Some r') (startOfWeek E (Some r))
  && date_leb (Some r') (endOfWeek E (Some r)) = true
  <->
  startOfWeek E (Some r') = startOfWeek E (Some r)
  /\ endOfWeek E (Some r') = endOfWeek E (Some r).
Proof.
  intros Hr Hr'. split.
  - intros H. apply same_week_bounds; [assumption | assumption |].
    apply in_week_iff.
    rewrite startOfWeek_value, endOfWeek_value in H by assumption.
    cbn [date_geb date_leb] in H. lia.
  - intros [Hs _].
    rewrite startOfWeek_value, endOfWeek_value by assumption.
    rewrite !startOfWeek_value in Hs by assumption. injection Hs as Hs.
    cbn [date_geb date_leb]. rewrite <- Hs.
    pose proof (proj2 (in_week_iff r' r') eq_refl). lia.
Qed.

(** X4.  What a habit reports for a week does not depend on the day of the
    week it is asked: for a reference date within the week of another, the
    this-week completions, the status and the percentage are the same. *)
Theorem same_week_same_report (h : Habit) (r r' : Z) :
  ordinary_date r -> ordinary_date r' ->
  date_geb (Some r') (startOfWeek E (Some r))
  && date_leb (Some r') (endOfWeek E (Some r)) = true ->
  getThisWeekCompletions E h (Some r') = getThisWeekCompletions E h (Some r)
  /\ isCompletedThisWeek E h (Some r') = isCompletedThisWeek E h (Some r)
  /\ getProgressPercentage E h (Some r')
     = getProgressPercentage E h (Some r).
Proof.
  intros Hr Hr' H.
  assert (Hw : local_week E r' = local_week E r).
  { apply in_week_iff.
    rewrite startOfWeek_value, endOfWeek_value in H by assumption.
    cbn [date_geb date_leb] in H. lia. }
  destruct (same_week_bounds r r' Hr Hr' Hw) as [Hs He].
  assert (Hc : getThisWeekCompletions E h (Some r')
               = getThisWeekCompletions E h (Some r))
    by (unfold getThisWeekCompletions; rewrite Hs, He; reflexivity).
  unfold isCompletedThisWeek, getProgressPercentage. rewrite Hc.
  repeat split; reflexivity.
Qed.
End WeekWindowFacts.

(** ** Completions only grow *)

Lemma num_geb_of_nat_mono (tf : number) (n m : nat) :
  (n <= m)%nat -> num_geb (of_nat n) tf = true -> num_geb (of_nat m) tf = true.
Proof.
  intros Hnm. unfold num_geb, of_nat, of_Z.
  destruct tf as [| |q|]; cbn [num_leb]; try (intros H; exact H).
  rewrite !Qle_bool_iff. intros H.
  apply Qle_trans with (y := inject_Z (Z.of_nat n)); [exact H|].
  rewrite <- Zle_Qle. lia.
Qed.

Section GrowthFacts.
Variable E : engine.

(** X5.  [markComplete] never removes or reorders a completion and never
    touches the other fields: the completions after the call are those
    before it, followed by the new day exactly when it returns true.  So a
    week's count never drops, and a habit that was completed for a week
    stays completed. *)
Theorem markComplete_only_appends (h h' : Habit) (d r : time) (b : bool) :
  markComplete h d = inr (h', b) ->
  (exists day : string,
      formatDate d = inr day /\
      completions h' = (completions h ++ if b then [day] else [])%list /\
      (b = true <-> ~ In day (completions h))) /\
  id h' = id h /\ name h' = name h
  /\ targetFrequency h' = targetFrequency h /\ createdAt h' = createdAt h /\
  (List.length (getThisWeekCompletions E h r)
   <= List.length (getThisWeekCompletions E h' r))%nat /\
  (isCompletedThisWeek E h r = true -> isCompletedThisWeek E h' r = true).
Proof.
  unfold markComplete. destruct (formatDate d) as [e | day]; [discriminate|].
  destruct (includes day (completions h)) eqn:Hin; cbn [negb];
    intros H; injection H as <- <-.
  - apply includes_In in Hin.
    split.
    { exists day. split; [reflexivity|]. rewrite app_nil_r.
      split; [reflexivity|]. split; [discriminate | contradiction]. }
    repeat split; try reflexivity; auto.
  - apply includes_not_In in Hin.
    split.
    { exists day. split; [reflexivity|]. split; [reflexivity|].
      split; [intros _; exact Hin | reflexivity]. }
    assert (Hlen : (List.length (getThisWeekCompletions E h r)
                    <= List.length
                         (getThisWeekCompletions E
                            (set_completions h (completions h ++ [day])) r))%nat).
    { unfold getThisWeekCompletions. cbn [completions set_completions].
      rewrite filter_app, length_app. lia. }
    repeat split; try reflexivity; [exact Hlen|].
    unfold isCompletedThisWeek. cbn [targetFrequency set_completions].
    apply num_geb_of_nat_mono, Hlen.
Qed.

(** X6.  For a target that is a positive number the percentage lies
    between 0 and 100, and it is 100 exactly when the habit is completed
    for the week. *)
Theorem progress_full_iff_completed (h : Habit) (r : time) (q : Q) :
  targetFrequency h = Fin q -> (0 < q)%Q ->
  num_le (Fin 0) (getProgressPercentage E h r) /\
  num_le (getProgressPercentage E h r) (Fin 100) /\
  (isCompletedThisWeek E h r = true <->
   num_eq (getProgressPercentage E h r) (Fin 100)).
Proof.
  intros Ht Hq. unfold getProgressPercentage, isCompletedThisWeek, num_geb.
  rewrite Ht. unfold of_nat, of_Z.
  generalize (List.length (getThisWeekCompletions E h r)). intros n.
  assert (Hn : (0 <= inject_Z (Z.of_nat n))%Q)
    by (change 0%Q with (inject_Z 0); rewrite <- Zle_Qle; lia).
  set (c := inject_Z (Z.of_nat n)) in *. clearbody c.
  cbn [num_leb num_div].
  destruct (Qle_bool q 0) eqn:Hq0; [apply Qle_bool_iff in Hq0; lra|].
  destruct (positive_target q Hq0) as [_ Hne]. rewrite Hne.
  cbn [num_mul Math_min num_leb].
  assert (Hx : (c / q * q == c)%Q) by (field; lra).
  assert (Hx0 : (0 <= c / q)%Q).
  { unfold Qdiv. apply Qmult_le_0_compat; [exact Hn|].
    apply Qlt_le_weak, Qinv_lt_0_compat, Hq. }
  assert (Hiff : (q <= c <-> 1 <= c / q)%Q).
  { rewrite <- (Qmult_le_r 1 (c / q) q Hq). rewrite Hx. split; intros; lra. }
  set (x := (c / q)%Q) in *. clearbody x.
  unfold num_le.
  destruct (Qle_bool (x * 100) 100) eqn:H1; cbn [num_leb num_eq].
  - apply Qle_bool_iff in H1.
    split; [apply Qle_bool_iff; lra|]. split; [apply Qle_bool_iff; lra|].
    rewrite Qle_bool_iff, Hiff. split; intros; lra.
  - apply Qle_bool_false in H1.
    split; [reflexivity|]. split; [reflexivity|].
    rewrite Qle_bool_iff, Hiff. split; intros; [reflexivity | lra].
Qed.
End GrowthFacts.

(** ** What the tracker operations leave alone *)

Lemma nth_error_list_set {A : Type} (l : list A) (i j : nat) (x : A) :
  nth_error (list_set i x l) j
  = if (j =? i)%nat && (i <? List.length l)%nat then Some x
    else nth_error l j.
Proof.
  revert i j; induction l as [|y l IH]; intros i j.
  - cbn [List.length]. rewrite andb_false_r. destruct i; reflexivity.
  - destruct i as [|i], j as [|j]; cbn; try reflexivity.
    rewrite IH. reflexivity.
Qed.

Lemma length_list_set {A : Type} (l : list A) (i : nat) (x : A) :
  List.length (list_set i x l) = List.length l.
Proof.
  revert i; induction l as [|y l IH]; intros [|i]; cbn; auto.
Qed.

Lemma markComplete_only_appends_fields (h h' : Habit) (d : time) (b : bool) :
  markComplete h d = inr (h', b) ->
  id h' = id h /\ name h' = name h /\
  targetFrequency h' = targetFrequency h /\ createdAt h' = createdAt h /\
  exists day : string,
    formatDate d = inr day /\
    completions h' = (completions h ++ if b then [day] else [])%list /\
    (b = true <-> ~ In day (completions h)).
Proof.
  unfold markComplete. destruct (formatDate d) as [e | day]; [discriminate|].
  destruct (includes day (completions h)) eqn:Hin; cbn [negb];
    intros H; injection H as <- <-; repeat split; try reflexivity;
    exists day; (split; [reflexivity|]).
  - apply includes_In in Hin. rewrite app_nil_r.
    split; [reflexivity|]. split; [discriminate | contradiction].
  - apply includes_not_In in Hin.
    split; [reflexivity|]. split; [intros _; exact Hin | reflexivity].
Qed.

Section FrameFacts.
Variable E : engine.

(** The habits after [completeHabit], returned or thrown: the list is the
    one before, or the one before with the habit at the index replaced by
    what [markComplete] made of it. *)
Lemma completeHabit_habits (a : ambient) (v : value) (s : state) :
  habits (state_of (completeHabit E a v s)) = habits s
  \/ exists (i : nat) (h h' : Habit) (b : bool),
      array_index (ToNumber E v) = Some i /\
      nth_error (habits s) i = Some h /\
      markComplete h (Some (clock a)) = inr (h', b) /\
      habits (state_of (completeHabit E a v s)) = list_set i h' (habits s).
Proof.
  destruct (index_rejected (ToNumber E v) s) eqn:Hr.
  { left. unfold completeHabit. cbv zeta. rewrite Hr. reflexivity. }
  destruct (array_index (ToNumber E v)) as [i|] eqn:Hidx.
  2:{ left. unfold completeHabit. cbv zeta. rewrite Hr, Hidx. reflexivity. }
  destruct (nth_error (habits s) i) as [h|] eqn:Hi.
  2:{ left. unfold completeHabit. cbv zeta. rewrite Hr, Hidx.
      unfold bind at 1. unfold markComplete_at. rewrite Hi. reflexivity. }
  destruct (markComplete_now h (clock a)) as [h' [added Hm]].
  right. exists i, h, h', added.
  split; [reflexivity|]. split; [exact Hi|]. split; [exact Hm|].
  rewrite (completeHabit_accepted E a v s i h h' added Hr Hidx Hi Hm).
  destruct added; [|reflexivity].
  destruct (after_mutation a (Completed h' true)
              (set_habits s (list_set i h' (habits s)))) as [Hh _].
  rewrite Hh. reflexivity.
Qed.

(** X7.  [completeHabit] changes at most the completions of the habit at
    the index: the number of habits and their order stay, every other habit
    is what it was, and the habit at the index keeps its id, name, target
    and creation time and gains at most today's day. *)
Theorem completeHabit_frame (a : ambient) (v : value) (s : state) (j : nat)
        (h : Habit) :
  nth_error (habits s) j = Some h ->
  List.length (habits (state_of (completeHabit E a v s)))
  = List.length (habits s) /\
  exists h' : Habit,
    nth_error (habits (state_of (completeHabit E a v s))) j = Some h' /\
    id h' = id h /\ name h' = name h /\
    targetFrequency h' = targetFrequency h /\ createdAt h' = createdAt h /\
    (completions h' = completions h
     \/ array_index (ToNumber E v) = Some j /\
        exists today : string,
          formatDate (Some (clock a)) = inr today /\
          ~ In today (completions h) /\
          completions h' = (completions h ++ [today])%list).
Proof.
  intros Hj.
  destruct (completeHabit_habits a v s)
    as [-> | (i & hi & hi' & b & Hidx & Hi & Hm & ->)].
  { split; [reflexivity|]. exists h.
    repeat split; try reflexivity; [exact Hj | left; reflexivity]. }
  split; [apply length_list_set|].
  rewrite nth_error_list_set.
  destruct (Nat.eqb_spec j i) as [-> | Hne]; cbn [andb].
  - assert (Hlt : (i <? List.length (habits s))%nat = true).
    { apply Nat.ltb_lt, nth_error_Some. rewrite Hi. discriminate. }
    rewrite Hlt. rewrite Hi in Hj. injection Hj as ->.
    exists hi'. split; [reflexivity|].
    destruct (markComplete_only_appends_fields h hi' (Some (clock a)) b Hm)
      as (Hid & Hn & Ht & Hc & day & Hd & Hcomp & Hb).
    repeat split; try assumption.
    destruct b.
    + right. split; [exact Hidx|]. exists day.
      split; [exact Hd|]. split; [apply Hb; reflexivity | exact Hcomp].
    + left. rewrite Hcomp. apply app_nil_r.
  - exists h. repeat split; try reflexivity; [exact Hj | left; reflexivity].
Qed.
End FrameFacts.

(** ** Indices that are rejected, indices that are rounded *)

Lemma index_rejected_empty (n : number) (s : state) :
  habits s = [] -> index_rejected n s = true.
Proof.
  intros H. destruct (index_rejected n s) eqn:Hr; [reflexivity|].
  apply index_rejected_false in Hr as (q & _ & H0 & Hlt).
  rewrite H in Hlt.
  change (inject_Z (Z.of_nat (List.length (@nil Habit)))) with 0%Q in Hlt.
  lra.
Qed.

Lemma splice_start_floor (len : nat) (q : Q) :
  (0 <= q)%Q -> (q < inject_Z (Z.of_nat len))%Q ->
  splice_start len (Fin q) = Z.to_nat (Qfloor q)
  /\ (Z.to_nat (Qfloor q) < len)%nat.
Proof.
  intros H0 Hlt. unfold splice_start, Qtrunc.
  assert (Hb : Qle_bool 0 q = true) by (apply Qle_bool_iff, H0).
  rewrite Hb.
  assert (Hf0 : 0 <= Qfloor q).
  { change 0 with (Qfloor 0). apply Qfloor_resp_le, H0. }
  assert (Hfl : Qfloor q < Z.of_nat len).
  { rewrite Zlt_Qlt. apply Qle_lt_trans with (y := q); [apply Qfloor_le | exact Hlt]. }
  destruct (Z.ltb_spec (Qfloor q) 0); [lia|].
  rewrite Z.min_l by lia. split; [reflexivity | lia].
Qed.

Section RejectFacts.
Variable E : engine.

(** X8.  [deleteHabit] with an index that is NaN, negative or not below
    the number of habits returns false and changes nothing, in memory or in
    the file. *)
Theorem deleteHabit_rejected (a : ambient) (v : value) (s : state) :
  ToNumber E v = NaN
  \/ num_ltb (ToNumber E v) (Fin 0) = true
  \/ num_le (of_nat (List.length (habits s))) (ToNumber E v) ->
  deleteHabit E a v s = Return false s.
Proof.
  intros H. unfold deleteHabit.
  assert (Hr : index_rejected (ToNumber E v) s = true).
  { unfold index_rejected, num_geb.
    destruct H as [-> | [-> | H]];
      [reflexivity | rewrite orb_true_r; reflexivity |].
    unfold num_le in H. rewrite H. apply orb_true_r. }
  rewrite Hr. reflexivity.
Qed.

(** X9.  On a tracker without habits no index is valid: whatever is passed,
    [completeHabit] returns the error value and [deleteHabit] returns false,
    and nothing changes. *)
Theorem empty_tracker_rejects (a : ambient) (v : value) (s : state) :
  habits s = [] ->
  completeHabit E a v s = Return (InvalidIndex "Index tidak valid") s
  /\ deleteHabit E a v s = Return false s.
Proof.
  intros H. unfold completeHabit, deleteHabit. cbv zeta.
  rewrite (index_rejected_empty _ s H). split; reflexivity.
Qed.

(** X10.  [deleteHabit] rounds a fractional index down: for a number in
    [0, count), integer or not, it removes the habit at the integer part of
    the index and keeps the others in order; on a tracker whose profile is
    the [UserProfile] object it returns true.  ([completeHabit] throws on
    the same fractional index.) *)
Theorem deleteHabit_rounds_down (a : ambient) (v : value) (s : state)
        (q : Q) :
  ToNumber E v = Fin q ->
  (0 <= q)%Q ->
  (q < inject_Z (Z.of_nat (List.length (habits s))))%Q ->
  let k := Z.to_nat (Qfloor q) in
  (k < List.length (habits s))%nat /\
  habits (state_of (deleteHabit E a v s))
  = (firstn k (habits s) ++ skipn (S k) (habits s))%list /\
  (user s = TheUserProfile ->
   returned (deleteHabit E a v s) = Some true).
Proof.
  intros Hv H0 Hlt. cbv zeta.
  destruct (splice_start_floor _ q H0 Hlt) as [Hk Hklt].
  assert (Hr : index_rejected (ToNumber E v) s = false)
    by (rewrite Hv; apply index_rejected_false; exists q; auto).
  unfold deleteHabit. rewrite Hr.
  destruct (after_mutation a true
              (set_habits s (splice1 (habits s) (ToNumber E v))))
    as [Hh [_ [_ [Hsing _]]]].
  split; [exact Hklt|]. split; [|exact Hsing].
  rewrite Hh. cbn [habits set_habits]. unfold splice1.
  rewrite Hv, Hk, Nat.add_1_r. reflexivity.
Qed.
End RejectFacts.

(** ** Saving and launching again *)

Section ReloadFacts.
Variable E : engine.

Lemma restore_stored_reloaded (a : ambient) (h : Habit) :
  restore E a (stored h) = reloaded h.
Proof.
  unfold restore, stored, reloaded, Habit_new.
  cbn [stored_id stored_name stored_targetFrequency stored_completions
       stored_createdAt id name targetFrequency completions createdAt].
  destruct h as [i n tf c ca]. cbn [targetFrequency].
  destruct tf; reflexivity.
Qed.

Lemma restore_all_stored (fresh : nat -> ambient) (i : nat) (hs : list Habit) :
  restore_all E fresh i (map stored hs) = map reloaded hs.
Proof.
  revert i; induction hs as [|h hs IH]; intros i; cbn [map restore_all];
    [reflexivity|].
  rewrite restore_stored_reloaded, IH. reflexivity.
Qed.

(** X11.  Writing a habit to the file and reading it back gives the same
    habit (id, name, completions in order, creation time) when its target
    is a finite number; a target of NaN or an infinity, which JSON writes as
    null, comes back as 0. *)
Theorem restore_stored (a : ambient) (h : Habit) :
  (forall q : Q, targetFrequency h = Fin q -> restore E a (stored h) = h) /\
  (targetFrequency h = NaN \/ targetFrequency h = PosInf
   \/ targetFrequency h = NegInf ->
   targetFrequency (restore E a (stored h)) = Fin 0) /\
  id (restore E a (stored h)) = id h /\
  name (restore E a (stored h)) = name h /\
  completions (restore E a (stored h)) = completions h /\
  createdAt (restore E a (stored h)) = createdAt h.
Proof.
  rewrite restore_stored_reloaded. unfold reloaded.
  split.
  { intros q Hq. destruct h as [i n tf c ca]. cbn in *. subst tf.
    reflexivity. }
  split; [|repeat split; reflexivity].
  cbn [targetFrequency]. intros [-> | [-> | ->]]; reflexivity.
Qed.

Lemma relaunch_state (a a' : ambient) (fresh : nat -> ambient) (s : state) :
  write_ok a = true ->
  HabitTracker_new E a' fresh (data_file (saveToFile a s))
  = {| UserProfile := UserProfile_init a';
       habits := map reloaded (habits s);
       user := Parsed (profile s);
       data_file := Data (snapshot s) |}.
Proof.
  intros Hw. unfold HabitTracker_new, loadFromFile, saveToFile.
  rewrite Hw. cbn [data_file set_data_file snapshot payload_user payload_habits].
  rewrite restore_all_stored. reflexivity.
Qed.

(** X12.  A launch that finds the file a successful save wrote holds the
    saved habits in the saved order (targets that JSON cannot hold read as
    0), and the saved profile data with the saved stats; the launch leaves
    the file as it found it. *)
Theorem relaunch_round_trip (a a' : ambient) (fresh : nat -> ambient)
        (s : state) :
  write_ok a = true ->
  let s' := HabitTracker_new E a' fresh (data_file (saveToFile a s)) in
  habits s' = map reloaded (habits s) /\
  ((forall h, In h (habits s) -> exists q, targetFrequency h = Fin q) ->
   habits s' = habits s) /\
  profile s' = profile s /\
  data_file s' = data_file (saveToFile a s).
Proof.
  intros Hw. cbv zeta. rewrite (relaunch_state a a' fresh s Hw).
  cbn [habits]. split; [reflexivity|]. split.
  - intros Hfin. induction (habits s) as [|h hs IH]; [reflexivity|].
    cbn [map]. rewrite IH by (intros h' Hh'; apply Hfin; right; exact Hh').
    f_equal. destruct (Hfin h (or_introl eq_refl)) as [q Hq].
    destruct h as [i n tf c ca]. cbn in Hq. subst tf. reflexivity.
  - split; [reflexivity|]. unfold saveToFile. rewrite Hw. reflexivity.
Qed.

(** X13.  After such a launch the profile is the object read from the
    file, which has no [updateStats]: [addHabit] appends the new habit in
    memory, then throws a TypeError before anything is saved, and the file
    keeps the state of the earlier save. *)
Theorem addHabit_after_relaunch (a a' a2 : ambient) (fresh : nat -> ambient)
        (s : state) (nm : string) (f : value) :
  write_ok a = true ->
  let s' := HabitTracker_new E a' fresh (data_file (saveToFile a s)) in
  exists s2 : state,
    addHabit E a2 nm f s'
    = Throw (TypeError "this.user.updateStats is not a function") s2 /\
    habits s2 = (habits s' ++ [Habit_new E a2 nm f])%list /\
    stats (profile s2) = stats (profile s) /\
    data_file s2 = Data (snapshot s).
Proof.
  intros Hw. cbv zeta. rewrite (relaunch_state a a' fresh s Hw).
  eexists. split; [reflexivity|]. repeat split; reflexivity.
Qed.

(** X14.  A first launch: when there is no data file the tracker starts
    empty with zero stats and writes that empty state to the file (when the
    write succeeds); when the file cannot be parsed the tracker starts empty
    as well and leaves the file alone. *)
Theorem first_launch_states (a : ambient) (fresh : nat -> ambient) :
  let fresh_state disk :=
    {| UserProfile := UserProfile_init a; habits := [];
       user := TheUserProfile; data_file := disk |} in
  HabitTracker_new E a fresh Absent
  = fresh_state
      (if write_ok a
       then Data {| payload_user := Some (UserProfile_init a);
                    payload_habits := Some [] |}
       else Absent)
  /\ HabitTracker_new E a fresh Corrupt = fresh_state Corrupt
  /\ stats (UserProfile_init a) = recomputed [].
Proof.
  cbv zeta. unfold HabitTracker_new, loadFromFile, saveToFile.
  cbn [data_file]. destruct (write_ok a); repeat split; reflexivity.
Qed.
End ReloadFacts.

(** X15.  [clearAllData] never throws, also on a tracker whose profile was
    read from the file: it puts the [UserProfile] object back, and leaves no
    habit, zero stats, the current time as [createdAt] and, when the write
    succeeds, a file that holds exactly this empty state. *)
Theorem clearAllData_resets (a : ambient) (s : state) :
  exists s' : state,
    clearAllData a s = Return tt s' /\
    habits s' = [] /\ user s' = TheUserProfile /\
    stats (profile s') = {| habitsCreated := 0; totalCompletions := 0 |} /\
    profile_createdAt (profile s') = iso_text (clock a) /\
    profile_name (profile s') = profile_name (UserProfile s) /\
    data_file s'
    = (if write_ok a then Data (snapshot s') else data_file s).
Proof.
  unfold clearAllData, bind, user_updateStats.
  cbn [user set_user set_UserProfile set_habits].
  eexists. split; [reflexivity|].
  unfold saveToFile. destruct (write_ok a); repeat split; reflexivity.
Qed.

(** ** Stats along the tracker's own operations *)

Lemma stored_recomputed_stored (hs : list Habit) :
  stored_recomputed (map stored hs) = recomputed hs.
Proof.
  unfold stored_recomputed, recomputed. rewrite length_map, map_map.
  reflexivity.
Qed.

Lemma snapshot_in_sync (s : state) :
  stats_in_sync s -> file_in_sync (Data (snapshot s)).
Proof.
  unfold stats_in_sync. intros H.
  cbn [file_in_sync snapshot payload_user payload_habits].
  rewrite stored_recomputed_stored. exact H.
Qed.

Section ApiFacts.
Variable E : engine.

Lemma restore_all_recomputed (fresh : nat -> ambient) (i : nat)
      (l : list StoredHabit) :
  recomputed (restore_all E fresh i l) = stored_recomputed l.
Proof.
  unfold recomputed, stored_recomputed.
  revert i; induction l as [|h l IH]; intros i; [reflexivity|].
  cbn [restore_all map List.length list_sum fold_right].
  specialize (IH (S i)). injection IH as IH1 IH2.
  unfold list_sum in IH2. rewrite IH1, IH2. reflexivity.
Qed.

Lemma saveToFile_sync_invariant (a : ambient) (s : state) :
  stats_in_sync s /\ file_in_sync (data_file s) ->
  stats_in_sync (saveToFile a s) /\ file_in_sync (data_file (saveToFile a s)).
Proof.
  intros [Hs Hf]. split; [apply saveToFile_in_sync, Hs|].
  unfold saveToFile. destruct (write_ok a); [|exact Hf].
  cbn [data_file set_data_file]. apply snapshot_in_sync, Hs.
Qed.

Lemma loadFromFile_sync_invariant (a : ambient) (fresh : nat -> ambient)
      (s : state) :
  habits s = [] -> user s = TheUserProfile ->
  stats (UserProfile s) = recomputed [] ->
  file_in_sync (data_file s) ->
  stats_in_sync (loadFromFile E a fresh s)
  /\ file_in_sync (data_file (loadFromFile E a fresh s)).
Proof.
  intros Hh Hu Hst Hf.
  assert (Hs : stats_in_sync s)
    by (unfold stats_in_sync, profile; rewrite Hu, Hh; exact Hst).
  unfold loadFromFile.
  destruct (data_file s) as [| |parsed] eqn:Hd.
  - apply saveToFile_sync_invariant. rewrite Hd. split; [exact Hs | exact I].
  - rewrite Hd. split; [exact Hs | exact I].
  - cbn [file_in_sync] in Hf. unfold user_updateStats.
    cbn [user set_habits set_user].
    destruct (payload_user parsed) as [u|] eqn:Hpu; cbn [state_of].
    + unfold stats_in_sync, profile.
      cbn [user habits data_file set_habits set_user]. rewrite Hd.
      split; [|cbn [file_in_sync]; rewrite Hpu; exact Hf].
      rewrite restore_all_recomputed. exact Hf.
    + rewrite Hu. cbn [state_of]. unfold stats_in_sync, profile.
      cbn [user habits data_file set_habits set_user set_UserProfile
           UserProfile]. rewrite Hd.
      split; [apply updateStats_recomputed|].
      cbn [file_in_sync]. rewrite Hpu. exact I.
Qed.

Lemma after_mutation_sync_invariant {A : Type} (a : ambient) (x y : A)
      (s0 s' : state) :
  file_in_sync (data_file s0) ->
  (user_updateStats ;;; fun s => Return x (saveToFile a s)) s0 = Return y s' ->
  stats_in_sync s' /\ file_in_sync (data_file s').
Proof.
  intros Hf H.
  destruct (after_mutation a x s0) as [_ [_ [Hret [_ Hfile]]]].
  rewrite H in Hret, Hfile. cbn [state_of returned] in *.
  destruct (Hret y eq_refl) as [_ Hs]. split; [exact Hs|].
  destruct Hfile as [-> | ->]; [exact Hf | apply snapshot_in_sync, Hs].
Qed.

Lemma api_run_invariant (s : state) :
  api_run E s -> stats_in_sync s /\ file_in_sync (data_file s).
Proof.
  induction 1 as [a fresh garbage | s a fresh _ [IHs IHf]
                  | s a nm f h s' _ [IHs IHf] Hop
                  | s a i r s' _ [IHs IHf] Hop
                  | s a i b s' _ [IHs IHf] Hop
                  | s a s' _ [IHs IHf] Hop
                  | s a _ IH].
  - apply loadFromFile_sync_invariant; try reflexivity.
    destruct garbage; exact I.
  - apply loadFromFile_sync_invariant; try reflexivity. exact IHf.
  - unfold addHabit in Hop.
    eapply after_mutation_sync_invariant; [|exact Hop]; exact IHf.
  - destruct (index_rejected (ToNumber E i) s) eqn:Hr.
    { unfold completeHabit in Hop. cbv zeta in Hop. rewrite Hr in Hop.
      injection Hop as _ <-. split; assumption. }
    destruct (array_index (ToNumber E i)) as [k|] eqn:Hidx.
    2:{ unfold completeHabit in Hop. cbv zeta in Hop.
        rewrite Hr, Hidx in Hop. discriminate. }
    destruct (nth_error (habits s) k) as [hk|] eqn:Hk.
    2:{ unfold completeHabit in Hop. cbv zeta in Hop.
        rewrite Hr, Hidx in Hop. unfold bind at 1 in Hop.
        unfold markComplete_at in Hop. rewrite Hk in Hop. discriminate. }
    destruct (markComplete_now hk (clock a)) as [hk' [added Hm]].
    rewrite (completeHabit_accepted E a i s k hk hk' added Hr Hidx Hk Hm)
      in Hop.
    destruct added.
    + eapply after_mutation_sync_invariant; [|exact Hop]; exact IHf.
    + injection Hop as _ <-.
      apply markComplete_false in Hm. subst hk'.
      rewrite (list_set_same _ _ _ Hk).
      unfold stats_in_sync, profile in *. split; assumption.
  - unfold deleteHabit in Hop.
    destruct (index_rejected (ToNumber E i) s).
    + injection Hop as _ <-. split; assumption.
    + eapply after_mutation_sync_invariant; [|exact Hop]; exact IHf.
  - unfold clearAllData in Hop.
    eapply after_mutation_sync_invariant; [|exact Hop]; exact IHf.
  - apply saveToFile_sync_invariant, IH.
Qed.

(** X16.  A tracker that is driven through its own operations only (the
    launches, [addHabit], [completeHabit], [deleteHabit], [clearAllData],
    [saveToFile], each started after the one before returned) has, in every
    state it reaches, stats equal to the recomputation over its habits, and
    the same holds for the stats and habits in its file. *)
Theorem api_run_stats_in_sync (s : state) :
  api_run E s ->
  stats (profile s) = recomputed (habits s)
  /\ file_in_sync (data_file s).
Proof. intros H. apply (api_run_invariant s H). Qed.
End ApiFacts.

(** ** The progress bar *)

Example asciiProgressBar_samples :
  asciiProgressBar (fun _ => "?") (Fin (100 # 3)) (Fin 20)
  = inr "[#######-------------] 33%"
  /\ asciiProgressBar (fun _ => "?") (Fin 100) (Fin 20)
     = inr "[####################] 100%"
  /\ asciiProgressBar (fun _ => "?") (Fin (5 # 2)) (Fin 20)
     = inr "[#-------------------] 3%"
  /\ asciiProgressBar (fun _ => "?") NaN (Fin 20) = inr "[] NaN%".
Proof. repeat split; vm_compute; reflexivity. Qed.

Lemma Qfloor_unique (z : Z) (x : Q) :
  (inject_Z z <= x)%Q -> (x < inject_Z (z + 1))%Q -> Qfloor x = z.
Proof.
  intros Hl Hu.
  pose proof (Qfloor_le x) as H1. pose proof (Qlt_floor x) as H2.
  assert (Ha : Qfloor x < z + 1)
    by (rewrite Zlt_Qlt; apply Qle_lt_trans with (y := x); assumption).
  assert (Hb : z < Qfloor x + 1)
    by (rewrite Zlt_Qlt; apply Qle_lt_trans with (y := x); assumption).
  lia.
Qed.

Lemma clamp_number (p : number) :
  p <> NaN ->
  exists c : Q,
    Math_max (Fin 0) (Math_min (Fin 100) p) = Fin c /\
    (0 <= c <= 100)%Q /\
    (num_le (Fin 100) p -> c == 100) /\
    (num_le p (Fin 0) -> c == 0).
Proof.
  intros Hp. unfold num_le.
  destruct p as [| |q|]; [contradiction | | |]; cbn [Math_min Math_max num_leb].
  - exists 0%Q. change (Qle_bool 0 100) with true. cbv iota.
    split; [reflexivity|]. split; [lra|].
    split; [discriminate | reflexivity].
  - destruct (Qle_bool 100 q) eqn:H1; cbn [Math_max num_leb].
    + exists 100%Q. change (Qle_bool 0 100) with true. cbv iota.
      apply Qle_bool_iff in H1.
      split; [reflexivity|]. split; [lra|].
      split; [reflexivity|]. rewrite Qle_bool_iff. intros; lra.
    + apply Qle_bool_false in H1.
      destruct (Qle_bool 0 q) eqn:H0.
      * apply Qle_bool_iff in H0. exists q.
        split; [reflexivity|]. split; [lra|].
        split; [discriminate|]. rewrite Qle_bool_iff. intros; lra.
      * apply Qle_bool_false in H0. exists 0%Q.
        split; [reflexivity|]. split; [lra|].
        split; [discriminate | reflexivity].
  - exists 100%Q. change (Qle_bool 0 100) with true. cbv iota.
    split; [reflexivity|]. split; [lra|].
    split; [reflexivity | discriminate].
Qed.

Lemma String_repeat_count (s : string) (n : Z) (q : Q) :
  0 <= n -> q == inject_Z n ->
  String_repeat s (Fin q) = inr (repeat_string s (Z.to_nat n)).
Proof.
  intros Hn Hq. unfold String_repeat, Qtrunc.
  assert (Hb : Qle_bool 0 q = true).
  { apply Qle_bool_iff. rewrite Hq. change 0%Q with (inject_Z 0).
    rewrite <- Zle_Qle. exact Hn. }
  assert (Hf : Qfloor q = n) by (rewrite Hq; apply Qfloor_Z).
  rewrite Hb, Hf. destruct (Z.ltb_spec n 0); [lia | reflexivity].
Qed.

Section BarFacts.
Variable other_text : Q -> string.

Lemma Number_toString_integer (n : Z) :
  Z.abs n < 10 ^ 21 -> Number_toString other_text (of_Z n) = decimal n.
Proof.
  intros Hn. unfold Number_toString, of_Z. rewrite Qred_inject_Z.
  cbn [inject_Z Qnum Qden]. rewrite Z.eqb_refl.
  destruct (Z.ltb_spec (Z.abs n) (10 ^ 21)); [reflexivity | lia].
Qed.

Lemma asciiProgressBar_number (percent : number) (len : nat) :
  percent <> NaN ->
  exists (filled : nat) (shown : Z),
    (filled <= len)%nat /\ 0 <= shown <= 100 /\
    asciiProgressBar other_text percent (of_nat len)
    = inr ("[" ++ repeat_string "#" filled
           ++ repeat_string "-" (len - filled)
           ++ "] " ++ decimal shown ++ "%") /\
    (num_le (Fin 100) percent -> filled = len /\ shown = 100) /\
    (num_le percent (Fin 0) -> filled = 0%nat /\ shown = 0).
Proof.
  intros Hp. destruct (clamp_number percent Hp) as (c & Hc & Hr & Hfull & Hnone).
  unfold asciiProgressBar. rewrite Hc. clear Hc.
  cbn [num_div]. change (Qeq_bool 100 0) with false. cbv iota.
  unfold of_nat, of_Z. cbn [num_mul Math_round num_sub]. unfold of_Z.
  set (L := Z.of_nat len).
  assert (HL : 0 <= L) by (unfold L; lia).
  assert (HLq : (0 <= inject_Z L)%Q)
    by (change 0%Q with (inject_Z 0); rewrite <- Zle_Qle; exact HL).
  set (x := (c / 100 * inject_Z L + (1 # 2))%Q).
  assert (Hx0 : (inject_Z 0 <= x)%Q).
  { unfold x. change (inject_Z 0) with 0%Q.
    assert ((0 <= c / 100 * inject_Z L)%Q); [|lra].
    apply Qmult_le_0_compat; [|exact HLq].
    unfold Qdiv. apply Qmult_le_0_compat; [lra | discriminate]. }
  assert (HxL : (x < inject_Z (L + 1))%Q).
  { unfold x. rewrite inject_Z_plus.
    assert ((c / 100 * inject_Z L <= 1 * inject_Z L)%Q).
    { apply Qmult_le_compat_r; [|exact HLq].
      apply Qle_shift_div_r; lra. }
    change (inject_Z 1) with 1%Q. lra. }
  assert (Hf0 : 0 <= Qfloor x)
    by (rewrite <- (Qfloor_Z 0); apply Qfloor_resp_le, Hx0).
  assert (HfL : Qfloor x <= L).
  { assert (Qfloor x < L + 1); [|lia].
    rewrite Zlt_Qlt. apply Qle_lt_trans with (y := x); [apply Qfloor_le | exact HxL]. }
  set (y := (c + (1 # 2))%Q).
  assert (Hy0 : 0 <= Qfloor y).
  { rewrite <- (Qfloor_Z 0). apply Qfloor_resp_le. unfold y.
    change (inject_Z 0) with 0%Q. lra. }
  assert (Hy100 : Qfloor y <= 100).
  { assert (Qfloor y < 101); [|lia].
    rewrite Zlt_Qlt. apply Qle_lt_trans with (y := y); [apply Qfloor_le|].
    unfold y. change (inject_Z 101) with 101%Q. lra. }
  rewrite (String_repeat_count "#" (Qfloor x) (inject_Z (Qfloor x)) Hf0)
    by reflexivity.
  rewrite (String_repeat_count "-" (L - Qfloor x)
             (inject_Z L - inject_Z (Qfloor x))%Q)
    by (try lia; unfold Zminus; rewrite inject_Z_plus, inject_Z_opp; reflexivity).
  change (Fin (inject_Z (Qfloor y))) with (of_Z (Qfloor y)).
  rewrite Number_toString_integer
    by (change (10 ^ 21) with 1000000000000000000000; lia).
  exists (Z.to_nat (Qfloor x)), (Qfloor y).
  split; [unfold L in HfL; lia|]. split; [lia|].
  split.
  { replace (Z.to_nat (L - Qfloor x)) with (len - Z.to_nat (Qfloor x))%nat
      by (unfold L; lia).
    reflexivity. }
  split.
  - intros H. specialize (Hfull H).
    assert (Hm : (c / 100 * inject_Z L == inject_Z L)%Q)
      by (rewrite Hfull; field).
    assert (Hfx : Qfloor x = L).
    { apply Qfloor_unique; unfold x; rewrite ?inject_Z_plus, Hm;
        change (inject_Z 1) with 1%Q; lra. }
    assert (Hfy : Qfloor y = 100).
    { apply Qfloor_unique; unfold y; rewrite Hfull.
      - change (inject_Z 100) with 100%Q. lra.
      - change (inject_Z (100 + 1)) with 101%Q. lra. }
    split; [unfold L in Hfx; lia | exact Hfy].
  - intros H. specialize (Hnone H).
    assert (Hm : (c / 100 * inject_Z L == 0)%Q)
      by (rewrite Hnone; unfold Qdiv; ring).
    assert (Hfx : Qfloor x = 0).
    { apply Qfloor_unique; unfold x; rewrite Hm;
        change (inject_Z 0) with 0%Q; change (inject_Z (0 + 1)) with 1%Q;
        lra. }
    assert (Hfy : Qfloor y = 0).
    { apply Qfloor_unique; unfold y; rewrite Hnone.
      - change (inject_Z 0) with 0%Q. lra.
      - change (inject_Z (0 + 1)) with 1%Q. lra. }
    split; [lia | exact Hfy].
Qed.

End BarFacts.

(** ** The profile's age *)

(** X18.  [getDaysJoined] counts whole 24-hour periods since [createdAt],
    plus one: when [createdAt] parses to an instant it is 1 during the first
    24 hours, at least 1 from then on, and one more after every further 24
    hours. *)
Theorem getDaysJoined_periods (E : engine) (p : Profile) (created now : Z) :
  Date_parse E (profile_createdAt p) = Some created ->
  created <= now ->
  exists days : Z,
    getDaysJoined E p now = of_Z days /\
    1 <= days /\
    created + (days - 1) * msPerDay <= now < created + days * msPerDay /\
    getDaysJoined E p (now + msPerDay) = of_Z (days + 1).
Proof.
  intros Hp Hle. unfold getDaysJoined. rewrite Hp.
  exists ((now - created) / msPerDay + 1).
  pose proof (Z.div_mod (now - created) msPerDay ltac:(discriminate)) as Hdm.
  pose proof (Z.mod_pos_bound (now - created) msPerDay eq_refl) as Hb.
  assert (H0 : 0 <= (now - created) / msPerDay)
    by (apply Z.div_pos; [lia | reflexivity]).
  split; [reflexivity|]. split; [lia|].
  split.
  - revert Hdm Hb H0. generalize ((now - created) / msPerDay).
    generalize ((now - created) mod msPerDay). unfold msPerDay. intros; lia.
  - replace (now + msPerDay - created)
      with (now - created + 1 * msPerDay) by lia.
    rewrite Z.div_add by discriminate. reflexivity.
Qed.

(** ** The most active habit *)

Lemma nth_error_snoc {A : Type} (l : list A) (x y : A) (k : nat) :
  nth_error (l ++ [x]) k = Some y ->
  (k < List.length l)%nat /\ nth_error l k = Some y
  \/ k = List.length l /\ y = x.
Proof.
  intros H. destruct (Nat.lt_ge_cases k (List.length l)) as [Hk | Hk].
  - left. rewrite nth_error_app1 in H by exact Hk. split; assumption.
  - right. rewrite nth_error_app2 in H by exact Hk.
    destruct (k - List.length l)%nat as [|m] eqn:Hm;
      [|destruct m; discriminate].
    injection H as <-. split; [lia | reflexivity].
Qed.

Lemma first_highest_step (count : nat -> Habit -> nat) (l : list Habit)
      (acc : option (Habit * nat)) (h : Habit) :
  first_highest count l acc ->
  first_highest count (l ++ [h])
    match acc with
    | None => Some (h, count (List.length l) h)
    | Some (_, c0) =>
        if (c0 <? count (List.length l) h)%nat
        then Some (h, count (List.length l) h) else acc
    end.
Proof.
  unfold first_highest. destruct acc as [[h0 c0]|].
  - intros (j & Hj & Hc & Hmax & Hfirst).
    assert (Hjlt : (j < List.length l)%nat)
      by (apply nth_error_Some; rewrite Hj; discriminate).
    destruct (Nat.ltb_spec c0 (count (List.length l) h)) as [Hlt | Hge].
    + exists (List.length l).
      split; [rewrite nth_error_app2, Nat.sub_diag by lia; reflexivity|].
      split; [reflexivity|]. split.
      * intros k hk Hk.
        destruct (nth_error_snoc _ _ _ _ Hk) as [[_ Hk'] | [-> ->]];
          [specialize (Hmax k hk Hk'); lia | lia].
      * intros k hk Hklt Hk.
        destruct (nth_error_snoc _ _ _ _ Hk) as [[_ Hk'] | [-> _]];
          [specialize (Hmax k hk Hk'); lia | lia].
    + exists j.
      split; [rewrite nth_error_app1 by lia; exact Hj|].
      split; [exact Hc|]. split.
      * intros k hk Hk.
        destruct (nth_error_snoc _ _ _ _ Hk) as [[_ Hk'] | [-> ->]];
          [apply (Hmax k hk Hk') | lia].
      * intros k hk Hklt Hk.
        destruct (nth_error_snoc _ _ _ _ Hk) as [[_ Hk'] | [-> _]];
          [apply (Hfirst k hk Hklt Hk') | lia].
  - intros ->. exists 0%nat. cbn [List.length app nth_error].
    split; [reflexivity|]. split; [reflexivity|]. split.
    + intros [|k] hk Hk; [|destruct k; discriminate].
      injection Hk as <-. lia.
    + intros k hk Hk. lia.
Qed.

Section StatisticsFacts.
Variable E : engine.

Lemma most_reduce_first_highest (clock : nat -> Z) (base : nat)
      (hs pre : list Habit) (acc : option (Habit * nat)) :
  let count k h :=
    List.length
      (getThisWeekCompletions E h (Some (clock (base + k)%nat))) in
  first_highest count pre acc ->
  first_highest count (pre ++ hs)
    (most_reduce E clock (base + List.length pre) acc hs).
Proof.
  cbv zeta. revert pre acc. induction hs as [|h hs IH]; intros pre acc Hacc.
  - cbn [most_reduce]. rewrite app_nil_r. exact Hacc.
  - cbn [most_reduce].
    replace (pre ++ h :: hs)%list with ((pre ++ [h]) ++ hs)%list
      by (rewrite <- app_assoc; reflexivity).
    replace (S (base + List.length pre))
      with (base + List.length (pre ++ [h]))%nat
      by (rewrite length_app; cbn [List.length]; lia).
    apply IH. apply (first_highest_step _ pre acc h Hacc).
Qed.

(** X19.  The habit [displayStats] names as the most active is the first
    one, in tracker order, whose count of this-week completions is the
    highest, each count taken at the instant the habit is visited; a habit
    is named whenever the tracker has one, also when no habit has a
    completion this week, and none only for a tracker without habits. *)
Theorem mostCompletions_first_highest (clock : nat -> Z) (i : nat)
        (hs : list Habit) :
  let count k h :=
    List.length (getThisWeekCompletions E h (Some (clock (i + k)%nat))) in
  match most_reduce E clock i None hs with
  | None => hs = []
  | Some (h, c) =>
      exists j : nat,
        nth_error hs j = Some h /\ c = count j h /\
        (forall k hk, nth_error hs k = Some hk -> (count k hk <= c)%nat) /\
        (forall k hk, (k < j)%nat -> nth_error hs k = Some hk ->
                      (count k hk < c)%nat)
  end.
Proof.
  cbv zeta.
  pose proof (most_reduce_first_highest clock i hs [] None eq_refl) as H.
  cbv zeta in H. cbn [List.length app] in H. rewrite Nat.add_0_r in H.
  exact H.
Qed.
End StatisticsFacts.

(** ** What the menu lets in *)

Lemma not_below_zero (n : number) :
  isNaN n = false -> num_ltb n (Fin 0) = false -> num_le (Fin 0) n.
Proof.
  unfold num_le. destruct n as [| |q|]; cbn [isNaN num_ltb num_leb];
    try discriminate; try reflexivity.
  unfold Qlt_bool. intros _ H. apply negb_false_iff in H. exact H.
Qed.

Lemma bind_state {A B : Type} (P : state -> Prop) (m : M A) (k : A -> M B)
      (s : state) :
  P (state_of (m s)) ->
  (forall x s1, P s1 -> P (state_of (k x s1))) ->
  P (state_of (bind m k s)).
Proof.
  intros Hm Hk. unfold bind. destruct (m s) as [x s1 | e s1]; cbn [state_of] in *.
  - apply Hk, Hm.
  - exact Hm.
Qed.

Lemma stored_admissible_stored (hs : list Habit) :
  Forall admissible hs -> Forall stored_admissible (map stored hs).
Proof.
  intros H. induction H as [|h hs [Hn Ht] _ IH]; cbn [map]; constructor;
    [|exact IH].
  unfold stored_admissible, stored. cbn [stored_name stored_targetFrequency].
  split; [exact Hn|]. apply num_le_cases in Ht.
  destruct (targetFrequency h) as [| |q|]; cbn [json_number];
    try contradiction; [right; exists q; split; [reflexivity | exact Ht] | left; reflexivity].
Qed.

Lemma saveToFile_admissible (a : ambient) (s : state) :
  session_invariant s -> session_invariant (saveToFile a s).
Proof.
  unfold session_invariant, saveToFile. intros [Hh Hf].
  destruct (write_ok a); [|split; assumption].
  cbn [habits data_file set_data_file file_admissible snapshot payload_habits].
  split; [exact Hh | apply stored_admissible_stored, Hh].
Qed.

Lemma after_mutation_admissible {A : Type} (a : ambient) (x : A) (s0 : state) :
  session_invariant s0 ->
  session_invariant
    (state_of ((user_updateStats ;;; fun s => Return x (saveToFile a s)) s0)).
Proof.
  intros [Hh Hf].
  destruct (after_mutation a x s0) as [Hh' [_ [_ [_ Hfile]]]].
  unfold session_invariant. rewrite Hh'. split; [exact Hh|].
  destruct Hfile as [-> | ->]; [exact Hf|].
  cbn [file_admissible snapshot payload_habits]. rewrite Hh'.
  apply stored_admissible_stored, Hh.
Qed.

Lemma markComplete_at_admissible (i : option nat) (d : time) (s : state) :
  session_invariant s -> session_invariant (state_of (markComplete_at i d s)).
Proof.
  intros [Hh Hf]. unfold markComplete_at.
  destruct i as [i|]; [|split; assumption].
  destruct (nth_error (habits s) i) as [h|] eqn:Hi; [|split; assumption].
  destruct (markComplete h d) as [e | [h' b]] eqn:Hm; [split; assumption|].
  cbn [state_of]. split; [|exact Hf].
  cbn [habits set_habits]. apply Forall_list_set; [exact Hh|].
  destruct (markComplete_only_appends_fields h h' d b Hm)
    as (_ & Hn & Ht & _).
  assert (Ha : admissible h)
    by (rewrite Forall_forall in Hh; apply Hh; eapply nth_error_In, Hi).
  unfold admissible in *. rewrite Hn, Ht. exact Ha.
Qed.

Section SessionFacts.
Variable E : engine.
Variable String_trim : string -> string.
Variable other_text : Q -> string.

Lemma addHabit_admissible (a : ambient) (nm : string) (f : value)
      (s : state) :
  admissible (Habit_new E a nm f) ->
  session_invariant s -> session_invariant (state_of (addHabit E a nm f s)).
Proof.
  intros Ha [Hh Hf]. unfold addHabit. apply after_mutation_admissible.
  split; [|exact Hf]. cbn [habits set_habits].
  apply Forall_app. split; [exact Hh|]. constructor; [exact Ha | constructor].
Qed.

Lemma completeHabit_admissible (a : ambient) (v : value) (s : state) :
  session_invariant s ->
  session_invariant (state_of (completeHabit E a v s)).
Proof.
  intros Hs. unfold completeHabit. cbv zeta.
  destruct (index_rejected (ToNumber E v) s); [exact Hs|].
  apply bind_state.
  - apply markComplete_at_admissible, Hs.
  - intros [h' added] s1 Hs1. destruct added.
    + apply after_mutation_admissible, Hs1.
    + exact Hs1.
Qed.

Lemma deleteHabit_admissible (a : ambient) (v : value) (s : state) :
  session_invariant s ->
  session_invariant (state_of (deleteHabit E a v s)).
Proof.
  intros [Hh Hf]. unfold deleteHabit.
  destruct (index_rejected (ToNumber E v) s); [split; assumption|].
  apply after_mutation_admissible.
  split; [|exact Hf]. cbn [habits set_habits]. apply Forall_splice1, Hh.
Qed.

Lemma restore_all_admissible (fresh : nat -> ambient) (i : nat)
      (l : list StoredHabit) :
  Forall stored_admissible l -> Forall admissible (restore_all E fresh i l).
Proof.
  intros H. revert i; induction H as [|h l [Hn Ht] _ IH]; intros i;
    cbn [restore_all]; constructor; [|apply IH].
  unfold admissible, restore, Habit_new. cbn [name targetFrequency].
  split; [exact Hn|]. unfold num_le.
  destruct Ht as [-> | (q & -> & Hq)]; cbn [nullish ToNumber num_leb].
  - reflexivity.
  - apply Qle_bool_iff, Hq.
Qed.

Lemma HabitTracker_new_admissible (a : ambient) (fresh : nat -> ambient)
      (disk : file) :
  file_admissible disk ->
  session_invariant (HabitTracker_new E a fresh disk).
Proof.
  intros Hf. unfold HabitTracker_new, loadFromFile. cbn [data_file].
  destruct disk as [| |parsed].
  - apply saveToFile_admissible. split; [constructor | exact I].
  - split; [constructor | exact I].
  - cbn [file_admissible] in Hf.
    assert (Hhs : Forall admissible
                    (restore_all E fresh 0
                       match payload_habits parsed with
                       | Some l => l
                       | None => []
                       end)).
    { apply restore_all_admissible.
      destruct (payload_habits parsed); [exact Hf | constructor]. }
    unfold user_updateStats. cbn [user set_habits set_user].
    destruct (payload_user parsed); cbn [state_of];
      (split; [exact Hhs | exact Hf]).
Qed.

Lemma main_seed_admissible (amb fresh : nat -> ambient) (disk : file) :
  file_admissible disk ->
  session_invariant (state_of (main_seed E amb fresh disk)).
Proof.
  intros Hf. unfold main_seed.
  pose proof (HabitTracker_new_admissible (amb 0%nat) fresh disk Hf) as H0.
  destruct (List.length (habits (HabitTracker_new E (amb 0%nat) fresh disk))
            =? 0)%nat; [|exact H0].
  apply bind_state.
  { apply addHabit_admissible; [|exact H0].
    split; [discriminate | reflexivity]. }
  intros _ s1 H1. apply bind_state.
  { apply addHabit_admissible; [|exact H1].
    split; [discriminate | reflexivity]. }
  intros _ s2 H2. apply bind_state.
  { apply markComplete_at_admissible, H2. }
  intros _ s3 H3. apply bind_state.
  { apply markComplete_at_admissible, H3. }
  intros _ s4 H4. cbn [state_of]. apply saveToFile_admissible, H4.
Qed.

Lemma menu_add_admissible (a : ambient) (nm freq : string) (s : state) :
  session_invariant s ->
  session_invariant
    (state_of (menu_add E String_trim other_text a nm freq s)).
Proof.
  intros Hs. unfold menu_add. cbv zeta.
  destruct (String.eqb (String_trim nm) EmptyString) eqn:Hn;
    [exact Hs|].
  destruct (isNaN (ToNumber E (VStr freq))) eqn:Hnan; [exact Hs|].
  destruct (num_ltb (ToNumber E (VStr freq)) (Fin 0)) eqn:Hneg; [exact Hs|].
  cbn [orb]. apply bind_state.
  - apply addHabit_admissible; [|exact Hs].
    split; [apply String.eqb_neq, Hn | apply not_below_zero; assumption].
  - intros h s1 H1. exact H1.
Qed.

Lemma session_admissible (s : state) :
  session E String_trim other_text s -> session_invariant s.
Proof.
  induction 1.
  - apply main_seed_admissible. destruct garbage; exact I.
  - apply main_seed_admissible, IHsession.
  - apply menu_add_admissible, IHsession.
  - apply completeHabit_admissible, IHsession.
  - apply deleteHabit_admissible, IHsession.
  - apply saveToFile_admissible, IHsession.
Qed.

(** X20.  Entry 4 of the menu changes nothing and reports invalid input
    when the trimmed name is empty or the target text is not a number or is
    negative.  Any other input reaches [addHabit] with the trimmed name and
    the number read, so the habit that is appended has a name that is not
    empty and a target that is a number, 0 or more. *)
Theorem menu_add_checks (a : ambient) (nm freq : string) (s : state) :
  let parsed := ToNumber E (VStr freq) in
  let o := menu_add E String_trim other_text a nm freq s in
  (String_trim nm = EmptyString \/ parsed = NaN
   \/ num_ltb parsed (Fin 0) = true ->
   o = Return
         "Input tidak valid. Pastikan nama tidak kosong dan target angka >= 0."
         s) /\
  (String_trim nm <> EmptyString -> parsed <> NaN ->
   num_ltb parsed (Fin 0) = false ->
   exists h : Habit,
     h = Habit_new E a (String_trim nm) (VNum parsed) /\
     name h = String_trim nm /\ targetFrequency h = parsed /\
     admissible h /\
     habits (state_of o) = (habits s ++ [h])%list /\
     (user s = TheUserProfile ->
      returned o
      = Some ("Kebiasaan ditambahkan: " ++ name h ++ " (target "
              ++ Number_toString other_text parsed ++ "/minggu)"))).
Proof.
  cbv zeta. unfold menu_add. cbv zeta. split.
  - intros H.
    assert (Hr : String.eqb (String_trim nm) EmptyString
                 || isNaN (ToNumber E (VStr freq))
                 || num_ltb (ToNumber E (VStr freq)) (Fin 0) = true).
    { destruct H as [-> | [-> | ->]];
        [reflexivity | rewrite orb_true_r; reflexivity | apply orb_true_r]. }
    rewrite Hr. reflexivity.
  - intros Hn Hnan Hneg.
    apply String.eqb_neq in Hn. rewrite Hn, Hneg.
    assert (Hnan' : isNaN (ToNumber E (VStr freq)) = false)
      by (destruct (ToNumber E (VStr freq)); try reflexivity; contradiction).
    rewrite Hnan'. cbn [orb].
    exists (Habit_new E a (String_trim nm) (VNum (ToNumber E (VStr freq)))).
    split; [reflexivity|]. split; [reflexivity|]. split; [reflexivity|].
    split.
    { split; [apply String.eqb_neq, Hn | apply not_below_zero; assumption]. }
    pose proof (after_mutation a
                (Habit_new E a (String_trim nm)
                           (VNum (ToNumber E (VStr freq))))
                (set_habits s
                   (habits s
                    ++ [Habit_new E a (String_trim nm)
                                  (VNum (ToNumber E (VStr freq)))])))
      as [Hh [_ [_ [Hsing _]]]].
    change ((user_updateStats ;;; _) _)
      with (addHabit E a (String_trim nm) (VNum (ToNumber E (VStr freq))) s)
      in Hh, Hsing.
    unfold bind.
    destruct (addHabit E a (String_trim nm) (VNum (ToNumber E (VStr freq))) s)
      as [h1 s1 | e s1]; cbn [state_of returned ret] in *.
    + split; [exact Hh|]. intros Hu. specialize (Hsing Hu).
      injection Hsing as ->. reflexivity.
    + split; [exact Hh|]. intros Hu. specialize (Hsing Hu). discriminate.
Qed.

(** X21.  In every state the program reaches when it is driven through its
    menu (launches that run [main] with its seeding, entries 4, 5, 6 and 9
    with whatever is typed, launches on the file left behind), every habit
    has a name that is not empty and a target that is a number, 0 or more:
    no habit has the target NaN. *)
Theorem session_habits_admissible (s : state) (h : Habit) :
  session E String_trim other_text s -> In h (habits s) ->
  name h <> EmptyString /\
  num_le (Fin 0) (targetFrequency h) /\ targetFrequency h <> NaN.
Proof.
  intros Hs Hin. destruct (session_admissible s Hs) as [Hh _].
  rewrite Forall_forall in Hh. destruct (Hh h Hin) as [Hn Ht].
  split; [exact Hn|]. split; [exact Ht|].
  intros Hnan. rewrite Hnan in Ht. discriminate.
Qed.
End SessionFacts.


(** ** The list of habits and the index the menu asks for *)

Section ListingFacts.
Variable E : engine.
Variable other_text : Q -> string.

Lemma asciiProgressBar_default (percent : number) :
  exists bar : string,
    asciiProgressBar other_text percent (Fin 20) = inr bar.
Proof.
  destruct percent as [| |q|] eqn:Hp.
  - exists "[] NaN%". reflexivity.
  - destruct (asciiProgressBar_number other_text NegInf 20 ltac:(discriminate))
      as (filled & shown & _ & _ & H & _).
    eexists. exact H.
  - destruct (asciiProgressBar_number other_text (Fin q) 20
                                      ltac:(discriminate))
      as (filled & shown & _ & _ & H & _).
    eexists. exact H.
  - destruct (asciiProgressBar_number other_text PosInf 20 ltac:(discriminate))
      as (filled & shown & _ & _ & H & _).
    eexists. exact H.
Qed.

Lemma habit_lines_spec (clock : nat -> Z) (l : list Habit) (c i : nat) :
  snd (habit_lines E other_text clock c i l) = None /\
  List.length (fst (habit_lines E other_text clock c i l))
  = (2 * List.length l)%nat /\
  forall (k : nat) (h : Habit),
    nth_error l k = Some h ->
    nth_error (fst (habit_lines E other_text clock c i l)) (2 * k)
    = Some (Number_toString other_text (of_nat (i + k)) ++ ". " ++ name h
            ++ " ("
            ++ getStatus E other_text h (Some (clock (c + 2 * k + 1)%nat))
            ++ ")") /\
    exists bar : string,
      asciiProgressBar other_text
        (getProgressPercentage E h (Some (clock (c + 2 * k)%nat))) (Fin 20)
      = inr bar /\
      nth_error (fst (habit_lines E other_text clock c i l)) (S (2 * k))
      = Some ("   " ++ bar).
Proof.
  revert c i. induction l as [|h0 t IH]; intros c i.
  - cbn [habit_lines fst snd List.length]. split; [reflexivity|].
    split; [reflexivity|]. intros [|k] h Hk; discriminate Hk.
  - cbn [habit_lines]. cbv zeta.
    destruct (asciiProgressBar_default
                (getProgressPercentage E h0 (Some (clock c)))) as (bar & Hbar).
    rewrite Hbar. cbn [fst snd List.length].
    destruct (IH (S (S c)) (S i)) as (Hnone & Hlen & Hnth).
    split; [exact Hnone|]. split; [rewrite Hlen; lia|].
    intros [|k] h Hk.
    + cbn [nth_error] in Hk. injection Hk as <-.
      replace (c + 2 * 0 + 1)%nat with (S c) by lia.
      replace (c + 2 * 0)%nat with c by lia.
      replace (i + 0)%nat with i by lia.
      cbn [Nat.mul nth_error]. split; [reflexivity|].
      exists bar. split; [exact Hbar | reflexivity].
    + cbn [nth_error] in Hk. destruct (Hnth k h Hk) as (H1 & b & Hb & H2).
      replace (2 * S k)%nat with (S (S (2 * k))) by lia.
      cbn [nth_error].
      replace (c + S (S (2 * k)) + 1)%nat with (S (S c) + 2 * k + 1)%nat
        by lia.
      replace (c + S (S (2 * k)))%nat with (S (S c) + 2 * k)%nat by lia.
      replace (i + S k)%nat with (S i + k)%nat by lia.
      split; [exact H1|]. exists b. split; [exact Hb | exact H2].
Qed.

(** X22.  The number [displayHabits('all')] prints before a habit is the
    index [completeHabit] and [deleteHabit] take for it.  The list never
    throws and prints two lines for each habit, the first one starting with
    the position of the habit in the tracker and its name.  When the engine
    reads the decimal text of that position back as that number,
    [completeHabit] given the text marks this habit and no other, and
    [deleteHabit] given the text removes this habit and no other. *)
Theorem displayed_index_is_accepted (ticks : nat -> Z) (a : ambient)
        (s : state) (i : nat) (h : Habit) :
  Z.of_nat (List.length (habits s)) < 2 ^ 32 ->
  nth_error (habits s) i = Some h ->
  num_eq (StringToNumber E (decimal (Z.of_nat i))) (of_nat i) ->
  let shown := displayHabits E other_text ticks "all" s in
  let typed := VStr (decimal (Z.of_nat i)) in
  snd shown = None /\
  List.length (fst shown) = (2 * List.length (habits s) + 2)%nat /\
  nth_error (fst shown) (1 + 2 * i)
  = Some (decimal (Z.of_nat i) ++ ". " ++ name h ++ " ("
          ++ getStatus E other_text h (Some (ticks (2 * i + 1)%nat)) ++ ")") /\
  (exists (h' : Habit) (added : bool),
      markComplete h (Some (clock a)) = inr (h', added) /\
      id h' = id h /\ name h' = name h /\
      nth_error (habits (state_of (completeHabit E a typed s))) i = Some h' /\
      (forall j, j <> i ->
                 nth_error (habits (state_of (completeHabit E a typed s))) j
                 = nth_error (habits s) j) /\
      (user s = TheUserProfile ->
       returned (completeHabit E a typed s) = Some (Completed h' added))) /\
  habits (state_of (deleteHabit E a typed s))
  = (firstn i (habits s) ++ skipn (S i) (habits s))%list.
Proof.
  intros Hbound Hnth Hread. cbv zeta.
  assert (Hlt : (i < List.length (habits s))%nat)
    by (apply nth_error_Some; rewrite Hnth; discriminate).
  destruct (habit_lines_spec ticks (habits s) 0 0) as (Hnone & Hlen & Hline).
  assert (Hshown : displayHabits E other_text ticks "all" s
                   = ("---- Daftar Kebiasaan ----"
                        :: fst (habit_lines E other_text ticks 0 0 (habits s))
                        ++ ["---------------------------" ++ newline],
                      None)).
  { unfold displayHabits. cbv zeta.
    change (String.eqb "all" "active") with false.
    change (String.eqb "all" "completed") with false.
    cbn [orb]. cbv iota.
    destruct (List.length (habits s) =? 0)%nat eqn:Hz;
      [apply Nat.eqb_eq in Hz; lia|].
    rewrite Hnone. reflexivity. }
  rewrite Hshown. cbn [fst snd].
  split; [reflexivity|].
  split.
  { cbn [List.length]. rewrite length_app, Hlen. cbn [List.length]. lia. }
  split.
  { change (1 + 2 * i)%nat with (S (2 * i)). cbn [nth_error].
    destruct (Hline i h Hnth) as (H1 & _).
    rewrite nth_error_app1 by (rewrite Hlen; lia).
    rewrite H1. cbn [Nat.add].
    unfold of_nat. rewrite Number_toString_integer
      by (change (10 ^ 21) with 1000000000000000000000;
          change (2 ^ 32) with 4294967296 in Hbound; lia).
    replace (0 + 2 * i + 1)%nat with (2 * i + 1)%nat by lia.
    reflexivity. }
  assert (Hnum : num_eq (ToNumber E (VStr (decimal (Z.of_nat i)))) (of_nat i))
    by exact Hread.
  split.
  - destruct (index_in_range _ i s Hnum Hlt) as (q & Hq & Hqi & Hrej).
    assert (Hidx : array_index (ToNumber E (VStr (decimal (Z.of_nat i))))
                   = Some i)
      by (rewrite Hq; apply array_index_integer, Hqi).
    destruct (markComplete_now h (clock a)) as (h' & added & Hm).
    destruct (markComplete_only_appends_fields h h' _ added Hm)
      as (Hid & Hname & _).
    exists h', added. split; [exact Hm|]. split; [exact Hid|].
    split; [exact Hname|].
    rewrite (completeHabit_accepted E a _ s i h h' added Hrej Hidx Hnth Hm).
    assert (Hset_i : nth_error (list_set i h' (habits s)) i = Some h').
    { rewrite nth_error_list_set, Nat.eqb_refl.
      destruct (i <? List.length (habits s))%nat eqn:Hl;
        [reflexivity | apply Nat.ltb_ge in Hl; lia]. }
    assert (Hset_j : forall j, j <> i ->
                       nth_error (list_set i h' (habits s)) j
                       = nth_error (habits s) j).
    { intros j Hj. rewrite nth_error_list_set.
      destruct (j =? i)%nat eqn:Hji; [apply Nat.eqb_eq in Hji; lia|].
      reflexivity. }
    destruct added.
    + destruct (after_mutation a (Completed h' true)
                  (set_habits s (list_set i h' (habits s))))
        as (Hh & _ & _ & Hret & _).
      rewrite Hh. cbn [habits set_habits].
      split; [exact Hset_i|]. split; [exact Hset_j|].
      intros Hu. apply Hret. exact Hu.
    + cbn [state_of returned habits set_habits].
      split; [exact Hset_i|]. split; [exact Hset_j|]. reflexivity.
  - exact (proj1 (deleteHabit_state E a _ i s Hnum Hlt)).
Qed.
End ListingFacts.

(** ** The further properties on sample inputs *)

Lemma ordinary_friday : ordinary_date a_friday.
Proof. unfold ordinary_date, maxTime, a_friday, msPerDay, a_wednesday. lia. Defined.

Lemma friday_in_week :
  date_geb (Some a_friday) (startOfWeek sample_engine (Some a_wednesday))
  && date_leb (Some a_friday) (endOfWeek sample_engine (Some a_wednesday))
  = true.
Proof. vm_compute. reflexivity. Defined.

Lemma formatDate_same_UTC_day_sample :
  Day a_wednesday = Day (a_wednesday + 43200000) /\
  formatDate (Some a_wednesday) = formatDate (Some (a_wednesday + 43200000)).
Proof.
  assert (H : Day a_wednesday = Day (a_wednesday + 43200000))
    by (vm_compute; reflexivity).
  split; [exact H|].
  exact (formatDate_same_UTC_day a_wednesday (a_wednesday + 43200000) H).
Defined.

Lemma formatDate_tells_days_apart_sample :
  0 <= YearFromTime a_wednesday <= 9999 /\
  0 <= YearFromTime (a_wednesday + 43200000) <= 9999 /\
  formatDate (Some a_wednesday) = formatDate (Some (a_wednesday + 43200000)) /\
  Day a_wednesday = Day (a_wednesday + 43200000).
Proof.
  assert (H1 : 0 <= YearFromTime a_wednesday <= 9999)
    by (vm_compute; split; discriminate).
  assert (H2 : 0 <= YearFromTime (a_wednesday + 43200000) <= 9999)
    by (vm_compute; split; discriminate).
  assert (H3 : formatDate (Some a_wednesday)
               = formatDate (Some (a_wednesday + 43200000)))
    by (vm_compute; reflexivity).
  split; [exact H1|]. split; [exact H2|]. split; [exact H3|].
  exact (formatDate_tells_days_apart a_wednesday (a_wednesday + 43200000)
                                     H1 H2 H3).
Defined.

Lemma same_week_iff_sample :
  ordinary_date a_wednesday /\ ordinary_date a_friday /\
  startOfWeek sample_engine (Some a_friday)
  = startOfWeek sample_engine (Some a_wednesday) /\
  endOfWeek sample_engine (Some a_friday)
  = endOfWeek sample_engine (Some a_wednesday).
Proof.
  split; [exact ordinary_wednesday|]. split; [exact ordinary_friday|].
  exact (proj1 (same_week_iff sample_engine a_wednesday a_friday
                              ordinary_wednesday ordinary_friday)
               friday_in_week).
Defined.

Lemma same_week_same_report_sample :
  getThisWeekCompletions sample_engine week_habit (Some a_friday)
  = getThisWeekCompletions sample_engine week_habit (Some a_wednesday)
  /\ isCompletedThisWeek sample_engine week_habit (Some a_friday)
     = isCompletedThisWeek sample_engine week_habit (Some a_wednesday)
  /\ getProgressPercentage sample_engine week_habit (Some a_friday)
     = getProgressPercentage sample_engine week_habit (Some a_wednesday).
Proof.
  exact (same_week_same_report sample_engine week_habit a_wednesday a_friday
           ordinary_wednesday ordinary_friday friday_in_week).
Defined.

Lemma markComplete_only_appends_sample :
  markComplete sample_habit (Some a_wednesday) = inr (done_habit, true) /\
  completions sample_habit = [] /\
  exists day : string,
    formatDate (Some a_wednesday) = inr day /\
    completions done_habit = [day] /\
    name done_habit = name sample_habit /\
    targetFrequency done_habit = targetFrequency sample_habit.
Proof.
  assert (H : markComplete sample_habit (Some a_wednesday)
              = inr (done_habit, true)) by (vm_compute; reflexivity).
  split; [exact H|]. split; [reflexivity|].
  destruct (markComplete_only_appends sample_engine sample_habit done_habit
              (Some a_wednesday) (Some a_wednesday) true H)
    as ((day & Hd & Hc & _) & _ & Hn & Ht & _).
  exists day. split; [exact Hd|]. split; [exact Hc|].
  split; [exact Hn | exact Ht].
Defined.

Lemma progress_full_iff_completed_sample :
  targetFrequency week_habit = Fin 3 /\
  isCompletedThisWeek sample_engine week_habit (Some a_wednesday) = true /\
  num_eq (getProgressPercentage sample_engine week_habit (Some a_wednesday))
         (Fin 100).
Proof.
  assert (Ht : targetFrequency week_habit = Fin 3) by reflexivity.
  assert (Hc : isCompletedThisWeek sample_engine week_habit
                                   (Some a_wednesday) = true)
    by (vm_compute; reflexivity).
  split; [exact Ht|]. split; [exact Hc|].
  destruct (progress_full_iff_completed sample_engine week_habit
              (Some a_wednesday) 3%Q Ht eq_refl) as (_ & _ & Hiff).
  exact (proj1 Hiff Hc).
Defined.

Lemma completeHabit_frame_sample :
  nth_error (habits seeded_tracker) 1 = Some second_habit /\
  exists h' : Habit,
    nth_error
      (habits (state_of (completeHabit sample_engine
                           (sample_ambient (a_wednesday + msPerDay))
                           (VStr "0") seeded_tracker))) 1
    = Some h' /\
    name h' = name second_habit /\ completions h' = completions second_habit.
Proof.
  assert (H : nth_error (habits seeded_tracker) 1 = Some second_habit)
    by (vm_compute; reflexivity).
  split; [exact H|].
  destruct (completeHabit_frame sample_engine
              (sample_ambient (a_wednesday + msPerDay)) (VStr "0")
              seeded_tracker 1 second_habit H)
    as (_ & h' & Hn & _ & Hname & _ & _ & [Hsame | [Hidx _]]).
  - exists h'. split; [exact Hn|]. split; [exact Hname | exact Hsame].
  - vm_compute in Hidx. discriminate Hidx.
Defined.

Lemma deleteHabit_rejected_sample :
  num_le (of_nat (List.length (habits seeded_tracker)))
         (ToNumber sample_engine (VStr "7")) /\
  deleteHabit sample_engine (sample_ambient a_wednesday) (VStr "7")
              seeded_tracker
  = Return false seeded_tracker.
Proof.
  assert (H : num_le (of_nat (List.length (habits seeded_tracker)))
                     (ToNumber sample_engine (VStr "7")))
    by (vm_compute; reflexivity).
  split; [exact H|].
  exact (deleteHabit_rejected sample_engine (sample_ambient a_wednesday)
           (VStr "7") seeded_tracker (or_intror (or_intror H))).
Defined.

Lemma empty_tracker_rejects_sample :
  habits launched_tracker = [] /\
  completeHabit sample_engine (sample_ambient a_wednesday) (VStr "0")
                launched_tracker
  = Return (InvalidIndex "Index tidak valid") launched_tracker /\
  deleteHabit sample_engine (sample_ambient a_wednesday) (VStr "0")
              launched_tracker
  = Return false launched_tracker.
Proof.
  split; [reflexivity|].
  exact (empty_tracker_rejects sample_engine (sample_ambient a_wednesday)
           (VStr "0") launched_tracker eq_refl).
Defined.

Lemma deleteHabit_rounds_down_sample :
  (1 < List.length (habits seeded_tracker))%nat /\
  habits (state_of (deleteHabit sample_engine (sample_ambient a_wednesday)
                                (VNum (Fin (3 # 2))) seeded_tracker))
  = (firstn 1 (habits seeded_tracker)
     ++ skipn 2 (habits seeded_tracker))%list /\
  returned (deleteHabit sample_engine (sample_ambient a_wednesday)
                        (VNum (Fin (3 # 2))) seeded_tracker)
  = Some true.
Proof.
  assert (H0 : (0 <= 3 # 2)%Q) by (vm_compute; discriminate).
  assert (H1 : (3 # 2
                < inject_Z (Z.of_nat (List.length (habits seeded_tracker))))%Q)
    by (vm_compute; reflexivity).
  pose proof (deleteHabit_rounds_down sample_engine
                (sample_ambient a_wednesday) (VNum (Fin (3 # 2)))
                seeded_tracker (3 # 2) eq_refl H0 H1) as H.
  cbv zeta in H. destruct H as (Hk & Hh & Hr).
  split; [exact Hk|]. split; [exact Hh|].
  apply Hr. vm_compute. reflexivity.
Defined.

Lemma restore_stored_sample :
  targetFrequency week_habit = Fin 3 /\
  restore sample_engine (sample_ambient 0) (stored week_habit) = week_habit.
Proof.
  split; [reflexivity|].
  exact (proj1 (restore_stored sample_engine (sample_ambient 0) week_habit)
               3%Q eq_refl).
Defined.

Lemma relaunch_round_trip_sample :
  write_ok (sample_ambient a_wednesday) = true /\
  habits (HabitTracker_new sample_engine (sample_ambient a_friday)
            (fun _ => sample_ambient a_friday)
            (data_file (saveToFile (sample_ambient a_wednesday)
                                   seeded_tracker)))
  = map reloaded (habits seeded_tracker) /\
  profile (HabitTracker_new sample_engine (sample_ambient a_friday)
             (fun _ => sample_ambient a_friday)
             (data_file (saveToFile (sample_ambient a_wednesday)
                                    seeded_tracker)))
  = profile seeded_tracker.
Proof.
  split; [reflexivity|].
  pose proof (relaunch_round_trip sample_engine (sample_ambient a_wednesday)
                (sample_ambient a_friday) (fun _ => sample_ambient a_friday)
                seeded_tracker eq_refl) as H.
  cbv zeta in H. destruct H as (Hh & _ & Hp & _).
  split; [exact Hh | exact Hp].
Defined.

Lemma addHabit_after_relaunch_sample :
  exists s2 : state,
    addHabit sample_engine (sample_ambient a_friday) "Olahraga"
             (VNum (Fin 3))
             (HabitTracker_new sample_engine (sample_ambient a_friday)
                (fun _ => sample_ambient a_friday)
                (data_file (saveToFile (sample_ambient a_wednesday)
                                       seeded_tracker)))
    = Throw (TypeError "this.user.updateStats is not a function") s2 /\
    stats (profile s2) = stats (profile seeded_tracker) /\
    data_file s2 = Data (snapshot seeded_tracker).
Proof.
  pose proof (addHabit_after_relaunch sample_engine
                (sample_ambient a_wednesday) (sample_ambient a_friday)
                (sample_ambient a_friday) (fun _ => sample_ambient a_friday)
                seeded_tracker "Olahraga" (VNum (Fin 3)) eq_refl) as H.
  cbv zeta in H. destruct H as (s2 & Ht & _ & Hs & Hf).
  exists s2. split; [exact Ht|]. split; [exact Hs | exact Hf].
Defined.

Lemma api_run_stats_in_sync_sample :
  api_run sample_engine sample_tracker /\
  stats (profile sample_tracker) = recomputed (habits sample_tracker) /\
  file_in_sync (data_file sample_tracker).
Proof.
  assert (Hrun : api_run sample_engine sample_tracker).
  { apply (api_addHabit sample_engine launched_tracker
             (sample_ambient a_wednesday) "Read" (VNum (Fin 3))
             sample_habit sample_tracker).
    - exact (api_first sample_engine (sample_ambient a_wednesday)
                       (fun _ => sample_ambient a_wednesday) false).
    - vm_compute. reflexivity. }
  split; [exact Hrun|].
  exact (api_run_stats_in_sync sample_engine sample_tracker Hrun).
Defined.


Lemma getDaysJoined_periods_sample :
  Date_parse iso_engine
             (profile_createdAt (UserProfile_init (sample_ambient a_wednesday)))
  = Some a_wednesday /\
  a_wednesday <= a_friday /\
  exists days : Z,
    getDaysJoined iso_engine (UserProfile_init (sample_ambient a_wednesday))
                  a_friday
    = of_Z days /\
    1 <= days /\
    a_wednesday + (days - 1) * msPerDay <= a_friday
    < a_wednesday + days * msPerDay.
Proof.
  assert (Hp : Date_parse iso_engine
                 (profile_createdAt
                    (UserProfile_init (sample_ambient a_wednesday)))
               = Some a_wednesday) by (vm_compute; reflexivity).
  assert (Hle : a_wednesday <= a_friday)
    by (unfold a_friday, msPerDay, a_wednesday; lia).
  split; [exact Hp|]. split; [exact Hle|].
  destruct (getDaysJoined_periods iso_engine
              (UserProfile_init (sample_ambient a_wednesday))
              a_wednesday a_friday Hp Hle) as (days & Hd & H1 & Hb & _).
  exists days. split; [exact Hd|]. split; [exact H1 | exact Hb].
Defined.

Example getDaysJoined_sample :
  getDaysJoined iso_engine (UserProfile_init (sample_ambient a_wednesday))
                a_friday
  = Fin 3.
Proof. vm_compute. reflexivity. Qed.

Example menu_add_samples :
  returned (menu_add sample_engine sample_trim (fun _ => EmptyString)
                     (sample_ambient a_wednesday) " Olahraga " "3"
                     seeded_tracker)
  = Some "Kebiasaan ditambahkan: Olahraga (target 3/minggu)" /\
  menu_add sample_engine sample_trim (fun _ => EmptyString)
           (sample_ambient a_wednesday) "   " "3" seeded_tracker
  = Return
      "Input tidak valid. Pastikan nama tidak kosong dan target angka >= 0."
      seeded_tracker /\
  menu_add sample_engine sample_trim (fun _ => EmptyString)
           (sample_ambient a_wednesday) "Olahraga" "tiga" seeded_tracker
  = Return
      "Input tidak valid. Pastikan nama tidak kosong dan target angka >= 0."
      seeded_tracker.
Proof. repeat split; vm_compute; reflexivity. Qed.

Lemma menu_add_checks_sample :
  sample_trim " Olahraga " <> EmptyString /\
  exists h : Habit,
    name h = "Olahraga" /\ targetFrequency h = Fin 3 /\ admissible h /\
    habits menu_tracker = (habits seeded_tracker ++ [h])%list.
Proof.
  assert (Hn : sample_trim " Olahraga " <> EmptyString)
    by (vm_compute; discriminate).
  split; [exact Hn|].
  pose proof (menu_add_checks sample_engine sample_trim
                (fun _ => EmptyString) (sample_ambient a_wednesday)
                " Olahraga " "3" seeded_tracker) as H.
  cbv zeta in H. destruct H as (_ & H).
  destruct (H Hn ltac:(vm_compute; discriminate)
              ltac:(vm_compute; reflexivity))
    as (h & _ & Hname & Ht & Ha & Hh & _).
  exists h. split; [exact Hname|]. split; [exact Ht|]. split; [exact Ha|].
  exact Hh.
Defined.

Lemma session_habits_admissible_sample :
  session sample_engine sample_trim (fun _ => EmptyString) menu_tracker /\
  In menu_habit (habits menu_tracker) /\
  name menu_habit <> EmptyString /\
  num_le (Fin 0) (targetFrequency menu_habit) /\
  targetFrequency menu_habit <> NaN.
Proof.
  assert (Hs : session sample_engine sample_trim (fun _ => EmptyString)
                       menu_tracker).
  { exact (session_add sample_engine sample_trim (fun _ => EmptyString)
             seeded_tracker (sample_ambient a_wednesday) " Olahraga " "3"
             (session_first sample_engine sample_trim (fun _ => EmptyString)
                (fun _ => sample_ambient a_wednesday)
                (fun _ => sample_ambient a_wednesday) false)). }
  assert (Hin : In menu_habit (habits menu_tracker))
    by (vm_compute; right; right; left; reflexivity).
  split; [exact Hs|]. split; [exact Hin|].
  exact (session_habits_admissible sample_engine sample_trim
           (fun _ => EmptyString) menu_tracker menu_habit Hs Hin).
Defined.

Example displayHabits_sample :
  displayHabits sample_engine (fun _ => EmptyString) (fun _ => a_wednesday)
                "all" seeded_tracker
  = ([ "---- Daftar Kebiasaan ----";
       "0. Belajar coding (2/5 per minggu - 🔜 Belum selesai)";
       "   [########------------] 40%";
       "1. Membaca buku (0/3 per minggu - 🔜 Belum selesai)";
       "   [--------------------] 0%";
       "---------------------------" ++ newline ], None).
Proof. vm_compute. reflexivity. Qed.

(** In a filtered view the number printed is the position among the habits
    shown: here the habit at index 1 is listed as number 0. *)
Example displayHabits_active_sample :
  displayHabits sample_engine (fun _ => EmptyString) (fun _ => a_wednesday)
                "active" mixed_tracker
  = ([ "---- Daftar Kebiasaan ----";
       "0. Membaca buku (0/3 per minggu - 🔜 Belum selesai)";
       "   [--------------------] 0%";
       "---------------------------" ++ newline ], None)
  /\ nth_error (habits mixed_tracker) 1 = Some second_habit
  /\ name second_habit = "Membaca buku".
Proof. repeat split; vm_compute; reflexivity. Qed.

Example displayStats_sample :
  displayStats sample_engine (fun _ => EmptyString) (fun _ => a_wednesday)
               seeded_tracker
  = [ "---- Statistik Ringkas ----";
      "Total kebiasaan: 2";
      "Selesai minggu ini: 0";
      "Belum selesai: 2";
      "Nama kebiasaan: Belajar coding, Membaca buku";
      "Paling aktif minggu ini: Belajar coding (2 kali)";
      "---------------------------" ++ newline ].
Proof. vm_compute. reflexivity. Qed.

Lemma displayed_index_is_accepted_sample :
  nth_error (habits seeded_tracker) 1 = Some second_habit /\
  num_eq (StringToNumber sample_engine (decimal 1)) (of_nat 1) /\
  nth_error
    (fst (displayHabits sample_engine (fun _ => EmptyString)
                        (fun _ => a_wednesday) "all" seeded_tracker)) 3
  = Some ("1. " ++ name second_habit ++ " ("
          ++ getStatus sample_engine (fun _ => EmptyString) second_habit
                       (Some a_wednesday) ++ ")") /\
  habits (state_of (deleteHabit sample_engine (sample_ambient a_wednesday)
                                (VStr "1") seeded_tracker))
  = (firstn 1 (habits seeded_tracker)
     ++ skipn 2 (habits seeded_tracker))%list.
Proof.
  assert (Hn : nth_error (habits seeded_tracker) 1 = Some second_habit)
    by (vm_compute; reflexivity).
  assert (Hr : num_eq (StringToNumber sample_engine (decimal 1)) (of_nat 1))
    by (vm_compute; reflexivity).
  split; [exact Hn|]. split; [exact Hr|].
  pose proof (displayed_index_is_accepted sample_engine
                (fun _ => EmptyString) (fun _ => a_wednesday)
                (sample_ambient a_wednesday) seeded_tracker 1 second_habit
                ltac:(vm_compute; reflexivity) Hn Hr) as H.
  cbv zeta in H. destruct H as (_ & _ & Hline & _ & Hdel).
  split; [exact Hline | exact Hdel].
Defined.
